(** * Order normalisation, listing parameters and search escaping of the
      coursework backend (Express + MongoDB), embedded in Rocq.

    The development follows the two server files of the repository:
    the full server (rate limits, compression, request ids; module
    [Part000]) and the earlier, smaller server (module [Part001]).  It
    also covers the allowlist of origins (modules [Cors] and, for the
    annotated copy of the full server, [Annotated]), the lazy connection
    ([Connection]), the reading routes ([Routes]) and the seed script
    ([Seed]).

    Request bodies are what [express.json()] hands to the routes: parsed
    JSON.  The language operations the handlers lean on ([Number(..)],
    [String(..)], [||], [typeof], property reads) are modelled in module
    [JS], and the expressions of [RegExp] in module [RegExp], after
    ECMA-262, including the places where they raise.

    Strings: a JavaScript string is modelled by a Rocq [string], one
    [ascii] per UTF-16 code unit, so the model covers the strings whose
    code units lie below 256 (ASCII and Latin-1).

    Numbers: IEEE 754 binary64, through the Standard Library's
    [spec_float] ([prec = 53], [emax = 1024]). *)

From Stdlib Require Import ZArith List String Ascii Bool Lia SpecFloat.
From Stdlib Require Import DecimalString.
Import ListNotations.
Local Open Scope string_scope.
Local Open Scope Z_scope.

Set Implicit Arguments.
Set Warnings "-register-all".

(* ===================================================================== *)
(** * Results of computations that may raise *)
(* ===================================================================== *)

(** The exceptions the modelled fragment can raise. *)
Inductive exn : Type :=
| TypeError
| SyntaxError
| BSONError.

(** An evaluation either returns a value or raises. *)
Inductive result (A : Type) : Type :=
| Ok (a : A)
| Throw (e : exn).
Arguments Ok {A} a.
Arguments Throw {A} e.

Definition bind {A B} (m : result A) (k : A -> result B) : result B :=
  match m with
  | Ok a => k a
  | Throw e => Throw e
  end.

Declare Scope js_scope.
Delimit Scope js_scope with js.
Notation "x <- m ;; k" := (bind m (fun x => k))
  (at level 61, m at next level, right associativity) : js_scope.
Local Open Scope js_scope.

(** [items.map(f)] and [for (const it of items)] with a callback that may
    raise: elements are visited in array order and the first exception
    ends the traversal. *)
Fixpoint mapM {A B} (f : A -> result B) (l : list A) : result (list B) :=
  match l with
  | [] => Ok []
  | a :: l' => b <- f a ;; bs <- mapM f l' ;; Ok (b :: bs)
  end.

Definition returns {A} (m : result A) : bool :=
  match m with Ok _ => true | Throw _ => false end.

(* ===================================================================== *)
(** * Characters and strings *)
(* ===================================================================== *)

Module Str.

Definition code (c : ascii) : N := N_of_ascii c.

Definition in_range (lo hi : ascii) (c : ascii) : bool :=
  (code lo <=? code c)%N && (code c <=? code hi)%N.

Definition is_digit (c : ascii) : bool := in_range "0" "9" c.
Definition is_upper (c : ascii) : bool := in_range "A" "Z" c.
Definition is_lower (c : ascii) : bool := in_range "a" "z" c.
Definition is_letter (c : ascii) : bool := is_upper c || is_lower c.
Definition is_space (c : ascii) : bool := Ascii.eqb c " ".
Definition is_hex (c : ascii) : bool :=
  is_digit c || in_range "a" "f" c || in_range "A" "F" c.

(** WhiteSpace and LineTerminator code units below 256:
    TAB, LF, VT, FF, CR, SP and NBSP. *)
Definition is_whitespace (c : ascii) : bool :=
  let n := code c in
  ((9 <=? n) && (n <=? 13) || (n =? 32) || (n =? 160))%N.

(** Latin-1 letters with a case pair inside Latin-1: U+00C0..U+00DE but
    U+00D7 (upper), U+00E0..U+00FE but U+00F7 (lower). *)
Definition is_latin1_upper (c : ascii) : bool :=
  let n := code c in ((192 <=? n) && (n <=? 222) && negb (n =? 215))%N.
Definition is_latin1_lower (c : ascii) : bool :=
  let n := code c in ((224 <=? n) && (n <=? 254) && negb (n =? 247))%N.

Definition shift_code (d : Z) (c : ascii) : ascii :=
  ascii_of_N (Z.to_N (Z.of_N (code c) + d)).

(** One code unit of [String.prototype.toLowerCase]. *)
Definition lower_char (c : ascii) : ascii :=
  if is_upper c || is_latin1_upper c then shift_code 32 c else c.

(** One code unit of [toUpperCase], when the result is a single code
    unit below 256; the other code units are left as they are. *)
Definition upper_char (c : ascii) : ascii :=
  if is_lower c || is_latin1_lower c then shift_code (-32) c else c.

Fixpoint map (f : ascii -> ascii) (s : string) : string :=
  match s with
  | EmptyString => EmptyString
  | String c s' => String (f c) (map f s')
  end.

Definition toLowerCase (s : string) : string := map lower_char s.

Fixpoint forallb (p : ascii -> bool) (s : string) : bool :=
  match s with
  | EmptyString => true
  | String c s' => p c && forallb p s'
  end.

Fixpoint existsb (p : ascii -> bool) (s : string) : bool :=
  match s with
  | EmptyString => false
  | String c s' => p c || existsb p s'
  end.

Definition is_empty (s : string) : bool :=
  match s with EmptyString => true | _ => false end.

Fixpoint trimStart (s : string) : string :=
  match s with
  | String c s' => if is_whitespace c then trimStart s' else s
  | EmptyString => EmptyString
  end.

Fixpoint rev_acc (s acc : string) : string :=
  match s with
  | EmptyString => acc
  | String c s' => rev_acc s' (String c acc)
  end.
Definition rev (s : string) : string := rev_acc s EmptyString.

(** [String.prototype.trim]. *)
Definition trim (s : string) : string := rev (trimStart (rev (trimStart s))).

(** [Array.prototype.join] on already converted elements. *)
Fixpoint join (sep : string) (l : list string) : string :=
  match l with
  | [] => ""
  | [s] => s
  | s :: l' => s ++ sep ++ join sep l'
  end.

Fixpoint repeat (c : ascii) (n : nat) : string :=
  match n with
  | O => EmptyString
  | S n' => String c (repeat c n')
  end.

End Str.

(* ===================================================================== *)
(** * Numbers: binary64 *)
(* ===================================================================== *)

Module Num.

Definition number : Type := spec_float.

Definition prec : Z := 53.
Definition emax : Z := 1024.

Definition NaN : number := S754_nan.
Definition Infinity : number := S754_infinity false.

(** The number nearest to an integer (round to nearest, ties to even). *)
Definition of_Z (z : Z) : number := binary_normalize prec emax z 0 false.

Definition isNaN (x : number) : bool :=
  match x with S754_nan => true | _ => false end.

(** [Number.isFinite] on a number. *)
Definition isFinite (x : number) : bool :=
  match x with
  | S754_zero _ | S754_finite _ _ _ => true
  | S754_infinity _ | S754_nan => false
  end.

Definition isZero (x : number) : bool :=
  match x with S754_zero _ => true | _ => false end.

Definition isNegZero (x : number) : bool :=
  match x with S754_zero true => true | _ => false end.

(** [x < y] and [x <= y]; both are false when an operand is NaN. *)
Definition ltb (x y : number) : bool := SFltb x y.
Definition leb (x y : number) : bool := SFleb x y.

(** Structural equality of representations. *)
Definition same (x y : number) : bool :=
  match x, y with
  | S754_zero a, S754_zero b => Bool.eqb a b
  | S754_infinity a, S754_infinity b => Bool.eqb a b
  | S754_nan, S754_nan => true
  | S754_finite a m e, S754_finite b m' e' =>
      Bool.eqb a b && Pos.eqb m m' && Z.eqb e e'
  | _, _ => false
  end.

(** [Math.max(a, b)]: NaN if either is NaN, [+0] above [-0]. *)
Definition Math_max (a b : number) : number :=
  if isNaN a || isNaN b then NaN
  else if ltb a b then b
  else if ltb b a then a
  else if isNegZero a then b else a.

(** [Math.min(a, b)]: NaN if either is NaN, [-0] below [+0]. *)
Definition Math_min (a b : number) : number :=
  if isNaN a || isNaN b then NaN
  else if ltb b a then b
  else if ltb a b then a
  else if isNegZero b then b else a.

(** ** Decimal text to number *)

(** The number nearest to [num / den], for [0 <= num] and [0 < den]. *)
Definition of_ratio (neg : bool) (num den : Z) : number :=
  if num =? 0 then S754_zero neg
  else
    let '(q, e, l) := SFdiv_core_binary prec emax num 0 den 0 in
    binary_round_aux prec emax neg q e l.

(** The number nearest to [m * 10^e], for [0 <= m].  Exponents far
    outside the binary64 range are settled without building the power. *)
Definition of_decimal (neg : bool) (m e : Z) : number :=
  if m =? 0 then S754_zero neg
  else if 310 <? e then S754_infinity neg
  else if Z.log2 m / 3 + 2 + e <? -330 then S754_zero neg
  else if 0 <=? e then of_ratio neg (m * 10 ^ e) 1
  else of_ratio neg m (10 ^ (- e)).

Definition digit_val (c : ascii) : Z :=
  let n := Z.of_N (Str.code c) in
  if Str.is_digit c then n - 48
  else if Str.in_range "a" "f" c then n - 87
  else if Str.in_range "A" "F" c then n - 55
  else 0.

Fixpoint digits_acc (base : Z) (s : string) (acc : Z) : Z :=
  match s with
  | EmptyString => acc
  | String c s' => digits_acc base s' (acc * base + digit_val c)
  end.
Definition digits_value (base : Z) (s : string) : Z := digits_acc base s 0.

(** Longest prefix satisfying [p], and the rest. *)
Fixpoint span (p : ascii -> bool) (s : string) : string * string :=
  match s with
  | String c s' =>
      if p c then let '(a, b) := span p s' in (String c a, b)
      else (EmptyString, s)
  | EmptyString => (EmptyString, EmptyString)
  end.

Definition is_bin (c : ascii) : bool := Str.in_range "0" "1" c.
Definition is_oct (c : ascii) : bool := Str.in_range "0" "7" c.

(** NonDecimalIntegerLiteral body: one or more digits of the base. *)
Definition radix_literal (p : ascii -> bool) (base : Z) (s : string) : number :=
  if negb (Str.is_empty s) && Str.forallb p s
  then of_Z (digits_value base s) else NaN.

(** ExponentPart, after the [e]. *)
Definition exponent_part (s : string) : option Z :=
  let '(neg, ds) :=
    match s with
    | String "+" r => (false, r)
    | String "-" r => (true, r)
    | _ => (false, s)
    end in
  if negb (Str.is_empty ds) && Str.forallb Str.is_digit ds
  then Some (if neg then - digits_value 10 ds else digits_value 10 ds)
  else None.

(** StrUnsignedDecimalLiteral. *)
Definition unsigned_decimal (neg : bool) (s : string) : number :=
  if String.eqb s "Infinity" then S754_infinity neg
  else
    let '(ip, r1) := span Str.is_digit s in
    let '(fp, r2) :=
      match r1 with
      | String "." r => span Str.is_digit r
      | _ => (EmptyString, r1)
      end in
    if Str.is_empty ip && Str.is_empty fp then NaN
    else
      let m := digits_value 10 (ip ++ fp) in
      let sh := Z.of_nat (String.length fp) in
      match r2 with
      | EmptyString => of_decimal neg m (- sh)
      | String c r =>
          if Ascii.eqb c "e" || Ascii.eqb c "E" then
            match exponent_part r with
            | Some ex => of_decimal neg m (ex - sh)
            | None => NaN
            end
          else NaN
      end.

(** StringToNumber (ECMA-262, 7.1.4.1.1). *)
Definition of_string (s : string) : number :=
  match Str.trim s with
  | EmptyString => S754_zero false
  | String "0" (String "x" r) | String "0" (String "X" r) =>
      radix_literal Str.is_hex 16 r
  | String "0" (String "o" r) | String "0" (String "O" r) =>
      radix_literal is_oct 8 r
  | String "0" (String "b" r) | String "0" (String "B" r) =>
      radix_literal is_bin 2 r
  | String "+" r => unsigned_decimal false r
  | String "-" r => unsigned_decimal true r
  | t => unsigned_decimal false t
  end.

(** ** Number to decimal text *)

Definition nat_string (z : Z) : string :=
  NilZero.string_of_uint (N.to_uint (Z.to_N z)).

(** [floor (num / den * 10^p)] and whether twice the remainder is below,
    at or above the divisor. *)
Definition scaled (num den p : Z) : Z * comparison :=
  let '(a, b) :=
    if 0 <=? p then (num * 10 ^ p, den) else (num, den * 10 ^ (- p)) in
  (a / b, Z.compare (2 * (a mod b)) b).

(** Least [n], searched upwards from [n0], with [num / den < 10^n]. *)
Fixpoint decimal_exponent (fuel : nat) (num den n0 : Z) : Z :=
  match fuel with
  | O => n0
  | S f =>
      let below :=
        if 0 <=? n0 then num <? den * 10 ^ n0
        else num * 10 ^ (- n0) <? den in
      if below then n0 else decimal_exponent f num den (n0 + 1)
  end.

(** The digits [s], of length [k], and the exponent [n] of
    Number::toString: [k] least such that [s * 10^(n-k)] reads back as
    [x]; among the candidates the one nearest to [x], the even one on a
    tie.  [k] runs from [k0] upwards, as far as [fuel] allows. *)
Fixpoint shortest (fuel : nat) (x : number) (num den n k : Z) : Z * Z :=
  let '(lo, c) := scaled num den (k - n) in
  let hi := lo + 1 in
  let ok_lo := (10 ^ (k - 1) <=? lo) && same (of_decimal false lo (n - k)) x in
  let ok_hi := same (of_decimal false hi (n - k)) x in
  let pick_hi :=
    match c with
    | Lt => false
    | Gt => true
    | Eq => Z.odd lo
    end in
  match fuel with
  | O => (if pick_hi then hi else lo, k)
  | S f =>
      if ok_lo && ok_hi then (if pick_hi then hi else lo, k)
      else if ok_lo then (lo, k)
      else if ok_hi then (hi, k)
      else shortest f x num den n (k + 1)
  end.

Fixpoint strip_zeros_rev (s : string) : string :=
  match s with
  | String "0" s' => strip_zeros_rev s'
  | _ => s
  end.
Definition strip_trailing_zeros (s : string) : string :=
  Str.rev (strip_zeros_rev (Str.rev s)).

Fixpoint take (n : nat) (s : string) : string :=
  match n, s with
  | S n', String c s' => String c (take n' s')
  | _, _ => EmptyString
  end.
Fixpoint drop (n : nat) (s : string) : string :=
  match n, s with
  | S n', String c s' => drop n' s'
  | _, _ => s
  end.

(** Layout of the digits [ds] with decimal exponent [n]
    (Number::toString, radix 10, steps 6 to 12). *)
Definition layout (ds : string) (n : Z) : string :=
  let k := Z.of_nat (String.length ds) in
  if (k <=? n) && (n <=? 21) then ds ++ Str.repeat "0" (Z.to_nat (n - k))
  else if (0 <? n) && (n <=? 21) then
    take (Z.to_nat n) ds ++ "." ++ drop (Z.to_nat n) ds
  else if (-6 <? n) && (n <=? 0) then
    "0." ++ Str.repeat "0" (Z.to_nat (- n)) ++ ds
  else
    let ex := (if 0 <=? n - 1 then "+" else "-") ++ nat_string (Z.abs (n - 1)) in
    if k =? 1 then ds ++ "e" ++ ex
    else take 1 ds ++ "." ++ drop 1 ds ++ "e" ++ ex.

Definition positive_to_string (m : positive) (e : Z) : string :=
  let '(num, den) :=
    if 0 <=? e then (Zpos m * 2 ^ e, 1) else (Zpos m, 2 ^ (- e)) in
  let est := (Z.log2 num - Z.log2 den - 1) * 30103 / 100000 - 1 in
  let n := decimal_exponent 16 num den est in
  let '(s, k) := shortest 17 (S754_finite false m e) num den n 1 in
  let all := nat_string s in
  (* [s = 10^k] stands for the single digit 1 one decade higher *)
  let n' := if Z.of_nat (String.length all) =? k then n else n + 1 in
  layout (strip_trailing_zeros all) n'.

(** Number::toString (ECMA-262, 6.1.6.1.20), radix 10. *)
Definition to_string (x : number) : string :=
  match x with
  | S754_nan => "NaN"
  | S754_zero _ => "0"
  | S754_infinity s => if s then "-Infinity" else "Infinity"
  | S754_finite s m e =>
      (if s then "-" else "") ++ positive_to_string m e
  end.

End Num.

(* ===================================================================== *)
(** * JavaScript values of the handlers *)
(* ===================================================================== *)

Module JS.

Import Num.

(** What [JSON.parse] builds.  An object is the list of its own
    properties in insertion order; a parsed object holds a key at most
    once, and a read takes the first entry of the key. *)
Inductive json : Type :=
| JNull
| JBool (b : bool)
| JNum (x : number)
| JStr (s : string)
| JArr (elems : list json)
| JObj (props : list (string * json)).

(** A value is parsed JSON or [undefined] (a missing body, a missing
    property, a missing query parameter). *)
Definition value : Type := option json.
Definition undefined : value := None.

Fixpoint lookup (k : string) (props : list (string * json)) : value :=
  match props with
  | [] => None
  | (k', v) :: rest => if String.eqb k k' then Some v else lookup k rest
  end.

Definition has_own (k : string) (props : list (string * json)) : bool :=
  match lookup k props with Some _ => true | None => false end.

(** ToBoolean. *)
Definition ToBoolean (v : value) : bool :=
  match v with
  | None | Some JNull => false
  | Some (JBool b) => b
  | Some (JNum x) => negb (isZero x || isNaN x)
  | Some (JStr s) => negb (Str.is_empty s)
  | Some (JArr _) | Some (JObj _) => true
  end.

(** [a || b]. *)
Definition or_else (a b : value) : value := if ToBoolean a then a else b.

(** ToString on parsed JSON.  An array goes through
    [Array.prototype.join]: [null] elements give the empty text, the
    others are converted in turn.  An object has no [Symbol.toPrimitive];
    OrdinaryToPrimitive tries [toString], then [valueOf]: an own
    [toString] property, which parsed JSON can only bind to a value that
    is not callable, hides [Object.prototype.toString], and [valueOf]
    (own: not callable; inherited: returns the object) yields no
    primitive, so the conversion raises a TypeError. *)
Fixpoint ToString_json (j : json) : result string :=
  match j with
  | JNull => Ok "null"
  | JBool b => Ok (if b then "true" else "false")
  | JNum x => Ok (to_string x)
  | JStr s => Ok s
  | JArr elems =>
      parts <- (fix each (l : list json) : result (list string) :=
                  match l with
                  | [] => Ok []
                  | e :: l' =>
                      s <- match e with
                           | JNull => Ok ""
                           | _ => ToString_json e
                           end ;;
                      ss <- each l' ;;
                      Ok (s :: ss)
                  end) elems ;;
      Ok (Str.join "," parts)
  | JObj props =>
      if has_own "toString" props then Throw TypeError
      else Ok "[object Object]"
  end.

(** [String(v)]. *)
Definition ToString (v : value) : result string :=
  match v with
  | None => Ok "undefined"
  | Some j => ToString_json j
  end.

(** [Number(v)].  Arrays and objects are first brought to a primitive
    with hint number: [valueOf] returns no primitive, so the text of
    [toString] is read as a number. *)
Definition ToNumber (v : value) : result number :=
  match v with
  | None => Ok NaN
  | Some JNull => Ok (S754_zero false)
  | Some (JBool b) => Ok (if b then of_Z 1 else S754_zero false)
  | Some (JNum x) => Ok x
  | Some (JStr s) => Ok (of_string s)
  | Some ((JArr _ | JObj _) as j) =>
      s <- ToString_json j ;; Ok (of_string s)
  end.

(** [typeof v === 'string'], with the string when it holds. *)
Definition as_string (v : value) : option string :=
  match v with Some (JStr s) => Some s | _ => None end.

(** [Array.isArray(v)], with the elements when it holds. *)
Definition as_array (v : value) : option (list json) :=
  match v with Some (JArr l) => Some l | _ => None end.

(** [typeof v !== 'undefined']. *)
Definition is_defined (v : value) : bool :=
  match v with None => false | Some _ => true end.

(** [v.k], for the keys the handlers read ([name], [phone], [items],
    [lessonIDs], [space], [lessonId], [lessonID], [id]): none of them is
    a property of [Object.prototype], [Array.prototype] or of the
    wrappers of primitives, so only an own property of an object answers;
    a read on [null] or [undefined] raises. *)
Definition Get (v : value) (k : string) : result value :=
  match v with
  | None | Some JNull => Throw TypeError
  | Some (JObj props) => Ok (lookup k props)
  | Some _ => Ok None
  end.

End JS.

(* ===================================================================== *)
(** * The driver's identifiers *)
(* ===================================================================== *)

Module Bson.

(** An identifier of the store: twelve bytes, kept as the 24 lower-case
    hexadecimal digits of [toHexString()]. *)
Inductive ObjectId : Type := OID (hex : string).

Definition valid_hex (s : string) : bool :=
  Nat.eqb (String.length s) 24 && Str.forallb Str.is_hex s.

(** Modelled from the spec: the constructor [new ObjectId(s)] of the
    MongoDB driver, which is not part of the repository, on a string
    argument.  A string of 24 hexadecimal digits decodes; any other
    (wrong length, invalid characters) raises. *)
Definition new_ObjectId (s : string) : result ObjectId :=
  if valid_hex s then Ok (OID (Str.toLowerCase s)) else Throw BSONError.

End Bson.

(* ===================================================================== *)
(** * Regular expressions *)
(* ===================================================================== *)

Module RegExp.

(** Patterns, after parsing.  Groups are kept as their body: nothing in
    the handlers refers back to a capture. *)
Inductive re : Type :=
| Empty
| Char (c : ascii)
| Dot
| Class (negated : bool) (ranges : list (ascii * ascii))
| Seq (r1 r2 : re)
| Alt (r1 r2 : re)
| Repeat (min : nat) (max : option nat) (r : re)
| AssertStart
| AssertEnd.

(** The SyntaxCharacter set of the pattern grammar. *)
Definition syntax_chars : list ascii :=
  ["^"; "$"; "\"; "."; "*"; "+"; "?"; "("; ")"; "["; "]"; "{"; "}"; "|"]%char.

Definition mem (c : ascii) (l : list ascii) : bool :=
  List.existsb (Ascii.eqb c) l.

Definition SyntaxCharacter (c : ascii) : bool := mem c syntax_chars.

(** ** Parsing *)

Definition digit_ranges : list (ascii * ascii) := [("0", "9")]%char.
Definition word_ranges : list (ascii * ascii) :=
  [("a", "z"); ("A", "Z"); ("0", "9"); ("_", "_")]%char.
Definition space_ranges : list (ascii * ascii) :=
  [(ascii_of_N 9, ascii_of_N 13); (" ", " "); (ascii_of_N 160, ascii_of_N 160)]%char.

(** ControlEscape. *)
Definition control_escape (c : ascii) : option ascii :=
  (match c with
   | "t" => Some (ascii_of_N 9)
   | "n" => Some (ascii_of_N 10)
   | "v" => Some (ascii_of_N 11)
   | "f" => Some (ascii_of_N 12)
   | "r" => Some (ascii_of_N 13)
   | _ => None
   end)%char.

(** CharacterClassEscape. *)
Definition class_escape (c : ascii) : option re :=
  (match c with
   | "d" => Some (Class false digit_ranges)
   | "D" => Some (Class true digit_ranges)
   | "w" => Some (Class false word_ranges)
   | "W" => Some (Class true word_ranges)
   | "s" => Some (Class false space_ranges)
   | "S" => Some (Class true space_ranges)
   | _ => None
   end)%char.

(** Escapes outside the modelled fragment: word boundaries, back
    references and numeric escapes, [\c], [\k], [\x], [\u], [\p]. *)
Definition unsupported_escape (c : ascii) : bool :=
  Str.is_digit c || mem c ["b"; "B"; "c"; "k"; "x"; "u"; "p"; "P"]%char.

(** AtomEscape: the character after the backslash.  A syntax character,
    like any character without a meaning of its own, stands for itself
    (IdentityEscape). *)
Definition atom_escape (c : ascii) : option re :=
  match class_escape c with
  | Some r => Some r
  | None =>
      match control_escape c with
      | Some d => Some (Char d)
      | None => if unsupported_escape c then None else Some (Char c)
      end
  end.

(** [{n}], [{n,}] or [{n,m}] after the opening brace. *)
Definition braces (s : string) : option (nat * option nat * string) :=
  let '(a, r1) := Num.span Str.is_digit s in
  if Str.is_empty a then None
  else
    let lo := Z.to_nat (Num.digits_value 10 a) in
    match r1 with
    | String "}" r => Some (lo, Some lo, r)
    | String "," (String "}" r) => Some (lo, None, r)
    | String "," r2 =>
        let '(b, r3) := Num.span Str.is_digit r2 in
        match r3 with
        | String "}" r =>
            if Str.is_empty b then None
            else Some (lo, Some (Z.to_nat (Num.digits_value 10 b)), r)
        | _ => None
        end
    | _ => None
    end.

Definition skip_lazy (s : string) : string :=
  match s with String "?" r => r | _ => s end.

(** An atom with the quantifier that follows it, if any. *)
Definition quantified (r : re) (s : string) : option (re * string) :=
  match s with
  | String "*" t => Some (Repeat 0 None r, skip_lazy t)
  | String "+" t => Some (Repeat 1 None r, skip_lazy t)
  | String "?" t => Some (Repeat 0 (Some 1%nat) r, skip_lazy t)
  | String "{" t =>
      match braces t with
      | Some (lo, hi, t') =>
          match hi with
          | Some h => if Nat.ltb h lo then None
                      else Some (Repeat lo hi r, skip_lazy t')
          | None => Some (Repeat lo hi r, skip_lazy t')
          end
      | None => Some (r, s)
      end
  | _ => Some (r, s)
  end.

(** ClassRanges up to the closing bracket. *)
Fixpoint class_ranges (s : string) (acc : list (ascii * ascii))
  : option (list (ascii * ascii) * string) :=
  match s with
  | EmptyString => None
  | String "]" t => Some (List.rev acc, t)
  | String "\" (String c t) =>
      match c with
      | "d"%char => class_ranges t (List.rev_append digit_ranges acc)
      | "w"%char => class_ranges t (List.rev_append word_ranges acc)
      | "s"%char => class_ranges t (List.rev_append space_ranges acc)
      | "b"%char => class_ranges t ((ascii_of_N 8, ascii_of_N 8) :: acc)
      | _ =>
          match control_escape c with
          | Some d => class_ranges t ((d, d) :: acc)
          | None =>
              if unsupported_escape c || mem c ["D"; "W"; "S"]%char then None
              else class_ranges t ((c, c) :: acc)
          end
      end
  | String "\" EmptyString => None
  | String lo (String "-" (String hi t)) =>
      if Ascii.eqb hi "]" then Some (List.rev (("-", "-")%char :: (lo, lo) :: acc), t)
      else if Ascii.eqb hi "\" then None
      else if (Str.code hi <? Str.code lo)%N then None
      else class_ranges t ((lo, hi) :: acc)
  | String c t => class_ranges t ((c, c) :: acc)
  end.

Definition char_class (s : string) : option (re * string) :=
  match s with
  | String "^" t =>
      match class_ranges t [] with
      | Some (rs, t') => Some (Class true rs, t')
      | None => None
      end
  | _ =>
      match class_ranges s [] with
      | Some (rs, t') => Some (Class false rs, t')
      | None => None
      end
  end.

(** Disjunction, Alternative and Term of the pattern grammar.  [None]
    stands for a SyntaxError or a construct outside the fragment. *)
Fixpoint disjunction (fuel : nat) (s : string) : option (re * string) :=
  match fuel with
  | O => None
  | S f =>
      match alternative f s with
      | Some (r, String "|" t) =>
          match disjunction f t with
          | Some (r', t') => Some (Alt r r', t')
          | None => None
          end
      | other => other
      end
  end
with alternative (fuel : nat) (s : string) : option (re * string) :=
  match fuel with
  | O => None
  | S f =>
      match s with
      | EmptyString | String "|" _ | String ")" _ => Some (Empty, s)
      | _ =>
          match term f s with
          | Some (r, t) =>
              match alternative f t with
              | Some (r', t') => Some (Seq r r', t')
              | None => None
              end
          | None => None
          end
      end
  end
with term (fuel : nat) (s : string) : option (re * string) :=
  match fuel with
  | O => None
  | S f =>
      match s with
      | EmptyString => None
      | String "^" t => Some (AssertStart, t)
      | String "$" t => Some (AssertEnd, t)
      | String "." t => quantified Dot t
      | String "[" t =>
          match char_class t with
          | Some (r, t') => quantified r t'
          | None => None
          end
      | String "\" (String c t) =>
          match atom_escape c with
          | Some r => quantified r t
          | None => None
          end
      | String "\" EmptyString => None
      | String "(" t =>
          let body :=
            match t with
            | String "?" (String ":" t') => Some t'
            | String "?" _ => None
            | _ => Some t
            end in
          match body with
          | Some b =>
              match disjunction f b with
              | Some (r, String ")" t') => quantified r t'
              | _ => None
              end
          | None => None
          end
      | String "*" _ | String "+" _ | String "?" _ | String ")" _
      | String "|" _ => None
      | String "{" t =>
          match braces t with
          | Some _ => None
          | None => quantified (Char "{") t
          end
      | String c t => quantified (Char c) t
      end
  end.

Definition parse (pattern : string) : option re :=
  match disjunction (3 * String.length pattern + 3) pattern with
  | Some (r, EmptyString) => Some r
  | _ => None
  end.

(** ** Matching *)

(** A position in the subject: whether it is the start, and what is left
    to read. *)
Definition position : Type := bool * string.

(** Canonicalize (without the [u] flag): upper case of one code unit. *)
Definition canonicalize (ignoreCase : bool) (c : ascii) : ascii :=
  if ignoreCase then Str.upper_char c else c.

Definition char_eq (ic : bool) (c d : ascii) : bool :=
  Ascii.eqb (canonicalize ic c) (canonicalize ic d).

(** Is some member of [lo..hi] equal to [c] after canonicalisation? *)
Definition range_has (ic : bool) (c : ascii) (r : ascii * ascii) : bool :=
  let '(lo, hi) := r in
  Str.in_range lo hi c
  || (ic && (Str.in_range lo hi (Str.upper_char c)
             || Str.in_range lo hi (Str.lower_char c))).

Definition class_has (ic : bool) (negated : bool)
    (ranges : list (ascii * ascii)) (c : ascii) : bool :=
  xorb negated (List.existsb (range_has ic c) ranges).

Definition line_terminator (c : ascii) : bool :=
  (Str.code c =? 10)%N || (Str.code c =? 13)%N.

(** One character read by a predicate. *)
Definition read (p : ascii -> bool) (x : position) : list position :=
  match snd x with
  | String c rest => if p c then [(false, rest)] else []
  | EmptyString => []
  end.

Definition shorter (x y : position) : bool :=
  Nat.ltb (String.length (snd y)) (String.length (snd x)).

(** Exactly [n] rounds of [step]. *)
Fixpoint rounds (step : position -> list position) (n : nat) (x : position)
  : list position :=
  match n with
  | O => [x]
  | S n' => List.flat_map (rounds step n') (step x)
  end.

(** Any number of further rounds, at most [extra] when it is given; a
    further round has to read something. *)
Fixpoint more (step : position -> list position) (fuel : nat)
    (extra : option nat) (x : position) : list position :=
  x ::
  match fuel with
  | O => []
  | S f =>
      match extra with
      | Some O => []
      | _ =>
          List.flat_map (more step f (option_map Nat.pred extra))
            (List.filter (shorter x) (step x))
      end
  end.

(** The positions where a match of [r] begun at [x] can end. *)
Fixpoint run (ic : bool) (r : re) (x : position) : list position :=
  match r with
  | Empty => [x]
  | Char c => read (char_eq ic c) x
  | Dot => read (fun d => negb (line_terminator d)) x
  | Class negated ranges => read (class_has ic negated ranges) x
  | Seq r1 r2 => List.flat_map (run ic r2) (run ic r1 x)
  | Alt r1 r2 => run ic r1 x ++ run ic r2 x
  | Repeat lo hi r' =>
      List.flat_map
        (more (run ic r') (String.length (snd x))
              (option_map (fun h => (h - lo)%nat) hi))
        (rounds (run ic r') lo x)
  | AssertStart => if fst x then [x] else []
  | AssertEnd => if Str.is_empty (snd x) then [x] else []
  end.

Definition matches_at (ic : bool) (r : re) (x : position) : bool :=
  match run ic r x with [] => false | _ :: _ => true end.

(** A match may begin at any index of the subject. *)
Fixpoint search (ic : bool) (r : re) (start : bool) (s : string) : bool :=
  matches_at ic r (start, s)
  || match s with
     | String _ rest => search ic r false rest
     | EmptyString => false
     end.

(** A compiled expression: the pattern and the [i] flag. *)
Record RegExp : Type := { pattern : re; ignoreCase : bool }.

(** [new RegExp(source, flags)], for [flags] empty or ["i"]. *)
Definition new_RegExp (source : string) (ic : bool) : result RegExp :=
  match parse source with
  | Some r => Ok {| pattern := r; ignoreCase := ic |}
  | None => Throw SyntaxError
  end.

(** [re.test(s)], for an expression without the [g] and [y] flags. *)
Definition test (rx : RegExp) (s : string) : bool :=
  search (ignoreCase rx) (pattern rx) true s.

End RegExp.

(* ===================================================================== *)
(** * The servers *)
(* ===================================================================== *)

Import JS Bson.
Import Num(number).

(** ** Helpers shared, word for word, by the two server files *)

(** [function toObjectIdSafe(id)
       { try { return new ObjectId(String(id)); } catch { return null; } }]
    [None] stands for [null]. *)
Definition toObjectIdSafe (id : value) : option ObjectId :=
  match (s <- ToString id ;; new_ObjectId s) with
  | Ok oid => Some oid
  | Throw _ => None
  end.

(** The class [[.*+?^${}()|[\]\\]] of [escapeRegex]. *)
Definition escape_class : list (ascii * ascii) :=
  [ (".", "."); ("*", "*"); ("+", "+"); ("?", "?"); ("^", "^"); ("$", "$");
    ("{", "{"); ("}", "}"); ("(", "("); (")", ")"); ("|", "|"); ("[", "[");
    ("]", "]"); ("\", "\") ]%char.

(** [s.replace(/[class]/g, by)] for a class of single characters: every
    character of the class is replaced, the others are kept. *)
Fixpoint replace_each (p : ascii -> bool) (by_ : ascii -> string) (s : string)
  : string :=
  match s with
  | EmptyString => EmptyString
  | String c s' =>
      (if p c then by_ c else String c EmptyString) ++ replace_each p by_ s'
  end.

(** The replacement ['\\$&']: a backslash, then the match. *)
Definition backslashed (c : ascii) : string := String "\" (String c EmptyString).

Definition escape_text (s : string) : string :=
  replace_each (RegExp.class_has false false escape_class) backslashed s.

(** [function escapeRegex(s)
       { return String(s).replace(/[.*+?^${}()|[\]\\]/g, '\\$&'); }] *)
Definition escapeRegex (s : value) : result string :=
  t <- ToString s ;; Ok (escape_text t).

(** [/^[A-Za-z ]+$/] and [/^[0-9]+$/]. *)
Definition name_pattern : RegExp.re :=
  RegExp.Seq RegExp.AssertStart
    (RegExp.Seq
       (RegExp.Repeat 1 None
          (RegExp.Class false [("A", "Z"); ("a", "z"); (" ", " ")]%char))
       (RegExp.Seq RegExp.AssertEnd RegExp.Empty)).

Definition phone_pattern : RegExp.re :=
  RegExp.Seq RegExp.AssertStart
    (RegExp.Seq
       (RegExp.Repeat 1 None (RegExp.Class false [("0", "9")]%char))
       (RegExp.Seq RegExp.AssertEnd RegExp.Empty)).

Definition name_re : RegExp.RegExp :=
  {| RegExp.pattern := name_pattern; RegExp.ignoreCase := false |}.
Definition phone_re : RegExp.RegExp :=
  {| RegExp.pattern := phone_pattern; RegExp.ignoreCase := false |}.

(** [typeof name === 'string' && /^[A-Za-z ]+$/.test(name)] *)
Definition nameOk (name : value) : bool :=
  match as_string name with
  | Some s => RegExp.test name_re s
  | None => false
  end.

(** [typeof phone === 'string' && /^[0-9]+$/.test(phone)] *)
Definition phoneOk (phone : value) : bool :=
  match as_string phone with
  | Some s => RegExp.test phone_re s
  | None => false
  end.

(** ** Order documents *)

(** A stored lesson reference: the native identifier, or text. *)
Inductive lessonRef : Type :=
| RefId (oid : ObjectId)
| RefText (s : string).

(** [{ lessonId, space }] *)
Record orderItem : Type := { lessonId : lessonRef; space : number }.

(** [createdAt] is the clock reading of [new Date()], in milliseconds. *)
Inductive orderDoc : Type :=
| Itemized (name phone : value) (items : list orderItem) (createdAt : Z)
| Batch (name phone : value) (lessonIDs : list lessonRef) (space : number)
        (createdAt : Z).

(** What [buildOrderDoc] returns: [{ doc }] or [{ error }]. *)
Inductive built : Type :=
| Doc (doc : orderDoc)
| Error (error : string).

Definition zero : number := S754_zero false.

(** [!Number.isFinite(n) || n <= 0] *)
Definition not_positive (n : number) : bool :=
  negb (Num.isFinite n) || Num.leb n zero.

(** [toObjectIdSafe(id) || String(id)], also written
    [oid ? oid : String(id)]. *)
Definition ref_of (id : value) : result lessonRef :=
  match toObjectIdSafe id with
  | Some oid => Ok (RefId oid)
  | None => s <- ToString id ;; Ok (RefText s)
  end.

(** [it.lessonId || it.lessonID || it.id] *)
Definition item_id (it : value) : result value :=
  a <- Get it "lessonId" ;;
  if ToBoolean a then Ok a
  else
    b <- Get it "lessonID" ;;
    if ToBoolean b then Ok b else Get it "id".

(** The callback of [items.map]:
    [{ lessonId: oid ? oid : String(id), space: Number(it.space) }] *)
Definition normalize_item (it : json) : result orderItem :=
  id <- item_id (Some it) ;;
  r <- ref_of id ;;
  sp <- Get (Some it) "space" ;;
  n <- ToNumber sp ;;
  Ok {| lessonId := r; space := n |}.

(** [const { name, phone, lessonIDs, space, items } = body || {}] *)
Definition fields_of (body : value) : value := or_else body (Some (JObj [])).

Module Part000.

(** The loop over [items]: [Ok true] when it returns the error, [Ok
    false] when every element passes. *)
Fixpoint item_space_rejected (items : list json) : result bool :=
  match items with
  | [] => Ok false
  | it :: rest =>
      sp <- Get (Some it) "space" ;;
      n <- ToNumber sp ;;
      if not_positive n then Ok true else item_space_rejected rest
  end.

(** [function buildOrderDoc(body)]; [now] is the clock read by
    [new Date()]. *)
Definition buildOrderDoc (now : Z) (body : value) : result built :=
  let b := fields_of body in
  name <- Get b "name" ;;
  phone <- Get b "phone" ;;
  lessonIDs <- Get b "lessonIDs" ;;
  space <- Get b "space" ;;
  items <- Get b "items" ;;
  if negb (nameOk name) || negb (phoneOk phone)
  then Ok (Error "Invalid name or phone")
  else
    match as_array items with
    | Some ((_ :: _) as its) =>
        rejected <- item_space_rejected its ;;
        if rejected
        then Ok (Error "Each item.space must be a positive number")
        else
          normalized <- mapM normalize_item its ;;
          Ok (Doc (Itemized name phone normalized now))
    | _ =>
        match as_array lessonIDs with
        | Some ((_ :: _) as ids) =>
            if is_defined space then
              s <- ToNumber space ;;
              if not_positive s
              then Ok (Error "space must be a positive number")
              else
                refs <- mapM (fun id => ref_of (Some id)) ids ;;
                Ok (Doc (Batch name phone refs s now))
            else Ok (Error "Provide items[] or lessonIDs[] with space")
        | _ => Ok (Error "Provide items[] or lessonIDs[] with space")
        end
    end.

(** *** [GET /lessons] *)

(** What the route hands to the cursor: [.sort({ [sortKey]: sortDir })],
    [.skip(sk)], [.limit(lim)]. *)
Record listing : Type :=
  { lim : number; sk : number; sortKey : string; sortDir : Z }.

(** The own keys of [sortable]. *)
Definition sortable : list string :=
  ["topic"; "location"; "price"; "space"; "_id"].

(** [x || d] for a number [x]: zero and NaN are falsy. *)
Definition num_or (x d : number) : number :=
  if Num.isZero x || Num.isNaN x then d else x.

(** The parameters of the listing, from [req.query].  The key tested by
    [hasOwnProperty] and the computed key of the sort document are both
    the text of [sort]. *)
Definition lessons_query (limit skip sort order : value) : result listing :=
  l <- ToNumber limit ;;
  let lim := Num.Math_min (Num.of_Z 100)
               (Num.Math_max (Num.of_Z 1) (num_or l (Num.of_Z 50))) in
  s <- ToNumber skip ;;
  let sk := Num.Math_max zero (num_or s zero) in
  k <- ToString sort ;;
  let sortKey := if List.existsb (String.eqb k) sortable then k else "_id" in
  o <- ToString order ;;
  let sortDir := if String.eqb (Str.toLowerCase o) "desc" then -1 else 1 in
  Ok {| lim := lim; sk := sk; sortKey := sortKey; sortDir := sortDir |}.

(** *** [GET /search]: the expression built from the term *)

(** [None] is the early [res.json([])] on a blank term. *)
Definition search_regexp (term : value) : result (option RegExp.RegExp) :=
  termRaw <- ToString (or_else term (Some (JStr ""))) ;;
  let term := Str.trim termRaw in
  if Str.is_empty term then Ok None
  else
    source <- escapeRegex (Some (JStr term)) ;;
    re <- RegExp.new_RegExp source true ;;
    Ok (Some re).

(** *** The store *)

(** A document of the [lesson] collection. *)
Record lessonDoc : Type :=
  { _id : ObjectId; fields : list (string * json) }.

(** The database: the [lesson] and [order] collections. *)
Record database : Type :=
  { lesson : list lessonDoc; order : list (ObjectId * orderDoc) }.

(** The calls a route issues to the driver, in order. *)
Inductive storage_op : Type :=
| UpdateOne (filter_id : ObjectId) (set : list (string * json))
| FindOne (filter_id : ObjectId)
| InsertOne (doc : orderDoc).

Definition oid_eqb (a b : ObjectId) : bool :=
  match a, b with OID x, OID y => String.eqb x y end.

Definition remove (k : string) (props : list (string * json))
  : list (string * json) :=
  List.filter (fun kv => negb (String.eqb k (fst kv))) props.

(** [o[k] = v]: the entry of the key is replaced, or added at the end. *)
Fixpoint assign (k : string) (v : json) (props : list (string * json))
  : list (string * json) :=
  match props with
  | [] => [(k, v)]
  | (k', v') :: rest =>
      if String.eqb k k' then (k, v) :: rest else (k', v') :: assign k v rest
  end.

(** Modelled from the spec: [findOne({ _id })] of the driver, which is
    not part of the repository ([getLesson(id) -> Lesson | absent]). *)
Definition findOne (id : ObjectId) (docs : list lessonDoc) : option lessonDoc :=
  List.find (fun d => oid_eqb (_id d) id) docs.

(** Modelled from the spec: [updateOne({ _id }, { $set })] of the
    driver, which is not part of the repository: the first document with
    the identifier takes every field of [set]; the count of matched
    documents is returned with the collection. *)
Fixpoint updateOne (id : ObjectId) (set : list (string * json))
    (docs : list lessonDoc) : list lessonDoc * nat :=
  match docs with
  | [] => ([], O)
  | d :: rest =>
      if oid_eqb (_id d) id
      then ({| _id := _id d;
               fields := List.fold_left (fun f kv => assign (fst kv) (snd kv) f)
                           set (fields d) |} :: rest, 1%nat)
      else let '(rest', n) := updateOne id set rest in (d :: rest', n)
  end.

(** What a route answers. *)
Inductive reply : Type :=
| ReplyError (status : Z) (error : string)
| ReplyLesson (status : Z) (doc : option lessonDoc)
| ReplyOrder (status : Z) (insertedId : ObjectId) (doc : orderDoc).

(** *** [POST /orders] *)

(** [reachable]: whether [getDb()] returns a database; [inserts]:
    whether the awaited [insertOne] resolves (a call that rejects has
    stored nothing, and the [catch] of the route answers 500); [fresh]:
    the identifier the driver gives to the inserted document. *)
Definition post_orders (reachable inserts : bool) (fresh : ObjectId)
    (now : Z) (body : value) (db : database)
  : reply * database * list storage_op :=
  match buildOrderDoc now body with
  | Throw _ => (ReplyError 500 "Failed to create order", db, [])
  | Ok (Error error) => (ReplyError 400 error, db, [])
  | Ok (Doc doc) =>
      if reachable then
        if inserts then
          (ReplyOrder 201 fresh doc,
           {| lesson := lesson db; order := order db ++ [(fresh, doc)] |},
           [InsertOne doc])
        else (ReplyError 500 "Failed to create order", db, [InsertOne doc])
      else (ReplyError 500 "Failed to create order", db, [])
  end.

(** *** [PUT /lessons/:id] *)

Fixpoint index_props (i : nat) (elems : list json) : list (string * json) :=
  match elems with
  | [] => []
  | e :: rest => (Num.nat_string (Z.of_nat i), e) :: index_props (S i) rest
  end.

Fixpoint chars (s : string) : list json :=
  match s with
  | EmptyString => []
  | String c s' => JStr (String c EmptyString) :: chars s'
  end.

(** The own enumerable properties of a value. *)
Definition own_enumerable (src : value) : list (string * json) :=
  match src with
  | Some (JObj props) => props
  | Some (JArr elems) => index_props 0 elems
  | Some (JStr s) => index_props 0 (chars s)
  | _ => []
  end.

(** An object made by the handler: its own properties, and the
    properties of the parsed object installed as its prototype, if one
    was. *)
Record object : Type :=
  { own : list (string * json); inherited : list (string * json) }.

(** [Object.assign({}, src)]: every own enumerable property of [src] is
    set on a new object.  Setting ["__proto__"] runs the setter of
    [Object.prototype]: it makes no own property, and a value that is an
    object becomes the prototype of the new object ([null] or an array as
    prototype brings none of the properties read here). *)
Definition Object_assign (src : value) : object :=
  let props := own_enumerable src in
  {| own := remove "__proto__" props;
     inherited := match lookup "__proto__" props with
                  | Some (JObj p) => p
                  | _ => []
                  end |}.

(** [k in o] *)
Definition has_property (k : string) (o : object) : bool :=
  has_own k (own o) || has_own k (inherited o).

(** [o.k] *)
Definition get_property (k : string) (o : object) : value :=
  match lookup k (own o) with
  | Some v => Some v
  | None => lookup k (inherited o)
  end.

(** [delete o.k] *)
Definition delete_property (k : string) (o : object) : object :=
  {| own := remove k (own o); inherited := inherited o |}.

(** [o.k = v], for a key other than ["__proto__"]. *)
Definition set_property (k : string) (v : json) (o : object) : object :=
  {| own := assign k v (own o); inherited := inherited o |}.

(** [x != null] *)
Definition not_nullish (v : value) : bool :=
  match v with None | Some JNull => false | _ => true end.

(** The update object after the checks; [Ok None] is the early return
    of status 400. *)
Definition checked_update (body : value) : result (option object) :=
  let update := Object_assign body in
  let update :=
    if has_property "_id" update then delete_property "_id" update
    else update in
  if not_nullish (get_property "space" update) then
    n <- ToNumber (get_property "space" update) ;;
    if negb (Num.isFinite n) then Ok None
    else Ok (Some (set_property "space" (JNum n) update))
  else Ok (Some update).

(** The route.  An id that does not parse is answered 400 by the inner
    [catch]; whatever raises afterwards is answered 500 by the outer one.
    [{ $set: update }] is written with the own properties of [update].
    [reachable]: whether [getDb()] returns a database; [updates] and
    [finds]: whether the awaited [updateOne] and [findOne] resolve.  An
    [updateOne] that rejects has written nothing; a [findOne] that
    rejects comes after the update was applied. *)
Definition put_lesson (reachable updates finds : bool) (id : string)
    (body : value) (db : database) : reply * database * list storage_op :=
  match new_ObjectId id with
  | Throw _ => (ReplyError 400 "Invalid id", db, [])
  | Ok oid =>
      match checked_update body with
      | Throw _ => (ReplyError 500 "Failed to update lesson", db, [])
      | Ok None => (ReplyError 400 "space must be a number", db, [])
      | Ok (Some update) =>
          if reachable then
            let set := own update in
            if updates then
              let '(docs, matchedCount) := updateOne oid set (lesson db) in
              let db' := {| lesson := docs; order := order db |} in
              if Nat.eqb matchedCount 0
              then (ReplyError 404 "Lesson not found", db', [UpdateOne oid set])
              else if finds
              then (ReplyLesson 200 (findOne oid docs), db',
                    [UpdateOne oid set; FindOne oid])
              else (ReplyError 500 "Failed to update lesson", db',
                    [UpdateOne oid set; FindOne oid])
            else (ReplyError 500 "Failed to update lesson", db,
                  [UpdateOne oid set])
          else (ReplyError 500 "Failed to update lesson", db, [])
      end
  end.

End Part000.

Module Part001.

(** [function buildOrderDoc(body)] of the earlier server. *)
Definition buildOrderDoc (now : Z) (body : value) : result built :=
  let b := fields_of body in
  name <- Get b "name" ;;
  phone <- Get b "phone" ;;
  lessonIDs <- Get b "lessonIDs" ;;
  space <- Get b "space" ;;
  items <- Get b "items" ;;
  if negb (nameOk name) || negb (phoneOk phone)
  then Ok (Error "Invalid name or phone")
  else
    match as_array items with
    | Some ((_ :: _) as its) =>
        normalized <- mapM normalize_item its ;;
        Ok (Doc (Itemized name phone normalized now))
    | _ =>
        match as_array lessonIDs with
        | Some ids =>
            if is_defined space then
              refs <- mapM (fun id => ref_of (Some id)) ids ;;
              s <- ToNumber space ;;
              Ok (Doc (Batch name phone refs s now))
            else Ok (Error "Provide items[] or lessonIDs[] with space")
        | None => Ok (Error "Provide items[] or lessonIDs[] with space")
        end
    end.

End Part001.

(* ===================================================================== *)
(** * The allowlist of origins *)
(* ===================================================================== *)

Module Text.

(** [s.startsWith(p)] *)
Definition startsWith (p s : string) : bool := String.prefix p s.

(** [s.split(sep)] for a separator of one character: the first piece,
    and the pieces after it. *)
Fixpoint pieces (sep : ascii) (s : string) : string * list string :=
  match s with
  | EmptyString => (EmptyString, [])
  | String c s' =>
      let '(piece, rest) := pieces sep s' in
      if Ascii.eqb c sep then (EmptyString, piece :: rest)
      else (String c piece, rest)
  end.

(** [s.split(sep)]; the empty string splits into one empty piece. *)
Definition split (sep : ascii) (s : string) : list string :=
  let '(piece, rest) := pieces sep s in piece :: rest.

(** [s.replace(/\/$/, '')]: the slash that ends the string, if one
    does, is dropped. *)
Fixpoint drop_final_slash (s : string) : string :=
  match s with
  | EmptyString => EmptyString
  | String c EmptyString => if Ascii.eqb c "/" then EmptyString else s
  | String c s' => String c (drop_final_slash s')
  end.

(** [a.replace(/^--/, '')] *)
Definition drop_dashes (a : string) : string :=
  match a with
  | String "-" (String "-" rest) => rest
  | _ => a
  end.

End Text.

(** The allowlist and the [origin] callback of the two server files. *)
Module Cors.

(** [(process.env.CORS_ORIGINS || '').split(',').map(s => s.trim())
       .filter(Boolean)] *)
Definition origins (CORS_ORIGINS : option string) : list string :=
  let text := match CORS_ORIGINS with Some s => s | None => "" end in
  List.filter (fun s => negb (Str.is_empty s))
    (List.map Str.trim (Text.split "," text)).

(** [function (origin, callback)]: [true] is [callback(null, true)],
    [false] is [callback(null, false)]; [origin] is the request's
    [Origin] header, if it has one. *)
Definition allow (origins : list string) (origin : option string) : bool :=
  match origin with
  | None => true
  | Some o =>
      if Str.is_empty o then true
      else if Nat.eqb (List.length origins) 0
              || List.existsb (String.eqb o) origins
      then true
      else false
  end.

End Cors.

(** The annotated copy of the full server (the second text of
    [scripts/seed.js]): its allowlist is normalised. *)
Module Annotated.

(** [const normalizeOrigin = (value) => { if (!value) return '';
       return value.replace(/\/$/, '').toLowerCase(); }] *)
Definition normalizeOrigin (value : string) : string :=
  if Str.is_empty value then ""
  else Str.toLowerCase (Text.drop_final_slash value).

(** [(process.env.CORS_ORIGINS || '').split(',').map(s => s.trim())
       .filter(Boolean).map(normalizeOrigin)] *)
Definition allowedOrigins (CORS_ORIGINS : option string) : list string :=
  List.map normalizeOrigin (Cors.origins CORS_ORIGINS).

(** [function (origin, callback)] of the annotated server. *)
Definition allow (allowedOrigins : list string) (origin : option string)
  : bool :=
  match origin with
  | None => true
  | Some o =>
      if Str.is_empty o then true
      else
        let normalized := normalizeOrigin o in
        Nat.eqb (List.length allowedOrigins) 0
        || List.existsb
             (fun allowed =>
                String.eqb allowed normalized
                || Text.startsWith (normalized ++ "/") allowed)
             allowedOrigins
  end.

End Annotated.

(* ===================================================================== *)
(** * The connection to the database *)
(* ===================================================================== *)

Module Connection.

(** The module variables [client] and [database].  Clients are numbered
    in the order [new MongoClient(uri)] makes them; a database handle is
    [client.db(dbName)] of a client, kept as the number of that client. *)
Record state : Type := { client : option nat; database : option nat }.

Definition initial : state := {| client := None; database := None |}.

(** How a call of [getDb] leaves its first run: with the cached handle,
    with [Error('MONGODB_URI not set')], with the error of
    [new MongoClient(uri)] on a connection string it does not accept, or
    waiting at [await client.connect()] for the client it made. *)
Inductive entered : Type :=
| Cached (db : nat)
| NotSet
| Refused
| Awaiting (c : nat).

Definition fresh (st : state) : nat :=
  match client st with None => O | Some c => S c end.

(** [getDb()] up to its [await]; [accepted]: whether the constructor of
    the driver accepts the connection string. *)
Definition enter (uri : option string) (accepted : bool) (st : state)
  : entered * state :=
  match database st with
  | Some db => (Cached db, st)
  | None =>
      match uri with
      | None => (NotSet, st)
      | Some u =>
          if Str.is_empty u then (NotSet, st)
          else if accepted then
            let c := fresh st in
            (Awaiting c, {| client := Some c; database := database st |})
          else (Refused, st)
      end
  end.

(** [getDb()] from its [await] on: when [connect()] was rejected the call
    raises ([None]); when it resolved, [database = client.db(dbName)]
    reads the module variable [client] and the handle is returned. *)
Definition resume (connected : bool) (st : state) : option nat * state :=
  if connected then
    match client st with
    | Some c => (Some c, {| client := client st; database := Some c |})
    | None => (None, st)
    end
  else (None, st).

(** The calls of the routes interleave at the [await]: a route calls
    [getDb], or the [connect()] of a waiting call settles. *)
Inductive event : Type :=
| Call
| Settle (connected : bool).

(** The module variables, and how many calls wait at their [await]. *)
Record process : Type := { vars : state; waiting : nat }.

Definition start : process := {| vars := initial; waiting := O |}.

(** One event; [None] when nothing waits for a [Settle]. *)
Definition step (uri : option string) (accepted : bool) (e : event)
    (p : process) : option process :=
  match e with
  | Call =>
      let '(r, st) := enter uri accepted (vars p) in
      Some {| vars := st;
              waiting := match r with
                         | Awaiting _ => S (waiting p)
                         | _ => waiting p
                         end |}
  | Settle connected =>
      match waiting p with
      | O => None
      | S n => Some {| vars := snd (resume connected (vars p)); waiting := n |}
      end
  end.

Fixpoint run (uri : option string) (accepted : bool) (es : list event)
    (p : process) : option process :=
  match es with
  | [] => Some p
  | e :: es' =>
      match step uri accepted e p with
      | Some p' => run uri accepted es' p'
      | None => None
      end
  end.

End Connection.

(* ===================================================================== *)
(** * The reading routes of the full server *)
(* ===================================================================== *)

Module Routes.

Import Part000.

(** [GET /lessons/:id]; [reachable]: whether [getDb()] returns a
    database. *)
Definition get_lesson (reachable : bool) (id : string) (db : database)
  : reply * list storage_op :=
  match new_ObjectId id with
  | Throw _ => (ReplyError 400 "Invalid id", [])
  | Ok oid =>
      if reachable then
        match findOne oid (lesson db) with
        | Some doc => (ReplyLesson 200 (Some doc), [FindOne oid])
        | None => (ReplyError 404 "Lesson not found", [FindOne oid])
        end
      else (ReplyError 500 "Failed to fetch lesson", [])
  end.





End Routes.

(* ===================================================================== *)
(** * The seed script *)
(* ===================================================================== *)

Module Seed.

(** [args[key] = v] on the object literal [{}]: the key ["__proto__"]
    runs the setter of [Object.prototype], which ignores [true] and
    strings, so no property is made. *)
Definition put (key : string) (v : json) (args : list (string * json))
  : list (string * json) :=
  if String.eqb key "__proto__" then args else Part000.assign key v args.

(** The loop of [parseArgs] over [argv[i]], [argv[i + 1]], ...: an
    option takes the next word as its value unless that word is missing,
    empty or an option itself; then it is [true]. *)
Fixpoint scan (words : list string) (args : list (string * json))
  : list (string * json) :=
  match words with
  | [] => args
  | a :: rest =>
      if Text.startsWith "--" a then
        let key := Text.drop_dashes a in
        match rest with
        | next :: rest' =>
            if Str.is_empty next || Text.startsWith "--" next
            then scan rest (put key (JBool true) args)
            else scan rest' (put key (JStr next) args)
        | [] => put key (JBool true) args
        end
      else scan rest args
  end.

(** [function parseArgs(argv)]: the loop starts at [argv[2]]. *)
Definition parseArgs (argv : list string) : list (string * json) :=
  scan (List.skipn 2 argv) [].

(** How [col.drop()] ends. *)
Inductive drop_outcome : Type :=
| DropResolves
| NamespaceNotFound
| DropRejects.

(** What the script finds around it: the command line, the environment,
    the two default files, the file system, [JSON.parse], and how each
    call of the driver ends. *)
Record world : Type :=
  { argv : list string;
    MONGODB_URI : option string;
    DB_NAME : option string;
    defaultLocal : string;
    defaultRemote : string;
    existsSync : string -> bool;
    readFileSync : string -> option string;
    JSON_parse : string -> option json;
    constructs : bool;
    connects : bool;
    opens : bool;
    drops : drop_outcome;
    inserts : bool;
    closes : bool }.

(** The calls on the client and the collection, in order. *)
Inductive driver_call : Type :=
| Connect
| Open (dbName collectionName : value)
| Drop
| InsertMany (docs : list json)
| Close.

(** The lines written to the console, without their variable parts. *)
Inductive report : Type :=
| UriNotSet
| FileNotFound (file : value)
| ParseFailed
| NotAnArray
| Dropped
| Inserted
| SeedingFailed.

(** How the process ends: [process.exit(code)], the end of [main] with
    [process.exitCode], or a rejection of [main()] that nothing
    handles. *)
Inductive ending : Type :=
| Exited (code : Z)
| Finished (exitCode : Z)
| Unhandled.

Record outcome : Type :=
  { reports : list report; calls : list driver_call; ending_ : ending }.

Definition stop (r : report) : outcome :=
  {| reports := [r]; calls := []; ending_ := Exited 1 |}.

(** The body of the [try] of [main], after [connect()] resolved: the
    reports and calls it makes, and whether it returns. *)
Definition seed (drop : bool) (dbName collectionName : value)
    (docs : list json) (w : world) : list report * list driver_call * bool :=
  if opens w then
    let insert (rs : list report) (cs : list driver_call) :=
      if inserts w
      then ((rs ++ [Inserted])%list, (cs ++ [InsertMany docs])%list, true)
      else (rs, (cs ++ [InsertMany docs])%list, false) in
    if drop then
      match drops w with
      | DropResolves => insert [Dropped] [Open dbName collectionName; Drop]
      | NamespaceNotFound => insert [] [Open dbName collectionName; Drop]
      | DropRejects => ([], [Open dbName collectionName; Drop], false)
      end
    else insert [] [Open dbName collectionName]
  else ([], [Open dbName collectionName], false).

(** [async function main()] *)
Definition main (w : world) : outcome :=
  let args := parseArgs (argv w) in
  let file :=
    or_else (lookup "file" args)
      (Some (JStr (if existsSync w (defaultLocal w) then defaultLocal w
                   else defaultRemote w))) in
  let dbName :=
    or_else (or_else (lookup "db" args) (option_map JStr (DB_NAME w)))
      (Some (JStr "coursework-backend")) in
  let collectionName := or_else (lookup "collection" args) (Some (JStr "lesson")) in
  let drop := ToBoolean (lookup "drop" args) in
  if negb (ToBoolean (option_map JStr (MONGODB_URI w))) then stop UriNotSet
  else
    match file with
    | Some (JStr path) =>
        if existsSync w path then
          match readFileSync w path with
          | None => {| reports := []; calls := []; ending_ := Unhandled |}
          | Some raw =>
              match JSON_parse w raw with
              | None => stop ParseFailed
              | Some (JArr docs) =>
                  if constructs w then
                    let '(rs, cs, returned) :=
                      if connects w then
                        let '(rs, cs, returned) :=
                          seed drop dbName collectionName docs w in
                        (rs, Connect :: cs, returned)
                      else ([], [Connect], false) in
                    let rs :=
                      if returned then rs
                      else (rs ++ [SeedingFailed])%list in
                    let exitCode := if returned then 0 else 1 in
                    {| reports := rs;
                       calls := (cs ++ [Close])%list;
                       ending_ := if closes w then Finished exitCode
                                  else Unhandled |}
                  else {| reports := []; calls := []; ending_ := Unhandled |}
              | Some _ => stop NotAnArray
              end
          end
        else stop (FileNotFound file)
    | _ => stop (FileNotFound file)
    end.

End Seed.

(* ===================================================================== *)
(** * Notions used by the statements *)
(* ===================================================================== *)

(** The property [k] as destructured from [body || {}]. *)
Definition field (body : value) (k : string) : value :=
  match fields_of body with
  | Some (JObj props) => lookup k props
  | _ => None
  end.

(** The characters a name may hold. *)
Definition name_char (c : ascii) : bool := Str.is_letter c || Str.is_space c.

(** A string accepted as a name: not empty, letters and spaces only. *)
Definition letters_and_spaces (s : string) : bool :=
  negb (Str.is_empty s) && Str.forallb name_char s.

(** A string accepted as a phone: not empty, digits only. *)
Definition digits_only (s : string) : bool :=
  negb (Str.is_empty s) && Str.forallb Str.is_digit s.

(** Does a list of positions hold the end of the subject? *)
Definition ends (l : list RegExp.position) : bool :=
  List.existsb (fun y => Str.is_empty (snd y)) l.

(** The pattern that reads the characters of [s], one after the other. *)
Fixpoint literal (s : string) : RegExp.re :=
  match s with
  | EmptyString => RegExp.Empty
  | String c s' => RegExp.Seq (RegExp.Char c) (literal s')
  end.

(** The plain substring test: does [needle] occur in [hay]? *)
Fixpoint includes (needle hay : string) : bool :=
  String.prefix needle hay
  || match hay with
     | String _ rest => includes needle rest
     | EmptyString => false
     end.

(** The substring test without regard to case: both sides are folded to
    upper case first. *)
Definition includes_ci (needle hay : string) : bool :=
  includes (Str.map Str.upper_char needle) (Str.map Str.upper_char hay).

(** The value of a query parameter: a string, or absent. *)
Definition query (q : option string) : value := option_map JStr q.

(** Does the conversion of [v] to text return? *)
Definition stringifies (v : value) : bool := returns (ToString v).

(** The shape [^ class+ $] of the two validating expressions. *)
Definition anchored_plus (ranges : list (ascii * ascii)) : RegExp.re :=
  RegExp.Seq RegExp.AssertStart
    (RegExp.Seq (RegExp.Repeat 1 None (RegExp.Class false ranges))
       (RegExp.Seq RegExp.AssertEnd RegExp.Empty)).

(** No quantifier begins the text. *)
Definition no_quantifier (s : string) : bool :=
  match s with
  | String c _ => negb (RegExp.mem c ["*"; "+"; "?"; "{"]%char)
  | EmptyString => true
  end.

(** No [|] or [)] begins the text. *)
Definition no_closer (s : string) : bool :=
  match s with
  | String c _ => negb (RegExp.mem c ["|"; ")"]%char)
  | EmptyString => true
  end.

(** A text as the matcher compares it: every character canonicalised. *)
Definition fold_case (ic : bool) (s : string) : string :=
  Str.map (RegExp.canonicalize ic) s.

(** [Number(it.space)] for an element of [items]. *)
Definition item_space (it : json) : result number :=
  sp <- Get (Some it) "space" ;; ToNumber sp.

(** An element of [items] whose space coerces to a finite number above
    zero. *)
Definition space_passes (it : json) : Prop :=
  exists n, item_space it = Ok n /\ not_positive n = false.

(** An element of [items] whose space coerces to a number that is not
    finite or not above zero. *)
Definition space_fails (it : json) : Prop :=
  exists n, item_space it = Ok n /\ not_positive n = true.

(** [items] is absent or the empty array. *)
Definition absent_or_empty (v : value) : bool :=
  match v with
  | None | Some (JArr []) => true
  | _ => false
  end.

(** [Array.isArray(v) && v.length]. *)
Definition nonempty_array (v : value) : bool :=
  match v with
  | Some (JArr (_ :: _)) => true
  | _ => false
  end.

(** How an element is normalised: its reference [v], the stored
    reference [r] and its space [n]. *)
Definition normalised_as (it : json) (o : orderItem) : Prop :=
  exists v r n,
    item_id (Some it) = Ok v /\ ref_of v = Ok r /\ item_space it = Ok n
    /\ o = {| lessonId := r; space := n |}.

(** The reference of an item with the properties [props]: the first
    truthy of the values under "lessonId" and "lessonID", or else the
    value under "id". *)
Definition reference_of (props : list (string * json)) : value :=
  or_else (or_else (lookup "lessonId" props) (lookup "lessonID" props))
    (lookup "id" props).

(** The stored reference of an identifier given as a string. *)
Definition stored (s : string) : lessonRef :=
  if valid_hex s then RefId (OID (Str.toLowerCase s)) else RefText s.

(** The own properties of the copy of the body, once [_id] is deleted. *)
Definition stripped (body : value) : list (string * json) :=
  Part000.remove "_id" (Part000.own (Part000.Object_assign body)).

(** No blank begins the text. *)
Definition head_trimmed (s : string) : bool :=
  match s with
  | String c _ => negb (Str.is_whitespace c)
  | EmptyString => true
  end.


(** An entry of an allowlist: not empty, no blank at either end, no
    comma. *)
Definition entry (o : string) : bool :=
  negb (Str.is_empty o) && String.eqb (Str.trim o) o
  && negb (Str.existsb (Ascii.eqb ",") o).

(** A setting of [CORS_ORIGINS] that names no origin: unset, or blanks
    and commas only. *)
Definition names_no_origin (CORS_ORIGINS : option string) : bool :=
  match CORS_ORIGINS with
  | None => true
  | Some s => Str.forallb (fun c => Str.is_whitespace c || Ascii.eqb c ",") s
  end.

(** The word that gives the option [k] on the command line. *)
Definition option_word (k : string) : string := "--" ++ k.

(** A word that can be the value of an option: not empty, and not an
    option itself. *)
Definition value_word (w : string) : bool :=
  negb (Str.is_empty w) && negb (Text.startsWith "--" w).

(** The words [parseArgs] reads: [argv[2]], [argv[3]], ... *)
Definition words_of (argv : list string) : list string := List.skipn 2 argv.

(** The surroundings [w], but with [col.drop()] ending as [o]. *)
Definition with_drops (o : Seed.drop_outcome) (w : Seed.world) : Seed.world :=
  {| Seed.argv := Seed.argv w;
     Seed.MONGODB_URI := Seed.MONGODB_URI w;
     Seed.DB_NAME := Seed.DB_NAME w;
     Seed.defaultLocal := Seed.defaultLocal w;
     Seed.defaultRemote := Seed.defaultRemote w;
     Seed.existsSync := Seed.existsSync w;
     Seed.readFileSync := Seed.readFileSync w;
     Seed.JSON_parse := Seed.JSON_parse w;
     Seed.constructs := Seed.constructs w;
     Seed.connects := Seed.connects w;
     Seed.opens := Seed.opens w;
     Seed.drops := o;
     Seed.inserts := Seed.inserts w;
     Seed.closes := Seed.closes w |}.

(** The seed file the script reads when [--file] is not given. *)
Definition default_file (w : Seed.world) : string :=
  if Seed.existsSync w (Seed.defaultLocal w) then Seed.defaultLocal w
  else Seed.defaultRemote w.

(** A cached handle is a handle of the client in [client]. *)
Definition cache_of_client (p : Connection.process) : Prop :=
  forall d,
    Connection.database (Connection.vars p) = Some d ->
    Connection.client (Connection.vars p) = Some d.



(** The identifier a route reads from a well-formed [:id]. *)
Definition parsed (id : string) : ObjectId := OID (Str.toLowerCase id).

(** A finite number above zero. *)
Definition finite_positive (n : number) : Prop :=
  Num.isFinite n = true /\ Num.ltb zero n = true.

(* ===================================================================== *)
(** * Sample requests *)
(* ===================================================================== *)

Module Sample.

Definition one : number := Num.of_Z 1.
Definition two : number := Num.of_Z 2.

(** [{ name: "Jane Doe", phone: "12345", ...rest }] *)
Definition jane (rest : list (string * json)) : value :=
  Some (JObj (("name", JStr "Jane Doe") :: ("phone", JStr "12345") :: rest)).

Definition hex24 : string := "0123456789abcdefABCDEF01".

(** [{ lessonId: "a", space: 0 }] *)
Definition item_zero : json :=
  JObj [("lessonId", JStr "a"); ("space", JNum zero)].

(** [{ lessonId: <24 hex digits>, space: 1 }] *)
Definition item_one : json :=
  JObj [("lessonId", JStr hex24); ("space", JNum one)].

(** [{ id: null, space: 1 }] *)
Definition item_null_id : json :=
  JObj [("id", JNull); ("space", JNum one)].

(** [{ space: 1 }] *)
Definition item_no_id : json := JObj [("space", JNum one)].

(** [{ "toString": 1 }], as [JSON.parse] builds it. *)
Definition shadowing : json := JObj [("toString", JNum one)].

(** [items: [null, { lessonId: "a", space: 0 }]] *)
Definition null_then_zero : value :=
  jane [("items", JArr [JNull; item_zero])].

(** [lessonIDs: [{ "toString": 1 }], space: 2] *)
Definition batch_shadowing : value :=
  jane [("lessonIDs", JArr [shadowing]); ("space", JNum two)].

(** [lessonIDs: [<24 hex digits>], space: 2] *)
Definition batch_two : value :=
  jane [("lessonIDs", JArr [JStr hex24]); ("space", JNum two)].

(** [items: [{ lessonId: "a", space: 0 }], lessonIDs: ["b"], space: 1] *)
Definition both_shapes_zero : value :=
  jane [("items", JArr [item_zero]); ("lessonIDs", JArr [JStr "b"]);
        ("space", JNum one)].

(** [items: [{ lessonId: <24 hex digits>, space: 1 }], lessonIDs: ["b"],
    space: 1] *)
Definition both_shapes : value :=
  jane [("items", JArr [item_one]); ("lessonIDs", JArr [JStr "b"]);
        ("space", JNum one)].

(** [items: [{ lessonId: "a", space: 0 }]] *)
Definition items_zero : value := jane [("items", JArr [item_zero])].

(** [items: [{ id: null, space: 1 }]] *)
Definition items_null_id : value := jane [("items", JArr [item_null_id])].

(** [items: [{ space: 1 }, { lessonId: <24 hex digits>, space: 1 }]] *)
Definition items_mixed : value :=
  jane [("items", JArr [item_no_id; item_one])].

(** [items: [{ lessonId: <24 hex digits>, space: 1 },
             { lessonId: "a", space: 0 }, null]] *)
Definition items_one_zero_null : value :=
  jane [("items", JArr [item_one; item_zero; JNull])].

(** [items: [{ lessonId: { "toString": 1 }, space: 1 }]] *)
Definition items_shadowing : value :=
  jane [("items", JArr [JObj [("lessonId", shadowing); ("space", JNum one)]])].

(** [items: [{ id: "xyz", space: 1 },
             { lessonID: <24 hex digits>, id: "xyz", space: 2 }]] *)
Definition items_two_references : value :=
  jane [("items",
         JArr [JObj [("id", JStr "xyz"); ("space", JNum one)];
               JObj [("lessonID", JStr hex24); ("id", JStr "xyz");
                     ("space", JNum two)]])].

(** [{ name: 7, phone: "12345" }] *)
Definition numeric_name : value :=
  Some (JObj [("name", JNum (Num.of_Z 7)); ("phone", JStr "12345")]).

Definition oid1 : ObjectId := OID "0123456789abcdefabcdef01".

(** A run of the seed script: [node seed.js --drop --file lessons.json],
    a file holding the array of one object, a collection that does not
    exist yet, and a driver whose other calls succeed. *)
Definition seeding : Seed.world :=
  {| Seed.argv := ["node"; "seed.js"; "--drop"; "--file"; "lessons.json"];
     Seed.MONGODB_URI := Some "mongodb://localhost";
     Seed.DB_NAME := None;
     Seed.defaultLocal := "seed.lessons.local.json";
     Seed.defaultRemote := "seed.lessons.json";
     Seed.existsSync := fun p => String.eqb p "lessons.json";
     Seed.readFileSync := fun _ => Some "[{}]";
     Seed.JSON_parse := fun _ => Some (JArr [JObj []]);
     Seed.constructs := true;
     Seed.connects := true;
     Seed.opens := true;
     Seed.drops := Seed.NamespaceNotFound;
     Seed.inserts := true;
     Seed.closes := true |}.

Definition empty_db : Part000.database :=
  {| Part000.lesson := []; Part000.order := [] |}.

(** One lesson with five places left. *)
Definition one_lesson : Part000.database :=
  {| Part000.lesson :=
       [ {| Part000._id := oid1;
            Part000.fields := [("topic", JStr "Math");
                               ("space", JNum (Num.of_Z 5))] |} ];
     Part000.order := [] |}.

End Sample.

(* ===================================================================== *)
(** * Proof steps *)
(* ===================================================================== *)

(** Case analysis over the 256 characters. *)
Ltac each_char c := destruct c as [[] [] [] [] [] [] [] []].

(** A closed statement settled by evaluation. *)
Ltac evaluate := vm_compute; reflexivity.

(** Case analysis over what the script finds. *)
Ltac seed_cases w :=
  unfold Seed.main, Seed.stop, Seed.seed; cbv zeta;
  destruct (ToBoolean (lookup "drop" (Seed.parseArgs (Seed.argv w)))) eqn:?;
  destruct (ToBoolean (option_map JStr (Seed.MONGODB_URI w))) eqn:?;
  cbn [negb];
  try match goal with
      | |- context [or_else (lookup "file" ?a) ?d] =>
          destruct (or_else (lookup "file" a) d)
            as [[| | | path | |]|] eqn:?
      end;
  try match goal with
      | |- context [Seed.existsSync w ?p] => destruct (Seed.existsSync w p) eqn:?
      end;
  try match goal with
      | |- context [Seed.readFileSync w ?p] =>
          destruct (Seed.readFileSync w p) as [raw|] eqn:?
      end;
  try match goal with
      | |- context [Seed.JSON_parse w ?r] =>
          destruct (Seed.JSON_parse w r) as [[| | | | docs |]|] eqn:?
      end;
  destruct (Seed.constructs w) eqn:?; destruct (Seed.connects w) eqn:?;
  destruct (Seed.opens w) eqn:?; destruct (Seed.drops w) eqn:?;
  destruct (Seed.inserts w) eqn:?; destruct (Seed.closes w) eqn:?;
  cbn [Seed.reports Seed.calls Seed.ending_ app].

(* ===================================================================== *)
(** * The model at work *)
(* ===================================================================== *)

Section Evaluation.

(** [Number("500")] is 500, [Number(" 12 ")] is 12, [Number("")] is 0,
    [Number("abc")] is NaN, [Number("0x10")] is 16. *)
Example number_of_text :
  Num.of_string "500" = Num.of_Z 500 /\
  Num.of_string " 12 " = Num.of_Z 12 /\
  Num.of_string "" = zero /\
  Num.of_string "abc" = Num.NaN /\
  Num.of_string "0x10" = Num.of_Z 16 /\
  Num.of_string "-5" = Num.of_Z (-5).
Proof. repeat split; evaluate. Qed.

(** [0.1] is the binary64 number [7205759403792794 * 2^-56]; a literal
    beyond the range is an infinity, one below it is zero. *)
Example number_rounding :
  Num.of_string "0.1" = S754_finite false 7205759403792794 (-56) /\
  Num.of_string "1.7976931348623157e308"
  = S754_finite false 9007199254740991 971 /\
  Num.of_string "1e400" = Num.Infinity /\
  Num.of_string "1e-400" = zero /\
  Num.of_string "5e-324" = S754_finite false 1 (-1074).
Proof. repeat split; evaluate. Qed.

(** [String(0.1)] is "0.1", [String(1e21)] is "1e+21",
    [String(0.0000001)] is "1e-7", [String(123.456)] is "123.456". *)
Example text_of_number :
  Num.to_string (Num.of_string "0.1") = "0.1" /\
  Num.to_string (Num.of_string "1e21") = "1e+21" /\
  Num.to_string (Num.of_string "0.0000001") = "1e-7" /\
  Num.to_string (Num.of_string "123.456") = "123.456" /\
  Num.to_string (Num.of_string "0.30000000000000004") = "0.30000000000000004" /\
  Num.to_string (Num.of_string "123456789012345680000") = "123456789012345680000" /\
  Num.to_string (Num.of_Z (-7)) = "-7".
Proof. repeat split; evaluate. Qed.

(** [String([1, null, "a"])] is "1,,a"; [String({})] is
    "[object Object]"; [String({ "toString": 1 })] raises;
    [Number(["5"])] is 5 and [Number({})] is NaN. *)
Example conversions_of_objects :
  ToString (Some (JArr [JNum (Num.of_Z 1); JNull; JStr "a"])) = Ok "1,,a" /\
  ToString (Some (JObj [])) = Ok "[object Object]" /\
  ToString (Some Sample.shadowing) = Throw TypeError /\
  ToNumber (Some (JArr [JStr "5"])) = Ok (Num.of_Z 5) /\
  ToNumber (Some (JObj [])) = Ok Num.NaN /\
  ToNumber (Some Sample.shadowing) = Throw TypeError /\
  ToNumber (Some JNull) = Ok zero /\
  ToNumber None = Ok Num.NaN.
Proof. repeat split; evaluate. Qed.

(** The class of [escapeRegex], as the expression in the source reads. *)
Example escape_class_parsed :
  RegExp.parse "[.*+?^${}()|[\]\\]"
  = Some (RegExp.Seq (RegExp.Class false escape_class) RegExp.Empty).
Proof. evaluate. Qed.

Example escape_text_dot : escape_text "a.b" = "a\.b".
Proof. reflexivity. Qed.

(** A pattern with a group, an alternation and quantifiers. *)
Example pattern_with_operators :
  RegExp.parse "^(a|b)*c{2,3}$"
  = Some (RegExp.Seq RegExp.AssertStart
            (RegExp.Seq
               (RegExp.Repeat 0 None
                  (RegExp.Alt (RegExp.Seq (RegExp.Char "a") RegExp.Empty)
                              (RegExp.Seq (RegExp.Char "b") RegExp.Empty)))
               (RegExp.Seq (RegExp.Repeat 2 (Some 3%nat) (RegExp.Char "c"))
                  (RegExp.Seq RegExp.AssertEnd RegExp.Empty)))) /\
  RegExp.parse "a**" = None /\
  RegExp.parse "(a" = None.
Proof. repeat split; evaluate. Qed.

Example matching_with_operators :
  match RegExp.new_RegExp "^(a|b)*c{2,3}$" false with
  | Ok re => RegExp.test re "ababcc" = true /\ RegExp.test re "abcccc" = false
  | Throw _ => False
  end.
Proof. vm_compute. split; reflexivity. Qed.

(** An identifier of 24 hexadecimal digits parses; a shorter one, or
    one with another character, does not. *)
Example identifiers :
  toObjectIdSafe (Some (JStr Sample.hex24)) = Some Sample.oid1 /\
  toObjectIdSafe (Some (JStr "0123")) = None /\
  toObjectIdSafe (Some (JStr "0123456789abcdefABCDEF0g")) = None /\
  toObjectIdSafe None = None /\
  toObjectIdSafe (Some Sample.shadowing) = None.
Proof. repeat split; evaluate. Qed.

End Evaluation.

(* ===================================================================== *)
(** * The validating expressions *)
(* ===================================================================== *)

Section Validators.

Import RegExp.

Lemma Get_fields_of (body : value) (k : string) :
  Get (fields_of body) k = Ok (field body k).
Proof.
  unfold field, fields_of, or_else.
  destruct body as [[ | [] | x | s | l | props] | ]; simpl; try reflexivity.
  - destruct (Num.isZero x || Num.isNaN x); reflexivity.
  - destruct s; reflexivity.
Qed.

Lemma ends_app (l1 l2 : list position) : ends (l1 ++ l2) = ends l1 || ends l2.
Proof. apply existsb_app. Qed.

Lemma read_ok (p : ascii -> bool) (b : bool) (c : ascii) (s : string) :
  read p (b, String c s) = if p c then [(false, s)] else [].
Proof. reflexivity. Qed.

Lemma shorter_tail (b b' : bool) (c : ascii) (s : string) :
  shorter (b, String c s) (b', s) = true.
Proof. unfold shorter. cbn [snd String.length]. apply Nat.ltb_lt. lia. Qed.

(** Reading on with a one-character step reaches the end exactly when
    every character left satisfies the predicate. *)
Lemma more_read_ends (p : ascii -> bool) (fuel : nat) :
  forall (b : bool) (s : string),
    (String.length s <= fuel)%nat ->
    ends (more (read p) fuel None (b, s)) = Str.forallb p s.
Proof.
  induction fuel as [ | f IH]; intros b s Hlen.
  - destruct s; [reflexivity | simpl in Hlen; lia].
  - destruct s as [ | c s]; [reflexivity | ].
    cbn [more option_map]. rewrite read_ok.
    destruct (p c) eqn:Hp; cbn [Str.forallb]; rewrite Hp.
    + cbn [filter]. rewrite shorter_tail. cbn [flat_map]. rewrite app_nil_r.
      cbn [ends existsb snd Str.is_empty orb andb].
      apply IH. simpl in Hlen. lia.
    + reflexivity.
Qed.

Lemma flat_map_end_empty (ic : bool) (l : list position) :
  flat_map (run ic (Seq AssertEnd Empty)) l = filter (fun y => Str.is_empty (snd y)) l.
Proof.
  induction l as [ | y l IH]; [reflexivity | ].
  cbn [flat_map filter]. rewrite IH.
  cbn [run flat_map]. destruct (Str.is_empty (snd y)); reflexivity.
Qed.

Lemma filter_nonempty_existsb {A} (p : A -> bool) (l : list A) :
  match filter p l with [] => false | _ :: _ => true end = existsb p l.
Proof.
  induction l as [ | a l IH]; [reflexivity | ].
  simpl. destruct (p a); [reflexivity | exact IH].
Qed.

Lemma run_Seq (ic : bool) (r1 r2 : re) (x : position) :
  run ic (Seq r1 r2) x = flat_map (run ic r2) (run ic r1 x).
Proof. reflexivity. Qed.

Lemma flat_map_one {A B} (f : A -> list B) (a : A) : flat_map f [a] = f a.
Proof. simpl. apply app_nil_r. Qed.

Lemma anchored_not_at_start (ic : bool) (ranges : list (ascii * ascii)) (s : string) :
  search ic (anchored_plus ranges) false s = false.
Proof.
  induction s as [ | c s IH]; [reflexivity | ].
  cbn [search]. rewrite IH. reflexivity.
Qed.

Lemma anchored_plus_test (ic : bool) (ranges : list (ascii * ascii)) (s : string) :
  search ic (anchored_plus ranges) true s
  = negb (Str.is_empty s) && Str.forallb (class_has ic false ranges) s.
Proof.
  destruct s as [ | c s]; [reflexivity | ].
  cbn [search]. rewrite anchored_not_at_start, orb_false_r.
  unfold matches_at, anchored_plus.
  rewrite run_Seq. change (run ic AssertStart (true, String c s)) with [(true, String c s)].
  rewrite flat_map_one, run_Seq.
  rewrite flat_map_end_empty, filter_nonempty_existsb.
  cbn [run rounds snd option_map]. rewrite read_ok.
  cbn [Str.is_empty negb andb Str.forallb].
  destruct (class_has ic false ranges c); [ | reflexivity].
  change (existsb (fun y => Str.is_empty (snd y)) ?l) with (ends l).
  rewrite !flat_map_one.
  change (fun x : position => read ?p x) with (read p).
  rewrite more_read_ends; [reflexivity | simpl; lia].
Qed.

Lemma name_class (c : ascii) :
  class_has false false [("A", "Z"); ("a", "z"); (" ", " ")]%char c = name_char c.
Proof.
  each_char c; reflexivity.
Qed.

Lemma digit_class (c : ascii) :
  class_has false false [("0", "9")]%char c = Str.is_digit c.
Proof.
  each_char c; reflexivity.
Qed.

Lemma forallb_ext (p q : ascii -> bool) (s : string) :
  (forall c, p c = q c) -> Str.forallb p s = Str.forallb q s.
Proof.
  intros H. induction s as [ | c s IH]; [reflexivity | ].
  simpl. rewrite H, IH. reflexivity.
Qed.

Lemma name_re_test (s : string) : test name_re s = letters_and_spaces s.
Proof.
  unfold test, name_re, letters_and_spaces. cbn [ignoreCase pattern].
  change name_pattern with (anchored_plus [("A", "Z"); ("a", "z"); (" ", " ")]%char).
  rewrite anchored_plus_test. f_equal. apply forallb_ext, name_class.
Qed.

Lemma phone_re_test (s : string) : test phone_re s = digits_only s.
Proof.
  unfold test, phone_re, digits_only. cbn [ignoreCase pattern].
  change phone_pattern with (anchored_plus [("0", "9")]%char).
  rewrite anchored_plus_test. f_equal. apply forallb_ext, digit_class.
Qed.

Lemma name_pattern_parsed : parse "^[A-Za-z ]+$" = Some name_pattern.
Proof. evaluate. Qed.

Lemma phone_pattern_parsed : parse "^[0-9]+$" = Some phone_pattern.
Proof. evaluate. Qed.

End Validators.

(* ===================================================================== *)
(** * Escaped search terms *)
(* ===================================================================== *)

Section Escaping.

Import RegExp.

(** The class of [escapeRegex] is the set of syntax characters. *)
Lemma escape_class_syntax (c : ascii) :
  class_has false false escape_class c = SyntaxCharacter c.
Proof. each_char c; reflexivity. Qed.

Lemma term_plain (c : ascii) (f : nat) (t : string) :
  SyntaxCharacter c = false ->
  term (S f) (String c t) = quantified (Char c) t.
Proof.
  each_char c; intros H;
    try discriminate H; reflexivity.
Qed.

Lemma term_escaped (c : ascii) (f : nat) (t : string) :
  SyntaxCharacter c = true ->
  term (S f) (String "\" (String c t)) = quantified (Char c) t.
Proof.
  each_char c; intros H;
    try discriminate H; reflexivity.
Qed.

Lemma alternative_cons (f : nat) (c : ascii) (t : string) :
  no_closer (String c t) = true ->
  alternative (S f) (String c t)
  = match term f (String c t) with
    | Some (r, t') =>
        match alternative f t' with
        | Some (r', t'') => Some (Seq r r', t'')
        | None => None
        end
    | None => None
    end.
Proof.
  each_char c; intros H;
    try discriminate H; reflexivity.
Qed.

Lemma quantified_plain (r : re) (s : string) :
  no_quantifier s = true -> quantified r s = Some (r, s).
Proof.
  destruct s as [ | c s]; [reflexivity | ].
  each_char c; intros H;
    try discriminate H; reflexivity.
Qed.

Lemma escape_text_cons (c : ascii) (t : string) :
  escape_text (String c t)
  = if SyntaxCharacter c then String "\" (String c (escape_text t))
    else String c (escape_text t).
Proof.
  unfold escape_text. cbn [replace_each]. rewrite escape_class_syntax.
  destruct (SyntaxCharacter c); reflexivity.
Qed.

Lemma escape_text_no_quantifier (t : string) :
  no_quantifier (escape_text t) = true.
Proof.
  destruct t as [ | c t]; [reflexivity | ].
  rewrite escape_text_cons.
  destruct (SyntaxCharacter c) eqn:H; [reflexivity | ].
  each_char c; try discriminate H; reflexivity.
Qed.

Lemma escape_text_length (t : string) :
  (String.length t <= String.length (escape_text t))%nat.
Proof.
  induction t as [ | c t IH]; [apply Nat.le_refl | ].
  rewrite escape_text_cons. destruct (SyntaxCharacter c); simpl; lia.
Qed.

(** An escaped term parses as the sequence of its own characters. *)
Lemma alternative_escaped (t : string) :
  forall f : nat,
    (2 * String.length t < f)%nat ->
    alternative f (escape_text t) = Some (literal t, EmptyString).
Proof.
  induction t as [ | c t IH]; intros f Hf.
  - destruct f; [simpl in Hf; lia | reflexivity].
  - destruct f as [ | [ | f]]; try (simpl in Hf; lia).
    assert (Hrest : alternative (S f) (escape_text t)
                    = Some (literal t, EmptyString))
      by (apply IH; simpl in Hf; lia).
    rewrite escape_text_cons.
    destruct (SyntaxCharacter c) eqn:Hc.
    + rewrite alternative_cons by reflexivity.
      rewrite term_escaped by exact Hc.
      rewrite quantified_plain by apply escape_text_no_quantifier.
      rewrite Hrest. reflexivity.
    + rewrite alternative_cons
        by (each_char c;
            try discriminate Hc; reflexivity).
      rewrite term_plain by exact Hc.
      rewrite quantified_plain by apply escape_text_no_quantifier.
      rewrite Hrest. reflexivity.
Qed.

Lemma parse_escaped (t : string) : parse (escape_text t) = Some (literal t).
Proof.
  unfold parse.
  set (n := (3 * String.length (escape_text t) + 2)%nat).
  replace (3 * String.length (escape_text t) + 3)%nat with (S n) by (subst n; lia).
  cbn [disjunction].
  rewrite alternative_escaped; [reflexivity | ].
  pose proof (escape_text_length t). subst n. lia.
Qed.

(** ** Matching a sequence of characters *)

Lemma matches_literal (ic : bool) (t : string) :
  forall (b : bool) (s : string),
    matches_at ic (literal t) (b, s) = String.prefix (fold_case ic t) (fold_case ic s).
Proof.
  induction t as [ | c t IH]; intros b s.
  - destruct s; reflexivity.
  - unfold matches_at. cbn [literal]. rewrite run_Seq. cbn [run].
    destruct s as [ | d s]; [reflexivity | ].
    rewrite read_ok. unfold char_eq. cbn [fold_case Str.map String.prefix].
    destruct (ascii_dec (canonicalize ic c) (canonicalize ic d)) as [E | N].
    + rewrite E, Ascii.eqb_refl, flat_map_one. apply IH.
    + apply Ascii.eqb_neq in N. rewrite N. reflexivity.
Qed.

Lemma search_literal (ic : bool) (t : string) :
  forall (start : bool) (s : string),
    search ic (literal t) start s = includes (fold_case ic t) (fold_case ic s).
Proof.
  intros start s. revert start.
  induction s as [ | d s IH]; intros start.
  - cbn [search includes fold_case Str.map]. rewrite matches_literal. reflexivity.
  - cbn [search includes fold_case Str.map]. rewrite matches_literal, IH. reflexivity.
Qed.

(** ** Folding to upper case or to lower case *)

Lemma lower_of_upper (c : ascii) :
  Str.lower_char (Str.upper_char c) = Str.lower_char c.
Proof. each_char c; reflexivity. Qed.

Lemma upper_of_lower (c : ascii) :
  Str.upper_char (Str.lower_char c) = Str.upper_char c.
Proof. each_char c; reflexivity. Qed.

Lemma same_fold (c d : ascii) :
  Str.upper_char c = Str.upper_char d <-> Str.lower_char c = Str.lower_char d.
Proof.
  split; intros H.
  - rewrite <- (lower_of_upper c), <- (lower_of_upper d), H. reflexivity.
  - rewrite <- (upper_of_lower c), <- (upper_of_lower d), H. reflexivity.
Qed.

Lemma prefix_fold (t : string) :
  forall s : string,
    String.prefix (Str.map Str.upper_char t) (Str.map Str.upper_char s)
    = String.prefix (Str.toLowerCase t) (Str.toLowerCase s).
Proof.
  unfold Str.toLowerCase.
  induction t as [ | c t IH]; intros s.
  - destruct s; reflexivity.
  - destruct s as [ | d s]; [reflexivity | ].
    cbn [Str.map String.prefix].
    destruct (ascii_dec (Str.upper_char c) (Str.upper_char d)) as [E | N];
      destruct (ascii_dec (Str.lower_char c) (Str.lower_char d)) as [E' | N'].
    + apply IH.
    + exfalso. apply N', same_fold, E.
    + exfalso. apply N, same_fold, E'.
    + reflexivity.
Qed.

(** The test without regard to case is [includes] on the lower-cased
    texts as well. *)
Lemma includes_ci_lower (t s : string) :
  includes_ci t s = includes (Str.toLowerCase t) (Str.toLowerCase s).
Proof.
  unfold includes_ci. induction s as [ | d s IH].
  - change (Str.map Str.upper_char "") with "".
    change (Str.toLowerCase "") with "".
    cbn [includes]. f_equal. apply (prefix_fold t "").
  - change (Str.map Str.upper_char (String d s))
      with (String (Str.upper_char d) (Str.map Str.upper_char s)).
    change (Str.toLowerCase (String d s))
      with (String (Str.lower_char d) (Str.toLowerCase s)).
    cbn [includes]. rewrite IH. f_equal.
    apply (prefix_fold t (String d s)).
Qed.

End Escaping.

(* ===================================================================== *)
(** * Order normalisation *)
(* ===================================================================== *)

Section Normalisation.

Lemma bind_assoc {A B C} (m : result A) (f : A -> result B) (g : B -> result C) :
  bind (bind m f) g = bind m (fun a => bind (f a) g).
Proof. destruct m; reflexivity. Qed.

Lemma nameOk_string (s : string) : nameOk (Some (JStr s)) = letters_and_spaces s.
Proof. apply name_re_test. Qed.

Lemma phoneOk_string (s : string) : phoneOk (Some (JStr s)) = digits_only s.
Proof. apply phone_re_test. Qed.

Lemma nameOk_inv (v : value) :
  nameOk v = true -> exists s, v = Some (JStr s) /\ letters_and_spaces s = true.
Proof.
  destruct v as [[ | | | s | | ] | ]; try discriminate.
  rewrite nameOk_string. intros H. exists s. split; [reflexivity | exact H].
Qed.

Lemma phoneOk_inv (v : value) :
  phoneOk v = true -> exists s, v = Some (JStr s) /\ digits_only s = true.
Proof.
  destruct v as [[ | | | s | | ] | ]; try discriminate.
  rewrite phoneOk_string. intros H. exists s. split; [reflexivity | exact H].
Qed.

(** ** The loop over the items *)

Lemma item_space_rejected_cons (it : json) (rest : list json) :
  Part000.item_space_rejected (it :: rest)
  = n <- item_space it ;;
    if not_positive n then Ok true else Part000.item_space_rejected rest.
Proof.
  unfold item_space. cbn [Part000.item_space_rejected]. rewrite bind_assoc.
  reflexivity.
Qed.

(** The loop passes exactly when every element passes. *)
Lemma item_space_rejected_false (its : list json) :
  Part000.item_space_rejected its = Ok false <-> Forall space_passes its.
Proof.
  induction its as [ | it rest IH].
  - split; [constructor | reflexivity].
  - rewrite item_space_rejected_cons. split.
    + intros H. destruct (item_space it) as [n | e] eqn:En; [ | discriminate].
      cbn [bind] in H. destruct (not_positive n) eqn:Hn; [discriminate | ].
      constructor; [exists n; split; [exact En | exact Hn] | apply IH, H].
    + intros H. inversion H as [ | ? ? [n [En Hn]] Hrest]; subst.
      rewrite En. cbn [bind]. rewrite Hn. apply IH, Hrest.
Qed.

(** The first element that fails, in array order, ends the loop. *)
Lemma item_space_rejected_first (pre post : list json) (it : json) :
  Forall space_passes pre -> space_fails it ->
  Part000.item_space_rejected (pre ++ it :: post) = Ok true.
Proof.
  intros Hpre [n [En Hn]].
  induction Hpre as [ | a pre [m [Em Hm]] _ IH].
  - cbn [app]. rewrite item_space_rejected_cons, En. cbn [bind].
    rewrite Hn. reflexivity.
  - cbn [app]. rewrite item_space_rejected_cons, Em. cbn [bind].
    rewrite Hm. exact IH.
Qed.

(** An element that is [null] before any failing one makes the loop
    raise. *)
Lemma item_space_rejected_null (pre post : list json) :
  Forall space_passes pre ->
  Part000.item_space_rejected (pre ++ JNull :: post) = Throw TypeError.
Proof.
  intros Hpre.
  induction Hpre as [ | a pre [m [Em Hm]] _ IH].
  - reflexivity.
  - cbn [app]. rewrite item_space_rejected_cons, Em. cbn [bind].
    rewrite Hm. exact IH.
Qed.

(** ** The three outcomes of [buildOrderDoc] *)

Lemma build_invalid (now : Z) (body : value) :
  nameOk (field body "name") && phoneOk (field body "phone") = false ->
  Part000.buildOrderDoc now body = Ok (Error "Invalid name or phone").
Proof.
  intros H. unfold Part000.buildOrderDoc. rewrite !Get_fields_of. cbn [bind].
  rewrite <- negb_andb, H. reflexivity.
Qed.

Lemma build_items (now : Z) (body : value) (its : list json) :
  nameOk (field body "name") = true ->
  phoneOk (field body "phone") = true ->
  field body "items" = Some (JArr its) -> its <> [] ->
  Part000.buildOrderDoc now body
  = rejected <- Part000.item_space_rejected its ;;
    if rejected then Ok (Error "Each item.space must be a positive number")
    else
      normalized <- mapM normalize_item its ;;
      Ok (Doc (Itemized (field body "name") (field body "phone") normalized now)).
Proof.
  intros Hn Hp Hi Hne. unfold Part000.buildOrderDoc.
  rewrite !Get_fields_of. cbn [bind]. rewrite Hn, Hp, Hi. cbn [negb orb as_array].
  destruct its; [contradiction | reflexivity].
Qed.

Lemma build_batch (now : Z) (body : value) (ids : list json) :
  nameOk (field body "name") = true ->
  phoneOk (field body "phone") = true ->
  nonempty_array (field body "items") = false ->
  field body "lessonIDs" = Some (JArr ids) -> ids <> [] ->
  is_defined (field body "space") = true ->
  Part000.buildOrderDoc now body
  = s <- ToNumber (field body "space") ;;
    if not_positive s then Ok (Error "space must be a positive number")
    else
      refs <- mapM (fun id => ref_of (Some id)) ids ;;
      Ok (Doc (Batch (field body "name") (field body "phone") refs s now)).
Proof.
  intros Hn Hp Hi Hl Hne Hs. unfold Part000.buildOrderDoc.
  rewrite !Get_fields_of. cbn [bind]. rewrite Hn, Hp, Hl, Hs. cbn [negb orb as_array].
  destruct ids; [contradiction | ].
  destruct (field body "items") as [[ | | | | [ | ? ?] | ] | ];
    try reflexivity; discriminate Hi.
Qed.

(** ** References *)

Lemma ref_of_stringifies (id : value) :
  stringifies id = true ->
  exists r, ref_of id = Ok r /\
    match toObjectIdSafe id with
    | Some oid => r = RefId oid
    | None => exists s, ToString id = Ok s /\ r = RefText s
    end.
Proof.
  unfold stringifies, returns, ref_of. intros H.
  destruct (toObjectIdSafe id) as [oid | ].
  - exists (RefId oid). split; reflexivity.
  - destruct (ToString id) as [s | e]; [ | discriminate].
    exists (RefText s). split; [reflexivity | ]. exists s. split; reflexivity.
Qed.

Lemma ref_of_string (s : string) :
  ref_of (Some (JStr s))
  = Ok (if valid_hex s then RefId (OID (Str.toLowerCase s)) else RefText s).
Proof.
  unfold ref_of, toObjectIdSafe, new_ObjectId. cbn [ToString ToString_json bind].
  destruct (valid_hex s); reflexivity.
Qed.

Lemma mapM_ok {A B} (f : A -> result B) (g : A -> B) (l : list A) :
  Forall (fun a => f a = Ok (g a)) l -> mapM f l = Ok (List.map g l).
Proof.
  induction 1 as [ | a l Ha _ IH]; [reflexivity | ].
  cbn [mapM List.map]. rewrite Ha. cbn [bind]. rewrite IH. reflexivity.
Qed.

Lemma mapM_returns {A B} (f : A -> result B) (l : list A) :
  Forall (fun a => returns (f a) = true) l ->
  exists bs, mapM f l = Ok bs /\ Forall2 (fun a b => f a = Ok b) l bs.
Proof.
  induction 1 as [ | a l Ha _ [bs [E F]]].
  - exists []. split; [reflexivity | constructor].
  - destruct (f a) as [b | e] eqn:Eb; [ | discriminate].
    exists (b :: bs). split.
    + cbn [mapM]. rewrite Eb. cbn [bind]. rewrite E. reflexivity.
    + constructor; assumption.
Qed.

End Normalisation.

(* ===================================================================== *)
(** * The input validator and the search expression *)
(* ===================================================================== *)

Section ValidatorClaims.

Lemma forallb_existsb_negb (p : ascii -> bool) (s : string) :
  Str.existsb (fun c => negb (p c)) s = negb (Str.forallb p s).
Proof.
  induction s as [ | c s IH]; [reflexivity | ].
  cbn [Str.existsb Str.forallb]. rewrite IH, negb_andb. reflexivity.
Qed.

Lemma validators_need_a_string (v : value) :
  as_string v = None -> nameOk v = false /\ phoneOk v = false.
Proof.
  unfold nameOk, phoneOk. intros ->. split; reflexivity.
Qed.

(** C5.  The validator accepts as name exactly the non-empty strings of
    ASCII letters and spaces: a string holding any other character (a
    digit, punctuation) and the empty string are refused.  It accepts as
    phone exactly the non-empty strings of digits.  A name or phone that
    is missing or not a string is refused too, and every refusal, of
    whatever kind, ends [buildOrderDoc] the same way: the error
    "Invalid name or phone". *)
Theorem input_validator :
  (forall s, nameOk (Some (JStr s)) = letters_and_spaces s) /\
  (forall s, Str.existsb (fun c => negb (name_char c)) s = true ->
             nameOk (Some (JStr s)) = false) /\
  nameOk (Some (JStr "")) = false /\
  (forall s, phoneOk (Some (JStr s)) = digits_only s) /\
  (forall v, as_string v = None -> nameOk v = false /\ phoneOk v = false) /\
  (forall now body,
     nameOk (field body "name") && phoneOk (field body "phone") = false ->
     Part000.buildOrderDoc now body = Ok (Error "Invalid name or phone")).
Proof.
  split; [exact nameOk_string | ].
  split.
  { intros s H. rewrite nameOk_string. unfold letters_and_spaces.
    rewrite forallb_existsb_negb in H. apply negb_true_iff in H.
    rewrite H. apply andb_false_r. }
  split; [reflexivity | ].
  split; [exact phoneOk_string | ].
  split; [exact validators_need_a_string | ].
  intros now body H. apply build_invalid, H.
Qed.

(** A name of letters and spaces is accepted, one with a digit is not,
    and a name that is a number is refused like a malformed one. *)
Lemma input_validator_witness :
  nameOk (Some (JStr "Jane Doe")) = true /\
  nameOk (Some (JStr "Jane2")) = false /\
  Part000.buildOrderDoc 0 Sample.numeric_name = Ok (Error "Invalid name or phone") /\
  Part000.buildOrderDoc 0 None = Ok (Error "Invalid name or phone").
Proof.
  destruct input_validator as (H1 & H2 & _ & _ & H5 & H6).
  split; [rewrite H1; reflexivity | ].
  split; [apply H2; reflexivity | ].
  split; apply H6.
  - destruct (H5 (field Sample.numeric_name "name") eq_refl) as [-> _].
    reflexivity.
  - destruct (H5 (field None "name") eq_refl) as [-> _]. reflexivity.
Defined.

End ValidatorClaims.

Section SearchClaims.

Import RegExp.

Lemma escapeRegex_string (term : string) :
  escapeRegex (Some (JStr term)) = Ok (escape_text term).
Proof. reflexivity. Qed.

(** C6.  For every search term and every candidate, the expression
    [new RegExp(escapeRegex(term), 'i')] is built without error and its
    test on the candidate is the substring test without regard to case
    (the lower-cased term occurs in the lower-cased candidate): every
    one of [. * + ? ^ $ { } ( ) | [ ] \] in the term stands for itself.
    The term "a.b" does not match "axb". *)
Theorem escaped_term_is_literal :
  (forall term cand : string,
     exists re,
       (source <- escapeRegex (Some (JStr term)) ;; new_RegExp source true)
       = Ok re
       /\ test re cand = includes_ci term cand
       /\ test re cand
          = includes (Str.toLowerCase term) (Str.toLowerCase cand)) /\
  (exists re,
     (source <- escapeRegex (Some (JStr "a.b")) ;; new_RegExp source true)
     = Ok re
     /\ test re "axb" = false /\ test re "xA.Bx" = true).
Proof.
  assert (G : forall term cand : string,
     exists re,
       (source <- escapeRegex (Some (JStr term)) ;; new_RegExp source true)
       = Ok re
       /\ test re cand = includes_ci term cand).
  { intros term cand.
    exists {| pattern := literal term; ignoreCase := true |}.
    rewrite escapeRegex_string. cbn [bind]. unfold new_RegExp.
    rewrite parse_escaped. split; [reflexivity | ].
    unfold test. cbn [pattern ignoreCase]. apply search_literal. }
  split.
  - intros term cand. destruct (G term cand) as [re [E T]].
    exists re. split; [exact E | ]. split; [exact T | ].
    rewrite T. apply includes_ci_lower.
  - destruct (G "a.b" "axb") as [re [E T]].
    exists re. split; [exact E | ]. split.
    + rewrite T. reflexivity.
    + destruct (G "a.b" "xA.Bx") as [re' [E' T']].
      rewrite E in E'. injection E' as <-. rewrite T'. reflexivity.
Qed.

(** The route builds that expression from the trimmed term, and none
    at all from a blank term. *)
Lemma search_regexp_literal (term : string) :
  Part000.search_regexp (Some (JStr term))
  = if Str.is_empty (Str.trim term) then Ok None
    else Ok (Some {| pattern := literal (Str.trim term); ignoreCase := true |}).
Proof.
  unfold Part000.search_regexp, or_else. cbn [ToBoolean].
  destruct term as [ | c term]; [reflexivity | ].
  cbn [Str.is_empty negb ToString ToString_json bind].
  destruct (Str.is_empty (Str.trim (String c term))); [reflexivity | ].
  rewrite escapeRegex_string. cbn [bind]. unfold new_RegExp.
  rewrite parse_escaped. reflexivity.
Qed.

(** Left as it is, the dot of "a.b" reads any character. *)
Example unescaped_dot_matches :
  exists re, new_RegExp "a.b" true = Ok re /\ test re "axb" = true.
Proof. eexists. split; reflexivity. Qed.

End SearchClaims.

(* ===================================================================== *)
(** * Claims on the order normaliser *)
(* ===================================================================== *)

Section ItemChecks.

(** X1.  When the first element of [items] that does not pass, in array
    order, has a space that coerces to a number (one that is not finite
    or not above zero), the payload is rejected with "Each item.space
    must be a positive number", whatever follows that element. *)
Lemma first_failing_item_rejects (now : Z) (body : value)
    (pre post : list json) (it : json) :
  nameOk (field body "name") = true ->
  phoneOk (field body "phone") = true ->
  field body "items" = Some (JArr (pre ++ it :: post)) ->
  Forall space_passes pre -> space_fails it ->
  Part000.buildOrderDoc now body
  = Ok (Error "Each item.space must be a positive number").
Proof.
  intros Hn Hp Hi Hpre Hit.
  rewrite (@build_items now body _ Hn Hp Hi) by (destruct pre; discriminate).
  rewrite item_space_rejected_first by assumption. reflexivity.
Qed.

(** The second item asks for no place: the payload is rejected, and
    the [null] after it is never read. *)
Lemma first_failing_item_witness :
  Part000.buildOrderDoc 0 Sample.items_one_zero_null
  = Ok (Error "Each item.space must be a positive number").
Proof.
  apply (@first_failing_item_rejects 0 Sample.items_one_zero_null
           [Sample.item_one] [JNull] Sample.item_zero).
  - evaluate.
  - evaluate.
  - reflexivity.
  - repeat constructor. exists Sample.one. split; evaluate.
  - exists zero. split; evaluate.
Defined.

(** X2.  [buildOrderDoc] produces a document from a non-empty [items]
    array only when every element's space coerces to a finite number
    above zero. *)
Lemma itemized_doc_needs_passing_items (now : Z) (body : value)
    (its : list json) (d : orderDoc) :
  nameOk (field body "name") = true ->
  phoneOk (field body "phone") = true ->
  field body "items" = Some (JArr its) -> its <> [] ->
  Part000.buildOrderDoc now body = Ok (Doc d) ->
  Forall space_passes its.
Proof.
  intros Hn Hp Hi Hne. rewrite (@build_items now body _ Hn Hp Hi Hne).
  destruct (Part000.item_space_rejected its) as [[ | ] | e] eqn:E;
    cbn [bind]; try discriminate.
  intros _. apply item_space_rejected_false, E.
Qed.

(** The payload with both shapes and a passing item yields a document,
    so its item passes. *)
Lemma itemized_doc_witness : Forall space_passes [Sample.item_one].
Proof.
  apply (@itemized_doc_needs_passing_items 0 Sample.both_shapes
           [Sample.item_one]
           (Itemized (Some (JStr "Jane Doe")) (Some (JStr "12345"))
              [{| lessonId := RefId Sample.oid1; space := Sample.one |}] 0)).
  - evaluate.
  - evaluate.
  - reflexivity.
  - discriminate.
  - evaluate.
Defined.

(** C1.  The payload
    [{ name: "Jane Doe", phone: "12345",
       items: [null, { lessonId: "a", space: 0 }] }]
    passes the name and phone checks and its second item has a space
    that is not above zero; reading [it.space] on the [null] element
    raises a TypeError, so [buildOrderDoc] returns neither the item
    error nor a document, and the route answers 500. *)
Theorem null_item_raises (now : Z) (fresh : ObjectId) (inserts : bool) :
  nameOk (field Sample.null_then_zero "name") = true /\
  phoneOk (field Sample.null_then_zero "phone") = true /\
  field Sample.null_then_zero "items" = Some (JArr [JNull; Sample.item_zero]) /\
  space_fails Sample.item_zero /\
  Part000.buildOrderDoc now Sample.null_then_zero = Throw TypeError /\
  Part000.post_orders true inserts fresh now Sample.null_then_zero
    Sample.empty_db
  = (Part000.ReplyError 500 "Failed to create order", Sample.empty_db, []).
Proof.
  split; [evaluate | ].
  split; [evaluate | ].
  split; [reflexivity | ].
  split; [exists zero; split; reflexivity | ].
  assert (E : Part000.buildOrderDoc now Sample.null_then_zero = Throw TypeError).
  { rewrite (@build_items now Sample.null_then_zero [JNull; Sample.item_zero]);
      try reflexivity; try discriminate; evaluate. }
  split; [exact E | ].
  unfold Part000.post_orders. rewrite E. reflexivity.
Qed.

End ItemChecks.

Section Batch.

(** X3.  For a payload whose name and phone pass, whose items are
    absent or empty, whose [lessonIDs] is a non-empty array of entries
    that convert to text, and whose space is supplied and coerces to a
    number: a space that is not finite or not above zero is rejected
    with "space must be a positive number"; otherwise a batch document
    is produced whose space is the coerced number. *)
Lemma batch_normalisation (now : Z) (body : value) (ids : list json)
    (n : number) :
  nameOk (field body "name") = true ->
  phoneOk (field body "phone") = true ->
  absent_or_empty (field body "items") = true ->
  field body "lessonIDs" = Some (JArr ids) -> ids <> [] ->
  is_defined (field body "space") = true ->
  ToNumber (field body "space") = Ok n ->
  Forall (fun id => stringifies (Some id) = true) ids ->
  (not_positive n = true ->
   Part000.buildOrderDoc now body
   = Ok (Error "space must be a positive number")) /\
  (not_positive n = false ->
   exists refs,
     Part000.buildOrderDoc now body
     = Ok (Doc (Batch (field body "name") (field body "phone") refs n now))).
Proof.
  intros Hn Hp Hi Hl Hne Hd Hs Hids.
  assert (Hi' : nonempty_array (field body "items") = false).
  { destruct (field body "items") as [[ | | | | [ | ? ?] | ] | ];
      try discriminate Hi; reflexivity. }
  rewrite (@build_batch now body _ Hn Hp Hi' Hl Hne Hd), Hs. cbn [bind].
  split; intros Hpos; rewrite Hpos; [reflexivity | ].
  destruct (@mapM_returns _ _ (fun id => ref_of (Some id)) ids) as [refs [E _]].
  { eapply Forall_impl; [ | exact Hids]. intros id H.
    destruct (@ref_of_stringifies _ H) as [r [-> _]]. reflexivity. }
  exists refs. rewrite E. reflexivity.
Qed.

(** The batch order of two places: a batch document with space 2. *)
Lemma batch_normalisation_witness :
  exists refs,
    Part000.buildOrderDoc 0 Sample.batch_two
    = Ok (Doc (Batch (Some (JStr "Jane Doe")) (Some (JStr "12345"))
                 refs Sample.two 0)).
Proof.
  destruct (@batch_normalisation 0 Sample.batch_two [JStr Sample.hex24]
              Sample.two) as [_ H].
  - evaluate.
  - evaluate.
  - reflexivity.
  - reflexivity.
  - discriminate.
  - reflexivity.
  - reflexivity.
  - repeat constructor.
  - apply H. reflexivity.
Defined.

(** The scenario of the batch order with [space: 2]. *)
Example batch_order_of_two (now : Z) :
  Part000.buildOrderDoc now Sample.batch_two
  = Ok (Doc (Batch (Some (JStr "Jane Doe")) (Some (JStr "12345"))
               [RefId Sample.oid1] Sample.two now)).
Proof.
  rewrite (@build_batch now Sample.batch_two [JStr Sample.hex24]);
    try reflexivity; try discriminate; evaluate.
Qed.

(** C3.  The payload
    [{ name: "Jane Doe", phone: "12345",
       lessonIDs: [{ "toString": 1 }], space: 2 }]
    passes the name and phone checks, has no items, a non-empty
    [lessonIDs] array and a supplied space that coerces to 2, a finite
    number above zero; [toObjectIdSafe] gives [null] for the entry and
    the fallback [String(id)] raises a TypeError, so no batch document is
    produced and the route answers 500. *)
Theorem batch_reference_raises (now : Z) (fresh : ObjectId)
    (inserts : bool) :
  nameOk (field Sample.batch_shadowing "name") = true /\
  phoneOk (field Sample.batch_shadowing "phone") = true /\
  absent_or_empty (field Sample.batch_shadowing "items") = true /\
  field Sample.batch_shadowing "lessonIDs" = Some (JArr [Sample.shadowing]) /\
  ToNumber (field Sample.batch_shadowing "space") = Ok Sample.two /\
  not_positive Sample.two = false /\
  toObjectIdSafe (Some Sample.shadowing) = None /\
  Part000.buildOrderDoc now Sample.batch_shadowing = Throw TypeError /\
  Part000.post_orders true inserts fresh now Sample.batch_shadowing
    Sample.empty_db
  = (Part000.ReplyError 500 "Failed to create order", Sample.empty_db, []).
Proof.
  split; [evaluate | ].
  split; [evaluate | ].
  do 5 (split; [reflexivity | ]).
  assert (E : Part000.buildOrderDoc now Sample.batch_shadowing = Throw TypeError).
  { rewrite (@build_batch now Sample.batch_shadowing [Sample.shadowing]);
      try reflexivity; try discriminate; evaluate. }
  split; [exact E | ].
  unfold Part000.post_orders. rewrite E. reflexivity.
Qed.

End Batch.

(* ===================================================================== *)
(** * Lesson references of an order *)
(* ===================================================================== *)

Section References.

(** An element whose space can be read is not [null], so its reference
    can be read too. *)
Lemma item_id_returns (it : json) (n : number) :
  item_space it = Ok n -> exists v, item_id (Some it) = Ok v.
Proof.
  unfold item_space, item_id.
  destruct it as [ | b | x | s | l | props]; cbn [Get bind ToBoolean];
    try discriminate; intros _; try (eexists; reflexivity).
  destruct (ToBoolean (lookup "lessonId" props));
    [eexists; reflexivity | ].
  destruct (ToBoolean (lookup "lessonID" props)); eexists; reflexivity.
Qed.

(** When none of [lessonId], [lessonID], [id] is truthy, the reference
    is the value of [id]. *)
Lemma item_id_falsy (it : json) (v : value) :
  item_id (Some it) = Ok v -> ToBoolean v = false -> Get (Some it) "id" = Ok v.
Proof.
  unfold item_id.
  destruct it as [ | b | x | s | l | props]; cbn [Get bind ToBoolean];
    try discriminate; try (intros E _; exact E).
  destruct (ToBoolean (lookup "lessonId" props)) eqn:E1.
  { intros E H. injection E as <-. rewrite E1 in H. discriminate. }
  destruct (ToBoolean (lookup "lessonID" props)) eqn:E2.
  { intros E H. injection E as <-. rewrite E2 in H. discriminate. }
  intros E _. exact E.
Qed.

(** A falsy value converts to text, and the text is no identifier. *)
Lemma falsy_reference (v : value) :
  ToBoolean v = false ->
  exists s, ToString v = Ok s /\ toObjectIdSafe v = None
            /\ (v = None -> s = "undefined").
Proof.
  destruct v as [[ | [ | ] | x | s | l | props] | ]; cbn [ToBoolean];
    try discriminate; intros H.
  - exists "null". repeat split. intros E; discriminate E.
  - exists "false". repeat split. intros E; discriminate E.
  - destruct x as [sg | sg | | sg m e]; try discriminate H.
    + exists "0". repeat split. intros E; discriminate E.
    + exists "NaN". repeat split. intros E; discriminate E.
  - destruct s; [ | discriminate H].
    exists "". repeat split. intros E; discriminate E.
  - exists "undefined". repeat split.
Qed.

Lemma normalize_item_ok (it : json) (v : value) (r : lessonRef) (n : number) :
  item_id (Some it) = Ok v -> ref_of v = Ok r -> item_space it = Ok n ->
  normalize_item it = Ok {| lessonId := r; space := n |}.
Proof.
  unfold normalize_item, item_space. intros -> Hr Hn. cbn [bind].
  rewrite Hr. cbn [bind].
  destruct (Get (Some it) "space") as [sp | e]; [ | discriminate Hn].
  cbn [bind] in *. rewrite Hn. reflexivity.
Qed.

Lemma normalize_items (its : list json) :
  Forall space_passes its ->
  Forall (fun it => forall v, item_id (Some it) = Ok v -> stringifies v = true)
         its ->
  exists normalized,
    mapM normalize_item its = Ok normalized
    /\ Forall2 normalised_as its normalized.
Proof.
  intros Hs Hr.
  induction its as [ | it rest IH].
  - exists []. split; [reflexivity | constructor].
  - inversion Hs as [ | ? ? [n [En _]] Hs']; subst.
    inversion Hr as [ | ? ? Hv Hr']; subst.
    destruct (IH Hs' Hr') as [normalized [E F]].
    destruct (@item_id_returns it n En) as [v Ev].
    destruct (@ref_of_stringifies v (Hv v Ev)) as [r [Er _]].
    exists ({| lessonId := r; space := n |} :: normalized). split.
    + cbn [mapM]. rewrite (@normalize_item_ok it v r n Ev Er En). cbn [bind].
      rewrite E. reflexivity.
    + constructor; [ | exact F]. exists v, r, n. repeat split; assumption.
Qed.

Lemma itemized_doc (now : Z) (body : value) (its : list json) :
  nameOk (field body "name") = true ->
  phoneOk (field body "phone") = true ->
  field body "items" = Some (JArr its) -> its <> [] ->
  Forall space_passes its ->
  Forall (fun it => forall v, item_id (Some it) = Ok v -> stringifies v = true)
         its ->
  exists normalized,
    Part000.buildOrderDoc now body
    = Ok (Doc (Itemized (field body "name") (field body "phone") normalized now))
    /\ Forall2 normalised_as its normalized.
Proof.
  intros Hn Hp Hi Hne Hs Hr.
  destruct (@normalize_items its Hs Hr) as [normalized [E F]].
  exists normalized. split; [ | exact F].
  rewrite (@build_items now body its Hn Hp Hi Hne).
  apply item_space_rejected_false in Hs. rewrite Hs. cbn [bind].
  rewrite E. reflexivity.
Qed.

End References.

(* ===================================================================== *)
(** * Claims on identifiers and on the two shapes *)
(* ===================================================================== *)

Section Codec.

Lemma toObjectIdSafe_string (s : string) :
  toObjectIdSafe (Some (JStr s))
  = if valid_hex s then Some (OID (Str.toLowerCase s)) else None.
Proof.
  unfold toObjectIdSafe, new_ObjectId. cbn [ToString ToString_json bind].
  destruct (valid_hex s); reflexivity.
Qed.

Lemma malformed_not_valid (s : string) :
  String.length s <> 24%nat \/ Str.existsb (fun c => negb (Str.is_hex c)) s = true ->
  valid_hex s = false.
Proof.
  unfold valid_hex. intros [H | H].
  - apply Nat.eqb_neq in H. rewrite H. reflexivity.
  - rewrite forallb_existsb_negb in H. apply negb_true_iff in H.
    rewrite H. apply andb_false_r.
Qed.

Lemma item_id_object (props : list (string * json)) :
  item_id (Some (JObj props)) = Ok (reference_of props).
Proof.
  unfold item_id, reference_of, or_else. cbn [Get bind].
  destruct (ToBoolean (lookup "lessonId" props)) eqn:A; [now rewrite A|].
  destruct (ToBoolean (lookup "lessonID" props)); reflexivity.
Qed.

Lemma passing_item_object (it : json) :
  space_passes it -> exists props, it = JObj props.
Proof.
  intros [n [S P]]. destruct it as [| b | x | s | elems | props];
    try (cbn in S; injection S as <-; discriminate P);
    try discriminate S.
  now exists props.
Qed.

Lemma ref_of_text (v : value) (s : string) :
  ToString v = Ok s -> ref_of v = Ok (stored s).
Proof.
  intro T. unfold ref_of, toObjectIdSafe, stored, new_ObjectId.
  rewrite T. cbn [bind]. destruct (valid_hex s); [reflexivity|].
  reflexivity.
Qed.

(** C7.  The payload
    [{ name: "Jane Doe", phone: "12345",
       items: [{ lessonId: { "toString": 1 }, space: 1 }] }]
    passes the name, phone and space checks.  Its lesson reference does
    not parse: [toObjectIdSafe] gives [null] for it, without raising.
    The fallback [String(id)] then raises a TypeError, so the order is
    not stored with the reference as it was given: [buildOrderDoc]
    returns no document and the route answers 500, for no other reason
    than the reference. *)
Theorem itemized_reference_raises (now : Z) (fresh : ObjectId)
    (inserts : bool) :
  nameOk (field Sample.items_shadowing "name") = true /\
  phoneOk (field Sample.items_shadowing "phone") = true /\
  field Sample.items_shadowing "items"
  = Some (JArr [JObj [("lessonId", Sample.shadowing);
                      ("space", JNum Sample.one)]]) /\
  Forall space_passes
    [JObj [("lessonId", Sample.shadowing); ("space", JNum Sample.one)]] /\
  item_id (Some (JObj [("lessonId", Sample.shadowing);
                       ("space", JNum Sample.one)]))
  = Ok (Some Sample.shadowing) /\
  toObjectIdSafe (Some Sample.shadowing) = None /\
  Part000.buildOrderDoc now Sample.items_shadowing = Throw TypeError /\
  Part000.post_orders true inserts fresh now Sample.items_shadowing
    Sample.empty_db
  = (Part000.ReplyError 500 "Failed to create order", Sample.empty_db, []).
Proof.
  split; [evaluate|]. split; [evaluate|]. split; [reflexivity|].
  split; [repeat constructor; exists Sample.one; split; evaluate|].
  split; [reflexivity|]. split; [reflexivity|].
  assert (E : Part000.buildOrderDoc now Sample.items_shadowing
              = Throw TypeError).
  { rewrite (@build_items now Sample.items_shadowing
               [JObj [("lessonId", Sample.shadowing);
                      ("space", JNum Sample.one)]]);
      try reflexivity; try discriminate; evaluate. }
  split; [exact E|].
  unfold Part000.post_orders. rewrite E. reflexivity.
Qed.

(** X26.  On a string [toObjectIdSafe] returns the identifier when the
    string is 24 hexadecimal digits and [null] otherwise, without
    raising.  A lesson reference that converts to text is stored as the
    parsed identifier of that text, or else as the text itself, and
    never causes a rejection: in a batch order every entry of
    [lessonIDs] is stored so, in order; in an itemized order every item
    is an object and its stored [lessonId] comes so from the first
    truthy of its [lessonId] and [lessonID], or else from its [id]. *)
Theorem embedded_references_kept :
  (forall s, toObjectIdSafe (Some (JStr s))
             = if valid_hex s then Some (OID (Str.toLowerCase s)) else None) /\
  (forall s, String.length s <> 24%nat
             \/ Str.existsb (fun c => negb (Str.is_hex c)) s = true ->
             toObjectIdSafe (Some (JStr s)) = None) /\
  (forall v s, ToString v = Ok s -> ref_of v = Ok (stored s)) /\
  (forall now body (ids : list json) n,
     nameOk (field body "name") = true ->
     phoneOk (field body "phone") = true ->
     absent_or_empty (field body "items") = true ->
     field body "lessonIDs" = Some (JArr ids) -> ids <> [] ->
     is_defined (field body "space") = true ->
     ToNumber (field body "space") = Ok n ->
     not_positive n = false ->
     Forall (fun id => stringifies (Some id) = true) ids ->
     exists refs,
       Part000.buildOrderDoc now body
       = Ok (Doc (Batch (field body "name") (field body "phone") refs n now))
       /\ Forall2 (fun id r => exists s, ToString (Some id) = Ok s
                                         /\ r = stored s)
                  ids refs) /\
  (forall now body (its : list json),
     nameOk (field body "name") = true ->
     phoneOk (field body "phone") = true ->
     field body "items" = Some (JArr its) -> its <> [] ->
     Forall space_passes its ->
     Forall (fun it => forall props, it = JObj props ->
                                     stringifies (reference_of props) = true)
            its ->
     exists normalized,
       Part000.buildOrderDoc now body
       = Ok (Doc (Itemized (field body "name") (field body "phone")
                    normalized now))
       /\ Forall2 (fun it o =>
                     exists props s,
                       it = JObj props
                       /\ ToString (reference_of props) = Ok s
                       /\ lessonId o = stored s)
                  its normalized).
Proof.
  split; [exact toObjectIdSafe_string|].
  split.
  { intros s H. rewrite toObjectIdSafe_string, (@malformed_not_valid s H).
    reflexivity. }
  split; [exact ref_of_text|].
  split.
  - intros now body ids n Hn Hp Hi Hl Hne Hd Hs Hpos Hstr.
    assert (Hi' : nonempty_array (field body "items") = false).
    { destruct (field body "items") as [[ | | | | [ | ? ?] | ] | ];
        try discriminate Hi; reflexivity. }
    rewrite (@build_batch now body ids Hn Hp Hi' Hl Hne Hd).
    rewrite Hs. cbn [bind]. rewrite Hpos.
    assert (M : exists refs,
               mapM (fun id => ref_of (Some id)) ids = Ok refs
               /\ Forall2 (fun id r => exists s, ToString (Some id) = Ok s
                                                 /\ r = stored s) ids refs).
    { clear Hl Hne. induction Hstr as [|id ids Hid _ IH].
      - exists []. split; [reflexivity | constructor].
      - destruct IH as [refs [E F]].
        unfold stringifies, returns in Hid.
        destruct (ToString (Some id)) as [s|e] eqn:T; [|discriminate].
        exists (stored s :: refs). split.
        + cbn [mapM]. rewrite (@ref_of_text (Some id) s T). cbn [bind].
          rewrite E. reflexivity.
        + constructor; [|exact F]. now exists s. }
    destruct M as [refs [E F]]. exists refs. rewrite E. now split.
  - intros now body its Hn Hp Hi Hne Hs Hstr.
    rewrite (@build_items now body its Hn Hp Hi Hne).
    rewrite (proj2 (item_space_rejected_false its) Hs). cbn [bind].
    assert (M : exists normalized,
               mapM normalize_item its = Ok normalized
               /\ Forall2 (fun it o =>
                             exists props s,
                               it = JObj props
                               /\ ToString (reference_of props) = Ok s
                               /\ lessonId o = stored s)
                          its normalized).
    { clear Hi Hne. induction Hs as [|it its Hit _ IH].
      - exists []. split; [reflexivity | constructor].
      - inversion Hstr as [|? ? Hr Hstr']; subst.
        destruct (IH Hstr') as [normalized [E F]].
        destruct (passing_item_object Hit) as [props ->].
        specialize (Hr props eq_refl). unfold stringifies, returns in Hr.
        destruct (ToString (reference_of props)) as [s|e] eqn:T;
          [|discriminate].
        destruct Hit as [n [S _]].
        exists ({| lessonId := stored s; space := n |} :: normalized). split.
        + cbn [mapM].
          rewrite (@normalize_item_ok (JObj props) (reference_of props)
                     (stored s) n (item_id_object props)
                     (@ref_of_text _ _ T) S).
          cbn [bind]. rewrite E. reflexivity.
        + constructor; [|exact F]. exists props, s. auto. }
    destruct M as [normalized [E F]]. exists normalized. rewrite E.
    now split.
Qed.

(** A malformed identifier is kept as its text; of two items, the first
    is stored by its [id], the second by its [lessonID]. *)
Lemma embedded_references_witness :
  ref_of (Some (JStr "xyz")) = Ok (RefText "xyz") /\
  (exists normalized,
     Part000.buildOrderDoc 0 Sample.items_two_references
     = Ok (Doc (Itemized (Some (JStr "Jane Doe")) (Some (JStr "12345"))
                  normalized 0))
     /\ Forall2 (fun it o =>
                   exists props s,
                     it = JObj props
                     /\ ToString (reference_of props) = Ok s
                     /\ lessonId o = stored s)
                [JObj [("id", JStr "xyz"); ("space", JNum Sample.one)];
                 JObj [("lessonID", JStr Sample.hex24); ("id", JStr "xyz");
                       ("space", JNum Sample.two)]]
                normalized) /\
  Part000.buildOrderDoc 0 Sample.items_two_references
  = Ok (Doc (Itemized (Some (JStr "Jane Doe")) (Some (JStr "12345"))
               [{| lessonId := RefText "xyz"; space := Sample.one |};
                {| lessonId := RefId Sample.oid1; space := Sample.two |}] 0)).
Proof.
  destruct embedded_references_kept as (_ & _ & R & _ & I).
  split; [|split].
  - apply (R (Some (JStr "xyz")) "xyz"). reflexivity.
  - apply (I 0 Sample.items_two_references).
    + evaluate.
    + evaluate.
    + reflexivity.
    + discriminate.
    + repeat constructor.
      * exists Sample.one. split; evaluate.
      * exists Sample.two. split; evaluate.
    + repeat constructor; intros props E; injection E as <-; reflexivity.
  - evaluate.
Defined.

End Codec.

Section ItemReferences.

(** C10, as stated, fails: the item [{ id: null, space: 1 }] supplies
    only a falsy reference and is accepted, but the text stored as its
    [lessonId] is "null", not "undefined". *)
Lemma falsy_id_is_not_undefined :
  item_id (Some Sample.item_null_id) = Ok (Some JNull) /\
  ToBoolean (Some JNull) = false /\
  Part000.buildOrderDoc 0 Sample.items_null_id
  = Ok (Doc (Itemized (Some (JStr "Jane Doe")) (Some (JStr "12345"))
               [{| lessonId := RefText "null"; space := Sample.one |}] 0)) /\
  RefText "null" <> RefText "undefined".
Proof.
  split; [reflexivity | ].
  split; [reflexivity | ].
  split.
  - rewrite (@build_items 0 Sample.items_null_id [Sample.item_null_id]);
      try reflexivity; try discriminate; evaluate.
  - discriminate.
Qed.

(** C10, amended.  An itemized payload that passes the name, phone and
    per-item space checks, and whose lesson references convert to text,
    is turned into a document.  Each stored [lessonId] is the parsed
    identifier of the reference or else the text of the reference.  For
    an item with no truthy [lessonId], [lessonID] or [id], the reference
    is the value of [id] and its text is stored: "undefined" when [id]
    is missing, otherwise the text of the falsy value. *)
Theorem itemized_references (now : Z) (body : value) (its : list json) :
  nameOk (field body "name") = true ->
  phoneOk (field body "phone") = true ->
  field body "items" = Some (JArr its) -> its <> [] ->
  Forall space_passes its ->
  Forall (fun it => forall v, item_id (Some it) = Ok v -> stringifies v = true)
         its ->
  exists normalized,
    Part000.buildOrderDoc now body
    = Ok (Doc (Itemized (field body "name") (field body "phone") normalized now))
    /\ Forall2
         (fun it o =>
            exists v,
              item_id (Some it) = Ok v
              /\ match toObjectIdSafe v with
                 | Some oid => lessonId o = RefId oid
                 | None => exists s, ToString v = Ok s /\ lessonId o = RefText s
                 end
              /\ (ToBoolean v = false ->
                  Get (Some it) "id" = Ok v
                  /\ exists s, ToString v = Ok s /\ lessonId o = RefText s
                               /\ (v = None -> s = "undefined")))
         its normalized.
Proof.
  intros Hn Hp Hi Hne Hs Hr.
  destruct (@itemized_doc now body its Hn Hp Hi Hne Hs Hr) as [normalized [E F]].
  exists normalized. split; [exact E | ].
  clear E Hi Hne Hs. revert Hr.
  induction F as [ | it o its' os [v [r [n [Ev [Er [_ ->]]]]]] _ IH];
    intros Hr; [constructor | ].
  inversion Hr as [ | ? ? Hv Hr']; subst.
  constructor; [ | exact (IH Hr')].
  exists v. split; [exact Ev | ].
  destruct (@ref_of_stringifies v (Hv v Ev)) as [r' [Er' Hm]].
  rewrite Er in Er'. injection Er' as <-. cbn [lessonId].
  split.
  - destruct (toObjectIdSafe v); exact Hm.
  - intros Hf. split; [exact (@item_id_falsy it v Ev Hf) | ].
    destruct (@falsy_reference v Hf) as [s [Es [Eo Hu]]].
    exists s. split; [exact Es | ]. split; [ | exact Hu].
    rewrite Eo in Hm. destruct Hm as [s' [Es' ->]].
    rewrite Es in Es'. injection Es' as <-. reflexivity.
Qed.

(** An item without any reference is stored with "undefined", next to
    an item whose reference parses. *)
Lemma itemized_references_witness :
  exists normalized,
    Part000.buildOrderDoc 0 Sample.items_mixed
    = Ok (Doc (Itemized (Some (JStr "Jane Doe")) (Some (JStr "12345"))
                 normalized 0))
    /\ List.map lessonId normalized = [RefText "undefined"; RefId Sample.oid1].
Proof.
  destruct (@itemized_references 0 Sample.items_mixed
              [Sample.item_no_id; Sample.item_one])
    as [normalized [E F]].
  - evaluate.
  - evaluate.
  - reflexivity.
  - discriminate.
  - repeat constructor; exists Sample.one; split; evaluate.
  - repeat constructor; intros v H; vm_compute in H; injection H as <-;
      reflexivity.
  - exists normalized. split; [exact E | ].
    inversion F as [ | ? o1 ? l1 [v1 [E1 [M1 _]]] F1]; subst.
    inversion F1 as [ | ? o2 ? l2 [v2 [E2 [M2 _]]] F2]; subst.
    inversion F2; subst.
    assert (I1 : item_id (Some Sample.item_no_id) = Ok None) by reflexivity.
    assert (I2 : item_id (Some Sample.item_one) = Ok (Some (JStr Sample.hex24)))
      by reflexivity.
    rewrite I1 in E1. injection E1 as <-.
    rewrite I2 in E2. injection E2 as <-.
    assert (T1 : toObjectIdSafe None = None) by reflexivity.
    assert (T2 : toObjectIdSafe (Some (JStr Sample.hex24)) = Some Sample.oid1)
      by (evaluate).
    rewrite T1 in M1. rewrite T2 in M2. destruct M1 as [s1 [S1 L1]].
    cbn [List.map]. rewrite L1, M2.
    injection S1 as <-. reflexivity.
Defined.

End ItemReferences.

Section Precedence.

(** C4, as stated, fails: a payload with a non-empty [items] array and
    a non-empty [lessonIDs] array with space yields no document when an
    item asks for no place; it is rejected with the item error. *)
Lemma both_shapes_can_be_rejected :
  nameOk (field Sample.both_shapes_zero "name") = true /\
  phoneOk (field Sample.both_shapes_zero "phone") = true /\
  nonempty_array (field Sample.both_shapes_zero "items") = true /\
  nonempty_array (field Sample.both_shapes_zero "lessonIDs") = true /\
  is_defined (field Sample.both_shapes_zero "space") = true /\
  Part000.buildOrderDoc 0 Sample.both_shapes_zero
  = Ok (Error "Each item.space must be a positive number").
Proof.
  split; [evaluate | ].
  split; [evaluate | ].
  do 3 (split; [reflexivity | ]).
  rewrite (@build_items 0 Sample.both_shapes_zero [Sample.item_zero]);
    try reflexivity; try discriminate; evaluate.
Qed.

(** C4, amended.  For a payload whose name and phone pass and whose
    [items] is a non-empty array, whatever [lessonIDs] and [space] it
    also carries: a document, when one is produced, is the itemized one
    built from the items, never a batch one; it is produced whenever the
    items pass the space check and normalise; the payload is rejected
    with "Each item.space must be a positive number" when the first
    item that does not pass has a space that coerces to a number; and
    the outcome is the same for every payload with the same name, phone
    and items, so the batch fields are not consulted. *)
Theorem items_take_precedence (now : Z) (body : value) (its : list json) :
  nameOk (field body "name") = true ->
  phoneOk (field body "phone") = true ->
  field body "items" = Some (JArr its) -> its <> [] ->
  (forall d, Part000.buildOrderDoc now body = Ok (Doc d) ->
     exists normalized,
       mapM normalize_item its = Ok normalized
       /\ d = Itemized (field body "name") (field body "phone") normalized now) /\
  (forall normalized,
     Forall space_passes its -> mapM normalize_item its = Ok normalized ->
     Part000.buildOrderDoc now body
     = Ok (Doc (Itemized (field body "name") (field body "phone") normalized now))) /\
  (forall pre it post,
     its = (pre ++ it :: post)%list ->
     Forall space_passes pre -> space_fails it ->
     Part000.buildOrderDoc now body
     = Ok (Error "Each item.space must be a positive number")) /\
  (forall body',
     field body' "name" = field body "name" ->
     field body' "phone" = field body "phone" ->
     field body' "items" = field body "items" ->
     Part000.buildOrderDoc now body' = Part000.buildOrderDoc now body).
Proof.
  intros Hn Hp Hi Hne.
  pose proof (@build_items now body its Hn Hp Hi Hne) as B.
  split; [ | split; [ | split]].
  - intros d. rewrite B.
    destruct (Part000.item_space_rejected its) as [[ | ] | e];
      cbn [bind]; try discriminate.
    destruct (mapM normalize_item its) as [normalized | e];
      cbn [bind]; try discriminate.
    intros E. injection E as <-. exists normalized. split; reflexivity.
  - intros normalized Hs E. rewrite B.
    apply item_space_rejected_false in Hs. rewrite Hs. cbn [bind].
    rewrite E. reflexivity.
  - intros pre it post E Hs Hf. rewrite B, E.
    rewrite (@item_space_rejected_first pre post it Hs Hf). reflexivity.
  - intros body' En Ep Ei. rewrite B.
    rewrite (@build_items now body' its); try congruence.
    rewrite En, Ep. reflexivity.
Qed.

(** The payload with both shapes and a passing item yields the itemized
    document; with an item that asks for no place it is rejected with
    the item error. *)
Lemma items_take_precedence_witness :
  Part000.buildOrderDoc 0 Sample.both_shapes
  = Ok (Doc (Itemized (Some (JStr "Jane Doe")) (Some (JStr "12345"))
               [{| lessonId := RefId Sample.oid1; space := Sample.one |}] 0)) /\
  Part000.buildOrderDoc 0 Sample.both_shapes_zero
  = Ok (Error "Each item.space must be a positive number").
Proof.
  split.
  - destruct (@items_take_precedence 0 Sample.both_shapes [Sample.item_one])
      as (_ & H & _).
    + evaluate.
    + evaluate.
    + reflexivity.
    + discriminate.
    + apply H.
      * repeat constructor. exists Sample.one. split; evaluate.
      * evaluate.
  - destruct (@items_take_precedence 0 Sample.both_shapes_zero
                [Sample.item_zero]) as (_ & _ & H & _).
    + evaluate.
    + evaluate.
    + reflexivity.
    + discriminate.
    + apply (H [] Sample.item_zero []).
      * reflexivity.
      * constructor.
      * exists zero. split; evaluate.
Defined.

End Precedence.

(* ===================================================================== *)
(** * The two server files *)
(* ===================================================================== *)

Section Variants.

(** C9, as stated, fails: on [items: [{ lessonId: "a", space: 0 }]] the
    full server returns the item error and the earlier server returns a
    document whose item has space 0. *)
Lemma variants_differ :
  Part000.buildOrderDoc 0 Sample.items_zero
  = Ok (Error "Each item.space must be a positive number") /\
  Part001.buildOrderDoc 0 Sample.items_zero
  = Ok (Doc (Itemized (Some (JStr "Jane Doe")) (Some (JStr "12345"))
               [{| lessonId := RefText "a"; space := zero |}] 0)) /\
  Part000.buildOrderDoc 0 Sample.items_zero
  <> Part001.buildOrderDoc 0 Sample.items_zero.
Proof.
  assert (E0 : Part000.buildOrderDoc 0 Sample.items_zero
               = Ok (Error "Each item.space must be a positive number")).
  { rewrite (@build_items 0 Sample.items_zero [Sample.item_zero]);
      try reflexivity; try discriminate; evaluate. }
  assert (E1 : Part001.buildOrderDoc 0 Sample.items_zero
               = Ok (Doc (Itemized (Some (JStr "Jane Doe")) (Some (JStr "12345"))
                            [{| lessonId := RefText "a"; space := zero |}] 0))).
  { unfold Part001.buildOrderDoc. rewrite !Get_fields_of. cbn [bind].
    replace (nameOk (field Sample.items_zero "name")) with true
      by (evaluate).
    replace (phoneOk (field Sample.items_zero "phone")) with true
      by (evaluate).
    reflexivity. }
  split; [exact E0 | ]. split; [exact E1 | ].
  rewrite E0, E1. discriminate.
Qed.

(** C9, amended.  The earlier server accepts whatever the full server
    accepts, with the same document; the two reject a bad name or phone
    alike; and whatever the earlier server rejects with a message, the
    full server rejects with that message.  (The full server rejects
    more: spaces that are not finite numbers above zero, and an empty
    [lessonIDs].) *)
Theorem earlier_server_accepts_more (now : Z) (body : value) :
  (forall d, Part000.buildOrderDoc now body = Ok (Doc d) ->
             Part001.buildOrderDoc now body = Ok (Doc d)) /\
  (nameOk (field body "name") && phoneOk (field body "phone") = false ->
   Part000.buildOrderDoc now body = Ok (Error "Invalid name or phone")
   /\ Part001.buildOrderDoc now body = Ok (Error "Invalid name or phone")) /\
  (forall e, Part001.buildOrderDoc now body = Ok (Error e) ->
             Part000.buildOrderDoc now body = Ok (Error e)).
Proof.
  unfold Part000.buildOrderDoc, Part001.buildOrderDoc.
  rewrite !Get_fields_of. cbn [bind].
  rewrite <- negb_andb.
  destruct (nameOk (field body "name") && phoneOk (field body "phone"));
    cbn [negb].
  2: { repeat split; try discriminate; intros e H; exact H. }
  split; [ | split; [discriminate | ]].
  - intros d.
    destruct (as_array (field body "items")) as [[ | it its] | ].
    + destruct (as_array (field body "lessonIDs")) as [[ | id ids] | ];
        try discriminate.
      destruct (is_defined (field body "space")); try discriminate.
      destruct (ToNumber (field body "space")) as [s | e];
        cbn [bind]; try discriminate.
      destruct (not_positive s); try discriminate.
      destruct (mapM (fun id0 => ref_of (Some id0)) (id :: ids)) as [refs | e];
        cbn [bind]; [intros H; exact H | discriminate].
    + destruct (Part000.item_space_rejected (it :: its)) as [[ | ] | e];
        cbn [bind]; try discriminate.
      intros H; exact H.
    + destruct (as_array (field body "lessonIDs")) as [[ | id ids] | ];
        try discriminate.
      destruct (is_defined (field body "space")); try discriminate.
      destruct (ToNumber (field body "space")) as [s | e];
        cbn [bind]; try discriminate.
      destruct (not_positive s); try discriminate.
      destruct (mapM (fun id0 => ref_of (Some id0)) (id :: ids)) as [refs | e];
        cbn [bind]; [intros H; exact H | discriminate].
  - intros e.
    destruct (as_array (field body "items")) as [[ | it its] | ].
    + destruct (as_array (field body "lessonIDs")) as [[ | id ids] | ];
        [ | | intros H; exact H].
      * destruct (is_defined (field body "space"));
          [cbn [mapM bind] | intros H; exact H].
        destruct (ToNumber (field body "space")); cbn [bind]; discriminate.
      * destruct (is_defined (field body "space")); [ | intros H; exact H].
        destruct (mapM (fun id0 => ref_of (Some id0)) (id :: ids));
          cbn [bind]; try discriminate.
        destruct (ToNumber (field body "space")); cbn [bind]; discriminate.
    + destruct (mapM normalize_item (it :: its)); cbn [bind]; discriminate.
    + destruct (as_array (field body "lessonIDs")) as [[ | id ids] | ];
        [ | | intros H; exact H].
      * destruct (is_defined (field body "space"));
          [cbn [mapM bind] | intros H; exact H].
        destruct (ToNumber (field body "space")); cbn [bind]; discriminate.
      * destruct (is_defined (field body "space")); [ | intros H; exact H].
        destruct (mapM (fun id0 => ref_of (Some id0)) (id :: ids));
          cbn [bind]; try discriminate.
        destruct (ToNumber (field body "space")); cbn [bind]; discriminate.
Qed.

(** The batch order of two places is accepted by both, with the same
    document, and a numeric name is refused by both. *)
Lemma earlier_server_witness :
  Part001.buildOrderDoc 0 Sample.batch_two
  = Ok (Doc (Batch (Some (JStr "Jane Doe")) (Some (JStr "12345"))
               [RefId Sample.oid1] Sample.two 0)) /\
  Part001.buildOrderDoc 0 Sample.numeric_name
  = Ok (Error "Invalid name or phone").
Proof.
  split.
  - apply (proj1 (earlier_server_accepts_more 0 Sample.batch_two)).
    evaluate.
  - apply (proj1 (proj2 (earlier_server_accepts_more 0 Sample.numeric_name))).
    reflexivity.
Defined.

End Variants.

(* ===================================================================== *)
(** * Comparisons of numbers *)
(* ===================================================================== *)

Section Comparisons.

Lemma compare_swap (x y : number) :
  SFcompare y x = option_map CompOpp (SFcompare x y).
Proof.
  destruct x as [s | s | | s m e], y as [s' | s' | | s' m' e'];
    try reflexivity;
    try (destruct s; reflexivity);
    try (destruct s'; reflexivity);
    try (destruct s, s'; reflexivity).
  cbn [SFcompare option_map].
  destruct s, s'; try reflexivity;
    rewrite (Z.compare_antisym e e'); destruct (e ?= e'); cbn [CompOpp];
    try reflexivity;
    rewrite (Pos.compare_cont_antisym m m' Eq); reflexivity.
Qed.

Lemma compare_defined (x y : number) :
  Num.isNaN x = false -> Num.isNaN y = false -> SFcompare x y <> None.
Proof.
  destruct x, y; try discriminate; intros _ _; cbn [SFcompare]; discriminate.
Qed.

Lemma ltb_leb (x y : number) : Num.ltb x y = true -> Num.leb x y = true.
Proof.
  unfold Num.ltb, Num.leb, SFltb, SFleb.
  destruct (SFcompare x y) as [[ | | ] | ]; try discriminate; reflexivity.
Qed.

Lemma ltb_antisym (x y : number) : Num.ltb x y = true -> Num.ltb y x = false.
Proof.
  unfold Num.ltb, SFltb. rewrite (compare_swap x y).
  destruct (SFcompare x y) as [[ | | ] | ]; try discriminate; reflexivity.
Qed.

Lemma ltb_not_leb (x y : number) : Num.ltb x y = true -> Num.leb y x = false.
Proof.
  unfold Num.ltb, Num.leb, SFltb, SFleb. rewrite (compare_swap x y).
  destruct (SFcompare x y) as [[ | | ] | ]; try discriminate; reflexivity.
Qed.

(** Two numbers that compare equal, one of them finite and not zero,
    are the same number. *)
Lemma compare_Eq_finite (s : bool) (m : positive) (e : Z) (y : number) :
  SFcompare (S754_finite s m e) y = Some Eq -> y = S754_finite s m e.
Proof.
  destruct y as [s' | s' | | s' m' e']; cbn [SFcompare].
  - destruct s; discriminate.
  - destruct s'; discriminate.
  - discriminate.
  - destruct s, s'; try discriminate;
      destruct (e ?= e') eqn:E; try discriminate;
      apply Z.compare_eq in E; subst e'; intros H;
      injection H as H.
    + assert (H' : Pos.compare_cont Eq m m' = Eq)
        by (destruct (Pos.compare_cont Eq m m'); try discriminate; reflexivity).
      apply Pos.compare_eq in H'. subst. reflexivity.
    + apply Pos.compare_eq in H. subst. reflexivity.
Qed.

Lemma neither_below_finite (s : bool) (m : positive) (e : Z) (y : number) :
  Num.isNaN y = false ->
  Num.ltb (S754_finite s m e) y = false ->
  Num.ltb y (S754_finite s m e) = false ->
  y = S754_finite s m e.
Proof.
  intros Hy H1 H2. apply compare_Eq_finite.
  unfold Num.ltb, SFltb in *. rewrite (compare_swap (S754_finite s m e) y) in H2.
  pose proof (@compare_defined (S754_finite s m e) y eq_refl Hy) as D.
  destruct (SFcompare (S754_finite s m e) y) as [[ | | ] | ];
    try discriminate; try reflexivity; contradiction.
Qed.

Lemma leb_not_ltb_finite (s : bool) (m : positive) (e : Z) (y : number) :
  Num.leb (S754_finite s m e) y = true ->
  Num.ltb (S754_finite s m e) y = false ->
  y = S754_finite s m e.
Proof.
  intros H1 H2. apply compare_Eq_finite.
  unfold Num.ltb, Num.leb, SFltb, SFleb in *.
  destruct (SFcompare (S754_finite s m e) y) as [[ | | ] | ];
    try discriminate; reflexivity.
Qed.

Lemma leb_not_ltb_finite_r (s : bool) (m : positive) (e : Z) (y : number) :
  Num.leb y (S754_finite s m e) = true ->
  Num.ltb y (S754_finite s m e) = false ->
  y = S754_finite s m e.
Proof.
  intros H1 H2. apply compare_Eq_finite.
  unfold Num.ltb, Num.leb, SFltb, SFleb in *.
  rewrite (compare_swap y (S754_finite s m e)).
  destruct (SFcompare y (S754_finite s m e)) as [[ | | ] | ];
    try discriminate; reflexivity.
Qed.

(** What lies above 100 lies above 1. *)
Lemma above_hundred_above_one (z : number) :
  Num.ltb (Num.of_Z 100) z = true -> Num.ltb (Num.of_Z 1) z = true.
Proof.
  change (Num.of_Z 100) with (S754_finite false 7036874417766400 (-46)).
  change (Num.of_Z 1) with (S754_finite false 4503599627370496 (-52)).
  unfold Num.ltb, SFltb.
  destruct z as [s | s | | s m e]; cbn [SFcompare]; try discriminate.
  - destruct s; [discriminate | reflexivity].
  - destruct s; [discriminate | ].
    destruct (-46 ?= e) eqn:E; try discriminate.
    + apply Z.compare_eq in E. subst e. reflexivity.
    + intros _. rewrite Z.compare_lt_iff in E.
      replace (-52 ?= e) with Lt; [reflexivity | ].
      symmetry. apply Z.compare_lt_iff. lia.
Qed.

End Comparisons.

(* ===================================================================== *)
(** * The listing parameters *)
(* ===================================================================== *)

Section Listing.

Import Part000.

Lemma num_or_not_NaN (x d : number) :
  Num.isNaN d = false -> Num.isNaN (num_or x d) = false.
Proof.
  unfold num_or. intros Hd.
  destruct (Num.isZero x || Num.isNaN x) eqn:E; [exact Hd | ].
  apply orb_false_iff in E. apply E.
Qed.

(** [Math.min(100, Math.max(1, z))] clamps [z] into [1, 100]. *)
Lemma clamp_limit (z : number) :
  Num.isNaN z = false ->
  let m := Num.Math_min (Num.of_Z 100) (Num.Math_max (Num.of_Z 1) z) in
  Num.leb (Num.of_Z 1) m = true /\ Num.leb m (Num.of_Z 100) = true /\
  (Num.ltb z (Num.of_Z 1) = true -> m = Num.of_Z 1) /\
  (Num.ltb (Num.of_Z 100) z = true -> m = Num.of_Z 100) /\
  (Num.leb (Num.of_Z 1) z = true -> Num.leb z (Num.of_Z 100) = true -> m = z).
Proof.
  intros Hz m. subst m. unfold Num.Math_max.
  replace (Num.isNaN (Num.of_Z 1) || Num.isNaN z) with false
    by (rewrite Hz; reflexivity).
  destruct (Num.ltb (Num.of_Z 1) z) eqn:L1.
  - (* 1 < z *)
    unfold Num.Math_min.
    replace (Num.isNaN (Num.of_Z 100) || Num.isNaN z) with false
      by (rewrite Hz; reflexivity).
    destruct (Num.ltb z (Num.of_Z 100)) eqn:L2.
    + repeat split.
      * apply ltb_leb, L1.
      * apply ltb_leb, L2.
      * intros H. rewrite (ltb_antisym _ _ L1) in H. discriminate.
      * intros H. rewrite (ltb_antisym _ _ L2) in H. discriminate.
    + destruct (Num.ltb (Num.of_Z 100) z) eqn:L3.
      * repeat split.
        -- intros H. rewrite (ltb_antisym _ _ L1) in H. discriminate.
        -- intros _ H. rewrite (ltb_not_leb _ _ L3) in H. discriminate.
      * assert (E : z = Num.of_Z 100)
          by (apply (@neither_below_finite false 7036874417766400 (-46) z);
              assumption).
        subst z. repeat split; try reflexivity.
        intros H. discriminate H.
  - (* not 1 < z: the maximum is 1 *)
    assert (M : (if Num.ltb z (Num.of_Z 1) then Num.of_Z 1
                 else if Num.isNegZero (Num.of_Z 1) then z else Num.of_Z 1)
                = Num.of_Z 1)
      by (destruct (Num.ltb z (Num.of_Z 1)); reflexivity).
    rewrite M.
    change (Num.Math_min (Num.of_Z 100) (Num.of_Z 1)) with (Num.of_Z 1).
    repeat split.
    + intros H. apply above_hundred_above_one in H. rewrite H in L1.
      discriminate.
    + intros H _. symmetry.
      apply (@leb_not_ltb_finite false 4503599627370496 (-52) z); assumption.
Qed.

(** [Math.max(0, w)] floors [w] at zero. *)
Lemma floor_skip (w : number) :
  Num.isNaN w = false ->
  let m := Num.Math_max zero w in
  Num.leb zero m = true /\
  (Num.ltb w zero = true -> m = zero) /\
  (Num.ltb zero w = true -> m = w).
Proof.
  intros Hw m. subst m. unfold Num.Math_max.
  replace (Num.isNaN zero || Num.isNaN w) with false by (rewrite Hw; reflexivity).
  destruct (Num.ltb zero w) eqn:L1.
  - repeat split.
    + apply ltb_leb, L1.
    + intros H. rewrite (ltb_antisym _ _ L1) in H. discriminate.
  - assert (M : (if Num.ltb w zero then zero
                 else if Num.isNegZero zero then w else zero) = zero)
      by (destruct (Num.ltb w zero); reflexivity).
    rewrite M. repeat split. discriminate.
Qed.

Lemma lessons_query_ok (limit skip sort order : value)
    (x y : number) (k o : string) :
  ToNumber limit = Ok x -> ToNumber skip = Ok y ->
  ToString sort = Ok k -> ToString order = Ok o ->
  lessons_query limit skip sort order
  = Ok {| lim := Num.Math_min (Num.of_Z 100)
                   (Num.Math_max (Num.of_Z 1) (num_or x (Num.of_Z 50)));
          sk := Num.Math_max zero (num_or y zero);
          sortKey := if List.existsb (String.eqb k) sortable then k else "_id";
          sortDir := if String.eqb (Str.toLowerCase o) "desc" then -1 else 1 |}.
Proof.
  intros Hx Hy Hk Ho. unfold lessons_query.
  rewrite Hx, Hy, Hk, Ho. reflexivity.
Qed.

Lemma existsb_eqb_In (k : string) (l : list string) :
  List.existsb (String.eqb k) l = true <-> In k l.
Proof.
  rewrite existsb_exists. split.
  - intros [a [Ha E]]. apply String.eqb_eq in E. subst. exact Ha.
  - intros H. exists k. split; [exact H | apply String.eqb_refl].
Qed.

(** The parameters of a query string, each a string or absent, always
    convert: the listing never raises on them. *)
Lemma listing_of_strings (limit skip sort order : option string) :
  exists L,
    lessons_query (query limit) (query skip) (query sort) (query order) = Ok L.
Proof.
  destruct limit, skip, sort, order; eexists; reflexivity.
Qed.

(** C2, as stated, fails: [limit=0] yields 50, not 1, because the zero
    that [Number("0")] returns is falsy and [|| 50] replaces it. *)
Lemma limit_zero_yields_fifty :
  exists L,
    lessons_query (query (Some "0")) (query None) (query None) (query None)
    = Ok L
    /\ lim L = Num.of_Z 50 /\ lim L <> Num.of_Z 1.
Proof.
  eexists. split; [evaluate | ].
  split; [reflexivity | discriminate].
Qed.

(** C2, amended.  For every listing request whose parameters convert
    (as every string and every missing parameter does), the effective
    limit lies in the closed range from 1 to 100: it is 50 when the
    input coerces to zero or to NaN (absent, not numeric, or [limit=0]),
    and otherwise the coerced number clamped into the range: 1 below 1,
    100 above 100, the number itself in between.  The effective skip is
    at least zero: zero for a negative input, the number itself for a
    positive one.  A sort value outside the allowlist falls back to
    "_id", and the order is descending exactly when the lower-cased
    input is "desc". *)
Theorem listing_parameters (limit skip sort order : value)
    (x y : number) (k o : string) :
  ToNumber limit = Ok x -> ToNumber skip = Ok y ->
  ToString sort = Ok k -> ToString order = Ok o ->
  exists L,
    lessons_query limit skip sort order = Ok L /\
    Num.leb (Num.of_Z 1) (lim L) = true /\
    Num.leb (lim L) (Num.of_Z 100) = true /\
    (Num.isZero x || Num.isNaN x = true -> lim L = Num.of_Z 50) /\
    (Num.isZero x || Num.isNaN x = false ->
       (Num.ltb x (Num.of_Z 1) = true -> lim L = Num.of_Z 1) /\
       (Num.ltb (Num.of_Z 100) x = true -> lim L = Num.of_Z 100) /\
       (Num.leb (Num.of_Z 1) x = true -> Num.leb x (Num.of_Z 100) = true ->
        lim L = x)) /\
    Num.leb zero (sk L) = true /\
    (Num.ltb y zero = true -> sk L = zero) /\
    (Num.ltb zero y = true -> sk L = y) /\
    (In k sortable -> sortKey L = k) /\
    (~ In k sortable -> sortKey L = "_id") /\
    (sortDir L = -1 <-> Str.toLowerCase o = "desc") /\
    (sortDir L = 1 <-> Str.toLowerCase o <> "desc").
Proof.
  intros Hx Hy Hk Ho.
  eexists. split; [apply (lessons_query_ok _ _ _ _ Hx Hy Hk Ho) | ].
  cbn [lim sk sortKey sortDir].
  destruct (@clamp_limit (num_or x (Num.of_Z 50)))
    as (R1 & R2 & R3 & R4 & R5); [apply num_or_not_NaN; reflexivity | ].
  destruct (@floor_skip (num_or y zero))
    as (S1 & S2 & S3); [apply num_or_not_NaN; reflexivity | ].
  split; [exact R1 | ]. split; [exact R2 | ].
  split.
  { intros E. unfold num_or. rewrite E. reflexivity. }
  split.
  { intros E.
    assert (N : num_or x (Num.of_Z 50) = x)
      by (unfold num_or; rewrite E; reflexivity).
    rewrite N in *. repeat split; assumption. }
  split; [exact S1 | ].
  split.
  { intros H. unfold num_or in *.
    destruct (Num.isZero y || Num.isNaN y) eqn:E; [reflexivity | exact (S2 H)]. }
  split.
  { intros H. unfold num_or in *.
    destruct (Num.isZero y || Num.isNaN y) eqn:E; [ | exact (S3 H)].
    destruct y; try discriminate E; discriminate H. }
  split.
  { intros H. apply existsb_eqb_In in H. rewrite H. reflexivity. }
  split.
  { intros H. destruct (List.existsb (String.eqb k) sortable) eqn:E;
      [ | reflexivity].
    apply existsb_eqb_In in E. contradiction. }
  destruct (String.eqb (Str.toLowerCase o) "desc") eqn:E.
  - apply String.eqb_eq in E. split; split; intros; try reflexivity;
      try assumption; try discriminate; contradiction.
  - apply String.eqb_neq in E. split; split; intros; try reflexivity;
      try assumption; try discriminate; contradiction.
Qed.

(** [limit=500&skip=-5&sort=unknown_field&order=DESC] lists at most 100
    lessons from the first one, by "_id", descending; [order=dEsC] also
    sorts descending. *)
Lemma listing_parameters_witness :
  (exists L,
     lessons_query (query (Some "500")) (query (Some "-5"))
                   (query (Some "unknown_field")) (query (Some "DESC")) = Ok L
     /\ lim L = Num.of_Z 100 /\ sk L = zero /\ sortKey L = "_id"
     /\ sortDir L = -1) /\
  (exists L,
     lessons_query (query None) (query None) (query (Some "price"))
                   (query (Some "dEsC")) = Ok L
     /\ lim L = Num.of_Z 50 /\ sortKey L = "price" /\ sortDir L = -1).
Proof.
  split.
  - destruct (@listing_parameters
                (query (Some "500")) (query (Some "-5"))
                (query (Some "unknown_field")) (query (Some "DESC"))
                (Num.of_Z 500) (Num.of_Z (-5)) "unknown_field" "DESC")
      as [L (E & _ & _ & _ & H4 & _ & H6 & _ & _ & H9 & H10 & _)];
      try (evaluate).
    exists L. split; [exact E | ].
    destruct (H4 eq_refl) as (_ & H4b & _).
    split; [apply H4b; evaluate | ].
    split; [apply H6; evaluate | ].
    split.
    + apply H9. cbn. intros [H | [H | [H | [H | [H | []]]]]]; discriminate H.
    + apply H10. reflexivity.
  - destruct (@listing_parameters
                (query None) (query None)
                (query (Some "price")) (query (Some "dEsC"))
                Num.NaN Num.NaN "price" "dEsC")
      as [L (E & _ & _ & H3 & _ & _ & _ & _ & H8 & _ & H10 & _)];
      try (evaluate).
    exists L. split; [exact E | ].
    split; [apply H3; reflexivity | ].
    split; [apply H8; cbn; tauto | apply H10; reflexivity].
Defined.

End Listing.

(* ===================================================================== *)
(** * Updating a lesson *)
(* ===================================================================== *)

Section Update.

Import Part000.

Lemma lookup_remove_other (k k' : string) (props : list (string * json)) :
  k <> k' -> lookup k (remove k' props) = lookup k props.
Proof.
  intros Hk. induction props as [ | [a v] rest IH]; [reflexivity | ].
  cbn [remove filter fst lookup].
  destruct (String.eqb k' a) eqn:E1; cbn [negb].
  - apply String.eqb_eq in E1. subst a.
    apply String.eqb_neq in Hk. rewrite Hk. exact IH.
  - cbn [lookup]. destruct (String.eqb k a); [reflexivity | exact IH].
Qed.


Lemma lookup_assign_other (k k' : string) (v : json)
    (props : list (string * json)) :
  k <> k' -> lookup k (assign k' v props) = lookup k props.
Proof.
  intros Hk. apply String.eqb_neq in Hk.
  induction props as [ | [a w] rest IH].
  - cbn [assign lookup]. rewrite Hk. reflexivity.
  - cbn [assign]. destruct (String.eqb k' a) eqn:E.
    + apply String.eqb_eq in E. subst a. cbn [lookup]. rewrite Hk. reflexivity.
    + cbn [lookup]. destruct (String.eqb k a); [reflexivity | exact IH].
Qed.

Lemma remove_absent (k : string) (props : list (string * json)) :
  lookup k props = None -> remove k props = props.
Proof.
  induction props as [ | [a v] rest IH]; [reflexivity | ].
  cbn [lookup remove filter fst].
  destruct (String.eqb k a); [discriminate | ].
  intros H. cbn [negb]. f_equal. apply IH, H.
Qed.


Lemma stripped_other (body : value) (k : string) :
  k <> "_id" -> lookup k (stripped body) = lookup k (own (Object_assign body)).
Proof. intros Hk. apply lookup_remove_other, Hk. Qed.

(** After [if ('_id' in update) delete update._id] the own properties
    are those of the body without [_id]. *)
Lemma deleted_id_own (body : value) :
  own (if has_property "_id" (Object_assign body)
       then delete_property "_id" (Object_assign body)
       else Object_assign body)
  = stripped body.
Proof.
  unfold has_property, stripped.
  destruct (has_own "_id" (own (Object_assign body))) eqn:E1; [reflexivity | ].
  assert (N : lookup "_id" (own (Object_assign body)) = None)
    by (unfold has_own in E1;
        destruct (lookup "_id" (own (Object_assign body)));
        [discriminate | reflexivity]).
  rewrite (remove_absent _ _ N).
  destruct (has_own "_id" (inherited (Object_assign body)));
    [cbn [orb delete_property own]; apply remove_absent, N | reflexivity].
Qed.


(** The space read by the handler is the body's own one, when it has
    one. *)
Lemma own_space_read (body : value) (v : json) :
  lookup "space" (own (Object_assign body)) = Some v ->
  get_property "space"
    (if has_property "_id" (Object_assign body)
     then delete_property "_id" (Object_assign body)
     else Object_assign body)
  = Some v.
Proof.
  intros H. unfold get_property. rewrite deleted_id_own.
  rewrite stripped_other by discriminate. rewrite H. reflexivity.
Qed.

(** A space whose coercion raises ends the request with status 500,
    again before any call to the store. *)
Lemma put_lesson_space_raises (reachable updates finds : bool) (id : string)
    (body : value) (db : database) (v : json) (e : exn) :
  valid_hex id = true ->
  lookup "space" (own (Object_assign body)) = Some v -> v <> JNull ->
  ToNumber (Some v) = Throw e ->
  put_lesson reachable updates finds id body db
  = (ReplyError 500 "Failed to update lesson", db, []).
Proof.
  intros Hid Hs Hv Hn. unfold put_lesson, new_ObjectId. rewrite Hid.
  unfold checked_update. rewrite (own_space_read _ Hs).
  destruct v; try contradiction; cbn [not_nullish];
    rewrite Hn; reflexivity.
Qed.

(** C8.  The request [PUT /lessons/<24 hex digits>] with the body
    [{ "space": { "toString": 1 } }] has a well-formed id and a space
    that does not coerce to a finite number: the coercion raises a
    TypeError.  The check that answers 400 "space must be a number" is
    never reached: the request is answered 500 "Failed to update
    lesson" by the handler's catch, whatever the database does.  No
    call to the store is issued. *)
Theorem raising_space_is_answered_500 (reachable updates finds : bool) :
  valid_hex Sample.hex24 = true /\
  lookup "space" (own (Object_assign (Some (JObj [("space", Sample.shadowing)]))))
  = Some Sample.shadowing /\
  ToNumber (Some Sample.shadowing) = Throw TypeError /\
  put_lesson reachable updates finds Sample.hex24
    (Some (JObj [("space", Sample.shadowing)])) Sample.one_lesson
  = (ReplyError 500 "Failed to update lesson", Sample.one_lesson, []) /\
  ReplyError 500 "Failed to update lesson"
  <> ReplyError 400 "space must be a number".
Proof.
  split; [reflexivity | ]. split; [reflexivity | ]. split; [reflexivity | ].
  split; [ | discriminate].
  apply (@put_lesson_space_raises reachable updates finds Sample.hex24
           (Some (JObj [("space", Sample.shadowing)])) Sample.one_lesson
           Sample.shadowing TypeError); try reflexivity.
  discriminate.
Qed.



End Update.

(* ===================================================================== *)
(** * Trimming and splitting *)
(* ===================================================================== *)

Section Trimming.

Lemma append_empty (s : string) : s ++ "" = s.
Proof. induction s as [|c s IH]; simpl; [reflexivity | now rewrite IH]. Qed.

Lemma append_assoc (s t u : string) : (s ++ t) ++ u = s ++ t ++ u.
Proof. induction s as [|c s IH]; simpl; [reflexivity | now rewrite IH]. Qed.

Lemma rev_acc_app (s acc : string) : Str.rev_acc s acc = Str.rev s ++ acc.
Proof.
  unfold Str.rev. revert acc.
  induction s as [|c s IH]; intro acc; simpl; [reflexivity|].
  rewrite (IH (String c acc)), (IH (String c EmptyString)), append_assoc.
  reflexivity.
Qed.

Lemma rev_cons (c : ascii) (s : string) :
  Str.rev (String c s) = Str.rev s ++ String c "".
Proof. unfold Str.rev at 1. simpl. apply rev_acc_app. Qed.

Lemma rev_app (s t : string) : Str.rev (s ++ t) = Str.rev t ++ Str.rev s.
Proof.
  induction s as [|c s IH]; simpl.
  - now rewrite append_empty.
  - now rewrite !rev_cons, IH, append_assoc.
Qed.

Lemma rev_rev (s : string) : Str.rev (Str.rev s) = s.
Proof.
  induction s as [|c s IH]; [reflexivity|].
  now rewrite rev_cons, rev_app, IH.
Qed.

Lemma existsb_app (p : ascii -> bool) (s t : string) :
  Str.existsb p (s ++ t) = Str.existsb p s || Str.existsb p t.
Proof.
  induction s as [|c s IH]; simpl; [reflexivity|].
  now rewrite IH, orb_assoc.
Qed.

Lemma forallb_app (p : ascii -> bool) (s t : string) :
  Str.forallb p (s ++ t) = Str.forallb p s && Str.forallb p t.
Proof.
  induction s as [|c s IH]; simpl; [reflexivity|].
  now rewrite IH, andb_assoc.
Qed.

Lemma existsb_rev (p : ascii -> bool) (s : string) :
  Str.existsb p (Str.rev s) = Str.existsb p s.
Proof.
  induction s as [|c s IH]; [reflexivity|].
  rewrite rev_cons, existsb_app, IH. simpl.
  now rewrite orb_false_r, orb_comm.
Qed.

Lemma forallb_rev (p : ascii -> bool) (s : string) :
  Str.forallb p (Str.rev s) = Str.forallb p s.
Proof.
  induction s as [|c s IH]; [reflexivity|].
  rewrite rev_cons, forallb_app, IH. simpl.
  now rewrite andb_true_r, andb_comm.
Qed.

Lemma trimStart_split (s : string) :
  exists pre, s = pre ++ Str.trimStart s
              /\ Str.forallb Str.is_whitespace pre = true.
Proof.
  induction s as [|c s [pre [E W]]].
  - exists "". split; reflexivity.
  - simpl. destruct (Str.is_whitespace c) eqn:Wc.
    + exists (String c pre). simpl. rewrite Wc, W. split; [now rewrite <- E | reflexivity].
    + exists "". split; reflexivity.
Qed.

Lemma trimStart_head (s : string) : head_trimmed (Str.trimStart s) = true.
Proof.
  induction s as [|c s IH]; [reflexivity|].
  simpl. destruct (Str.is_whitespace c) eqn:Wc; [exact IH|].
  simpl. now rewrite Wc.
Qed.

Lemma trimStart_fixed (s : string) :
  head_trimmed s = true -> Str.trimStart s = s.
Proof.
  destruct s as [|c s]; [reflexivity|].
  simpl. now destruct (Str.is_whitespace c).
Qed.

Lemma head_trimmed_app (s t : string) :
  head_trimmed (s ++ t) = true -> head_trimmed s = true.
Proof. destruct s; [reflexivity | exact (fun H => H)]. Qed.

Lemma trimStart_blank (s : string) :
  Str.forallb Str.is_whitespace s = true <-> Str.trimStart s = "".
Proof.
  induction s as [|c s IH]; [split; reflexivity|].
  simpl. destruct (Str.is_whitespace c); simpl; [exact IH|].
  split; discriminate.
Qed.

Lemma rev_empty (s : string) : Str.rev s = "" -> s = "".
Proof. intro H. rewrite <- (rev_rev s), H. reflexivity. Qed.

(** A text is blank exactly when trimming leaves nothing. *)
Lemma trim_blank (s : string) :
  Str.forallb Str.is_whitespace s = true <-> Str.trim s = "".
Proof.
  unfold Str.trim. split.
  - intro H. apply trimStart_blank in H. rewrite H. reflexivity.
  - intro H. apply rev_empty in H. apply trimStart_blank in H.
    rewrite forallb_rev in H.
    pose proof (trimStart_head s) as Hd.
    destruct (Str.trimStart s) as [|c t] eqn:E.
    + now apply trimStart_blank.
    + simpl in H, Hd. destruct (Str.is_whitespace c); discriminate.
Qed.

(** What [trim] returns starts and ends with no blank. *)
Lemma trim_head (s : string) :
  head_trimmed (Str.trim s) = true
  /\ head_trimmed (Str.trimStart (Str.rev (Str.trimStart s))) = true.
Proof.
  unfold Str.trim. split; [|apply trimStart_head].
  destruct (trimStart_split (Str.rev (Str.trimStart s))) as [pre [E _]].
  apply (f_equal Str.rev) in E. rewrite rev_rev, rev_app in E.
  apply head_trimmed_app with (t := Str.rev pre).
  rewrite <- E. apply trimStart_head.
Qed.

Lemma trim_trim (s : string) : Str.trim (Str.trim s) = Str.trim s.
Proof.
  destruct (trim_head s) as [H1 H2].
  unfold Str.trim at 1. rewrite (@trimStart_fixed _ H1).
  unfold Str.trim. rewrite rev_rev, (@trimStart_fixed _ H2). reflexivity.
Qed.

Lemma existsb_trimStart (p : ascii -> bool) (s : string) :
  Str.existsb p (Str.trimStart s) = true -> Str.existsb p s = true.
Proof.
  destruct (trimStart_split s) as [pre [E _]]. intro H.
  rewrite E, existsb_app, H. apply orb_true_r.
Qed.

(** [trim] brings in no character. *)
Lemma existsb_trim (p : ascii -> bool) (s : string) :
  Str.existsb p (Str.trim s) = true -> Str.existsb p s = true.
Proof.
  unfold Str.trim. rewrite existsb_rev. intro H.
  apply existsb_trimStart in H. rewrite existsb_rev in H.
  now apply existsb_trimStart.
Qed.

Lemma pieces_plain (sep : ascii) (s : string) :
  Str.existsb (Ascii.eqb sep) s = false -> Text.pieces sep s = (s, []).
Proof.
  induction s as [|c s IH]; [reflexivity|].
  simpl. intro H. apply orb_false_iff in H. destruct H as [Hc Hs].
  rewrite (IH Hs), Ascii.eqb_sym, Hc. reflexivity.
Qed.

Lemma pieces_app (sep : ascii) (s t : string) :
  Str.existsb (Ascii.eqb sep) s = false ->
  Text.pieces sep (s ++ String sep t) = (s, Text.split sep t).
Proof.
  unfold Text.split.
  induction s as [|c s IH]; simpl; intro H.
  - rewrite Ascii.eqb_refl. destruct (Text.pieces sep t). reflexivity.
  - apply orb_false_iff in H. destruct H as [Hc Hs].
    rewrite (IH Hs), Ascii.eqb_sym, Hc.
    destruct (Text.pieces sep t). reflexivity.
Qed.

(** Splitting undoes joining, for pieces without the separator. *)
Lemma split_join (sep : ascii) (l : list string) :
  l <> [] ->
  Forall (fun s => Str.existsb (Ascii.eqb sep) s = false) l ->
  Text.split sep (Str.join (String sep "") l) = l.
Proof.
  intros N F. induction F as [|s l Hs F IH]; [contradiction|].
  destruct l as [|s' l'].
  - simpl. unfold Text.split. now rewrite pieces_plain.
  - change (Str.join (String sep "") (s :: s' :: l'))
      with (s ++ String sep (Str.join (String sep "") (s' :: l'))).
    unfold Text.split at 1. rewrite (@pieces_app sep s _ Hs).
    rewrite IH; [reflexivity | discriminate].
Qed.

(** No piece holds the separator. *)
Lemma split_pieces (sep : ascii) (s : string) :
  Forall (fun piece => Str.existsb (Ascii.eqb sep) piece = false)
         (Text.split sep s).
Proof.
  unfold Text.split.
  induction s as [|c s IH]; simpl.
  - repeat constructor.
  - destruct (Text.pieces sep s) as [piece rest].
    destruct (Ascii.eqb c sep) eqn:E.
    + constructor; [reflexivity | exact IH].
    + inversion IH as [|? ? Hp Hr]; subst. constructor; [|exact Hr].
      simpl. now rewrite Ascii.eqb_sym, E, Hp.
Qed.

(** The pieces of a text of blanks and separators are blank. *)
Lemma split_blank (sep : ascii) (s : string) :
  Str.forallb (fun c => Str.is_whitespace c || Ascii.eqb c sep) s = true ->
  Forall (fun piece => Str.forallb Str.is_whitespace piece = true)
         (Text.split sep s).
Proof.
  unfold Text.split.
  induction s as [|c s IH]; simpl; intro H.
  - repeat constructor.
  - apply andb_true_iff in H. destruct H as [Hc Hs]. specialize (IH Hs).
    destruct (Text.pieces sep s) as [piece rest].
    destruct (Ascii.eqb c sep) eqn:E.
    + constructor; [reflexivity | exact IH].
    + inversion IH as [|? ? Hp Hr]; subst. constructor; [|exact Hr].
      simpl. rewrite orb_false_r in Hc. now rewrite Hc, Hp.
Qed.

End Trimming.

(* ===================================================================== *)
(** * The allowlist of origins *)
(* ===================================================================== *)

Section Origins.

Lemma origins_In (CORS_ORIGINS : option string) (o : string) :
  In o (Cors.origins CORS_ORIGINS) ->
  o <> "" /\
  exists piece,
    Str.trim piece = o /\
    Str.existsb (Ascii.eqb ",") piece = false.
Proof.
  unfold Cors.origins. intro H. apply filter_In in H. destruct H as [H N].
  apply in_map_iff in H. destruct H as [piece [E H]].
  split.
  - intro Z. subst o. rewrite Z in N. discriminate.
  - exists piece. split; [exact E|].
    pose proof (split_pieces ","
                  match CORS_ORIGINS with Some s => s | None => "" end) as F.
    rewrite Forall_forall in F. exact (F piece H).
Qed.

(** X4.  Every entry of the allowlist read from [CORS_ORIGINS] is a
    non-empty text without a blank at either end and without a comma. *)
Theorem allowlist_entries (CORS_ORIGINS : option string) (o : string) :
  In o (Cors.origins CORS_ORIGINS) -> entry o = true.
Proof.
  intro H. destruct (origins_In _ _ H) as [N [piece [E C]]].
  unfold entry. subst o.
  rewrite trim_trim, String.eqb_refl.
  destruct (Str.existsb (Ascii.eqb ",") (Str.trim piece)) eqn:X.
  - apply existsb_trim in X. congruence.
  - destruct (Str.trim piece); [contradiction | reflexivity].
Qed.

(** Of a setting with blanks around its commas and an empty piece, the
    second origin is an entry. *)
Lemma allowlist_entries_witness : entry "http://localhost:5173" = true.
Proof.
  apply (@allowlist_entries
           (Some " https://haxsysgit.github.io , ,http://localhost:5173 ")
           "http://localhost:5173").
  vm_compute. right. left. reflexivity.
Defined.

Lemma entry_inv (o : string) :
  entry o = true ->
  Str.is_empty o = false /\ Str.trim o = o
  /\ Str.existsb (Ascii.eqb ",") o = false.
Proof.
  unfold entry. intro H.
  apply andb_true_iff in H. destruct H as [H C].
  apply andb_true_iff in H. destruct H as [N T].
  apply negb_true_iff in N, C. apply String.eqb_eq in T. auto.
Qed.

(** X5.  A list of entries, written with commas between them, is read
    back as it is. *)
Theorem allowlist_round_trip (l : list string) :
  List.forallb entry l = true ->
  Cors.origins (Some (Str.join "," l)) = l.
Proof.
  intro H. destruct l as [|o l]; [reflexivity|].
  unfold Cors.origins.
  rewrite split_join.
  - remember (o :: l) as l0 eqn:E. clear E.
    induction l0 as [|a l0 IH]; [reflexivity|].
    simpl in H. apply andb_true_iff in H. destruct H as [Ha Hl].
    destruct (entry_inv _ Ha) as [N [T _]].
    simpl. rewrite T, N. simpl. now rewrite (IH Hl).
  - discriminate.
  - rewrite Forall_forall. intros a Ia.
    rewrite forallb_forall in H.
    now destruct (entry_inv _ (H a Ia)) as [_ [_ C]].
Qed.

Lemma allowlist_round_trip_witness :
  Cors.origins (Some "https://haxsysgit.github.io,http://localhost:5173")
  = ["https://haxsysgit.github.io"; "http://localhost:5173"].
Proof.
  apply (@allowlist_round_trip
           ["https://haxsysgit.github.io"; "http://localhost:5173"]).
  reflexivity.
Defined.

Lemma origins_blank (CORS_ORIGINS : option string) :
  names_no_origin CORS_ORIGINS = true -> Cors.origins CORS_ORIGINS = [].
Proof.
  unfold Cors.origins. intro H.
  assert (F : Forall (fun piece => Str.forallb Str.is_whitespace piece = true)
                (Text.split ","
                   match CORS_ORIGINS with Some s => s | None => "" end)).
  { destruct CORS_ORIGINS as [s|].
    - now apply split_blank.
    - repeat constructor. }
  induction F as [|piece l B F IH]; [reflexivity|].
  simpl. apply trim_blank in B. rewrite B. exact IH.
Qed.

Lemma split_all_blank (sep : ascii) (s : string) :
  Forall (fun piece => Str.forallb Str.is_whitespace piece = true)
         (Text.split sep s) ->
  Str.forallb (fun c => Str.is_whitespace c || Ascii.eqb c sep) s = true.
Proof.
  unfold Text.split.
  induction s as [|c s IH]; [reflexivity|].
  simpl. destruct (Text.pieces sep s) as [piece rest].
  destruct (Ascii.eqb c sep) eqn:E; intro F.
  - inversion F as [|? ? _ Fr]; subst. rewrite orb_true_r. simpl.
    apply IH. exact Fr.
  - inversion F as [|? ? Fp Fr]; subst. simpl in Fp.
    apply andb_true_iff in Fp. destruct Fp as [Wc Wp].
    rewrite Wc. simpl. apply IH. constructor; assumption.
Qed.

Lemma origins_empty (CORS_ORIGINS : option string) :
  Cors.origins CORS_ORIGINS = [] -> names_no_origin CORS_ORIGINS = true.
Proof.
  destruct CORS_ORIGINS as [s|]; [|reflexivity].
  unfold Cors.origins, names_no_origin. intro H.
  apply split_all_blank.
  induction (Text.split "," s) as [|piece l IH]; [constructor|].
  simpl in H. destruct (Str.is_empty (Str.trim piece)) eqn:E.
  - constructor; [|exact (IH H)].
    apply trim_blank. now destruct (Str.trim piece).
  - discriminate.
Qed.

(** X6.  The allowlist is empty exactly when [CORS_ORIGINS] is unset or
    holds blanks and commas only, and then both servers admit every
    origin. *)
Theorem no_allowlist_admits_all (CORS_ORIGINS : option string) :
  (Cors.origins CORS_ORIGINS = [] <-> names_no_origin CORS_ORIGINS = true) /\
  (names_no_origin CORS_ORIGINS = true ->
   forall origin,
     Cors.allow (Cors.origins CORS_ORIGINS) origin = true /\
     Annotated.allow (Annotated.allowedOrigins CORS_ORIGINS) origin = true).
Proof.
  split.
  - split; [apply origins_empty | apply origins_blank].
  - intros H origin. unfold Annotated.allowedOrigins.
    rewrite (origins_blank _ H).
    destruct origin as [o|]; [|split; reflexivity].
    unfold Cors.allow, Annotated.allow.
    destruct (Str.is_empty o); split; reflexivity.
Qed.

(** X7.  With the same [CORS_ORIGINS], the annotated server admits every
    origin the full server admits. *)
Theorem annotated_admits_more (CORS_ORIGINS origin : option string) :
  Cors.allow (Cors.origins CORS_ORIGINS) origin = true ->
  Annotated.allow (Annotated.allowedOrigins CORS_ORIGINS) origin = true.
Proof.
  unfold Cors.allow, Annotated.allow, Annotated.allowedOrigins.
  destruct origin as [o|]; [|reflexivity].
  destruct (Str.is_empty o); [reflexivity|].
  rewrite length_map.
  destruct (Nat.eqb (List.length (Cors.origins CORS_ORIGINS)) 0);
    [reflexivity|].
  simpl.
  destruct (List.existsb (String.eqb o) (Cors.origins CORS_ORIGINS)) eqn:E;
    [|discriminate].
  intros _. apply existsb_exists in E. destruct E as [e [I E]].
  apply String.eqb_eq in E. subst e.
  apply existsb_exists. exists (Annotated.normalizeOrigin o). split.
  - now apply in_map.
  - now rewrite String.eqb_refl.
Qed.

(** An entry is admitted by both; written in capitals with a final
    slash, or cut at a slash, it is admitted by the annotated server
    only. *)
Lemma annotated_admits_more_witness :
  Annotated.allow (Annotated.allowedOrigins (Some "https://a.io/app"))
    (Some "https://a.io/app") = true /\
  Cors.allow (Cors.origins (Some "https://a.io/app"))
    (Some "HTTPS://A.io/app/") = false /\
  Annotated.allow (Annotated.allowedOrigins (Some "https://a.io/app"))
    (Some "HTTPS://A.io/app/") = true /\
  Cors.allow (Cors.origins (Some "https://a.io/app"))
    (Some "https://a.io") = false /\
  Annotated.allow (Annotated.allowedOrigins (Some "https://a.io/app"))
    (Some "https://a.io") = true.
Proof.
  split.
  - apply (@annotated_admits_more (Some "https://a.io/app")
             (Some "https://a.io/app")).
    reflexivity.
  - repeat split; reflexivity.
Defined.

End Origins.

(* ===================================================================== *)
(** * The arguments of the seed script *)
(* ===================================================================== *)

Section Arguments.

Import Seed.

Lemma lookup_assign_same (k : string) (v : json)
    (props : list (string * json)) :
  lookup k (Part000.assign k v props) = Some v.
Proof.
  induction props as [|[k' v'] props IH]; simpl.
  - now rewrite String.eqb_refl.
  - destruct (String.eqb k k') eqn:E; simpl.
    + now rewrite String.eqb_refl.
    + now rewrite E.
Qed.

Lemma lookup_put (k key : string) (v : json) (args : list (string * json)) :
  k <> "__proto__" ->
  lookup k (put key v args)
  = if String.eqb k key then Some v else lookup k args.
Proof.
  intro N. unfold put.
  destruct (String.eqb key "__proto__") eqn:P.
  - apply String.eqb_eq in P. subst key.
    apply String.eqb_neq in N. now rewrite N.
  - destruct (String.eqb k key) eqn:E.
    + apply String.eqb_eq in E. subst key. apply lookup_assign_same.
    + apply String.eqb_neq in E.
      now apply (@lookup_assign_other k key v args).
Qed.

Lemma lookup_put_proto (key : string) (v : json)
    (args : list (string * json)) :
  lookup "__proto__" args = None -> lookup "__proto__" (put key v args) = None.
Proof.
  intro H. unfold put.
  destruct (String.eqb key "__proto__") eqn:P; [exact H|].
  rewrite lookup_assign_other; [exact H|].
  intro E. subst key. discriminate.
Qed.

Lemma prefix_cons (a b : ascii) (s1 s2 : string) :
  String.prefix (String a s1) (String b s2)
  = Ascii.eqb a b && String.prefix s1 s2.
Proof.
  change (String.prefix (String a s1) (String b s2))
    with (if ascii_dec a b then String.prefix s1 s2 else false).
  destruct (ascii_dec a b) as [E|E].
  - subst b. now rewrite Ascii.eqb_refl.
  - apply Ascii.eqb_neq in E. now rewrite E.
Qed.

Lemma prefix_empty (s : string) : String.prefix "" s = true.
Proof. now destruct s. Qed.

(** An option word is ["--"] and its key. *)
Lemma option_word_dashes (a : string) :
  Text.startsWith "--" a = true -> a = option_word (Text.drop_dashes a).
Proof.
  destruct a as [|c [|d a]]; try discriminate.
  - unfold Text.startsWith. rewrite prefix_cons.
    intro H. apply andb_true_iff in H. destruct H; discriminate.
  - unfold Text.startsWith. rewrite !prefix_cons. intro H.
    apply andb_true_iff in H. destruct H as [C H].
    apply andb_true_iff in H. destruct H as [D _].
    apply Ascii.eqb_eq in C, D. subst c d. reflexivity.
Qed.

Lemma option_word_starts (k : string) :
  Text.startsWith "--" (option_word k) = true.
Proof.
  unfold Text.startsWith, option_word.
  change ("--" ++ k) with (String "-" (String "-" k)).
  now rewrite !prefix_cons, prefix_empty.
Qed.

Lemma option_word_eqb (k key : string) :
  String.eqb (option_word k) (option_word key) = String.eqb k key.
Proof. reflexivity. Qed.

Lemma not_option_word (k w : string) :
  Text.startsWith "--" w = false -> String.eqb (option_word k) w = false.
Proof.
  intro H. apply String.eqb_neq. intro E. subst w.
  now rewrite option_word_starts in H.
Qed.

(** Induction over the words, two at a time. *)
Lemma words_ind (P : list string -> Prop) :
  P [] ->
  (forall a, P [a]) ->
  (forall a next rest, P (next :: rest) -> P rest -> P (a :: next :: rest)) ->
  forall words, P words.
Proof.
  intros H0 H1 H2.
  assert (B : forall words, P words /\ forall a, P (a :: words)).
  { induction words as [|w words [IH1 IH2]].
    - split; [exact H0 | exact H1].
    - split; [apply IH2|]. intro a. apply H2; [apply IH2 | exact IH1]. }
  intro words. apply B.
Qed.

(** The keys after the loop: those it began with, and one for every
    option word. *)
Lemma scan_keys (k : string) :
  k <> "__proto__" ->
  forall words args,
    has_own k (scan words args)
    = has_own k args || List.existsb (String.eqb (option_word k)) words.
Proof.
  intro N.
  assert (P : forall key v args,
             has_own k (put key v args)
             = has_own k args || String.eqb (option_word k) (option_word key)).
  { intros key v args. unfold has_own. rewrite (lookup_put _ _ _ N).
    rewrite option_word_eqb.
    destruct (String.eqb k key); [now rewrite orb_true_r|].
    now rewrite orb_false_r. }
  induction words as [| a | a next rest IH1 IH2] using words_ind; intro args.
  - cbn [scan existsb]. now rewrite orb_false_r.
  - cbn [scan existsb]. destruct (Text.startsWith "--" a) eqn:A.
    + rewrite P, <- (option_word_dashes _ A). now rewrite orb_false_r.
    + now rewrite (not_option_word k _ A), !orb_false_r.
  - change (scan (a :: next :: rest) args)
      with (if Text.startsWith "--" a then
              if Str.is_empty next || Text.startsWith "--" next
              then scan (next :: rest)
                     (put (Text.drop_dashes a) (JBool true) args)
              else scan rest (put (Text.drop_dashes a) (JStr next) args)
            else scan (next :: rest) args).
    cbn [existsb] in *.
    destruct (Text.startsWith "--" a) eqn:A.
    + destruct (Str.is_empty next || Text.startsWith "--" next) eqn:V.
      * rewrite IH1, P, <- (option_word_dashes _ A).
        now rewrite <- !orb_assoc.
      * rewrite IH2, P, <- (option_word_dashes _ A).
        apply orb_false_iff in V. destruct V as [_ V].
        rewrite (not_option_word k _ V).
        now rewrite <- !orb_assoc.
    + rewrite IH1. now rewrite (not_option_word k _ A).
Qed.

(** The values after the loop: those it began with, [true], or a word
    that can be a value. *)
Lemma scan_values (k : string) (v : json) :
  forall words args,
    lookup k (scan words args) = Some v ->
    lookup k args = Some v \/ v = JBool true
    \/ exists w, v = JStr w /\ value_word w = true /\ In w words.
Proof.
  assert (P : forall key u args,
             lookup k (put key u args) = Some v ->
             lookup k args = Some v \/ v = u).
  { intros key u args. unfold put.
    destruct (String.eqb key "__proto__"); [now left|].
    destruct (String.eqb k key) eqn:E.
    - apply String.eqb_eq in E. subst key. rewrite lookup_assign_same.
      intro H. right. congruence.
    - apply String.eqb_neq in E. rewrite (lookup_assign_other _ _ E). now left. }
  induction words as [| a | a next rest IH1 IH2] using words_ind; intro args.
  - simpl. now left.
  - simpl. destruct (Text.startsWith "--" a); [|now left].
    intro H. apply P in H. destruct H as [H|H]; [now left | right; now left].
  - change (scan (a :: next :: rest) args)
      with (if Text.startsWith "--" a then
              if Str.is_empty next || Text.startsWith "--" next
              then scan (next :: rest)
                     (put (Text.drop_dashes a) (JBool true) args)
              else scan rest (put (Text.drop_dashes a) (JStr next) args)
            else scan (next :: rest) args).
    destruct (Text.startsWith "--" a).
    + destruct (Str.is_empty next || Text.startsWith "--" next) eqn:V; intro H.
      * apply IH1 in H. destruct H as [H | [H | [w [E [W I]]]]].
        -- apply P in H. destruct H as [H|H]; [now left | right; now left].
        -- right. now left.
        -- right. right. exists w. repeat split; try assumption. now right.
      * apply IH2 in H. destruct H as [H | [H | [w [E [W I]]]]].
        -- apply P in H. destruct H as [H|H]; [now left|].
           right. right. exists next. repeat split; [exact H | | right; now left].
           unfold value_word. apply orb_false_iff in V. destruct V as [V1 V2].
           now rewrite V1, V2.
        -- right. now left.
        -- right. right. exists w. repeat split; try assumption.
           right. now right.
    + intro H. apply IH1 in H. destruct H as [H | [H | [w [E [W I]]]]].
      * now left.
      * right. now left.
      * right. right. exists w. repeat split; try assumption. now right.
Qed.

(** Words that begin with an option are read after the words before
    them, whatever these are. *)
Lemma scan_app (more : list string) :
  match more with
  | [] => True
  | o :: _ => Text.startsWith "--" o = true
  end ->
  forall words args, scan (words ++ more) args = scan more (scan words args).
Proof.
  intro M.
  induction words as [| a | a next rest IH1 IH2] using words_ind; intro args.
  - reflexivity.
  - destruct more as [|o more]; [now rewrite app_nil_r|].
    simpl. destruct (Text.startsWith "--" a); [|reflexivity].
    rewrite M, orb_true_r. reflexivity.
  - change ((a :: next :: rest) ++ more)%list
      with (a :: next :: rest ++ more)%list.
    change (scan (a :: next :: rest ++ more) args)
      with (if Text.startsWith "--" a then
              if Str.is_empty next || Text.startsWith "--" next
              then scan (next :: rest ++ more)
                     (put (Text.drop_dashes a) (JBool true) args)
              else scan (rest ++ more)
                     (put (Text.drop_dashes a) (JStr next) args)
            else scan (next :: rest ++ more) args).
    change (scan (a :: next :: rest) args)
      with (if Text.startsWith "--" a then
              if Str.is_empty next || Text.startsWith "--" next
              then scan (next :: rest)
                     (put (Text.drop_dashes a) (JBool true) args)
              else scan rest (put (Text.drop_dashes a) (JStr next) args)
            else scan (next :: rest) args).
    destruct (Text.startsWith "--" a).
    + destruct (Str.is_empty next || Text.startsWith "--" next).
      * apply (IH1 _).
      * apply IH2.
    + apply (IH1 _).
Qed.

Lemma scan_proto (words : list string) :
  forall args,
    lookup "__proto__" args = None ->
    lookup "__proto__" (scan words args) = None.
Proof.
  induction words as [| a | a next rest IH1 IH2] using words_ind; intros args H.
  - exact H.
  - simpl. destruct (Text.startsWith "--" a); [|exact H].
    now apply lookup_put_proto.
  - change (scan (a :: next :: rest) args)
      with (if Text.startsWith "--" a then
              if Str.is_empty next || Text.startsWith "--" next
              then scan (next :: rest)
                     (put (Text.drop_dashes a) (JBool true) args)
              else scan rest (put (Text.drop_dashes a) (JStr next) args)
            else scan (next :: rest) args).
    destruct (Text.startsWith "--" a).
    + destruct (Str.is_empty next || Text.startsWith "--" next);
        [apply IH1 | apply IH2]; now apply lookup_put_proto.
    + now apply IH1.
Qed.

Lemma existsb_eqb_words (k : string) (l : list string) :
  List.existsb (String.eqb k) l = true <-> In k l.
Proof.
  rewrite existsb_exists. split.
  - intros [x [I E]]. apply String.eqb_eq in E. now subst x.
  - intro I. exists k. split; [exact I | apply String.eqb_refl].
Qed.

Lemma value_word_truthy (w : string) :
  value_word w = true -> ToBoolean (Some (JStr w)) = true.
Proof.
  unfold value_word. intro H. apply andb_true_iff in H. now destruct H.
Qed.

(** The value of an option that was given is truthy. *)
Lemma parseArgs_truthy (argv : list string) (k : string) :
  k <> "__proto__" ->
  ToBoolean (lookup k (parseArgs argv))
  = List.existsb (String.eqb (option_word k)) (words_of argv).
Proof.
  intro N. unfold parseArgs, words_of.
  rewrite <- (orb_false_l (existsb _ _)).
  change false with (has_own k []).
  rewrite <- (scan_keys N). unfold has_own.
  destruct (lookup k (scan (skipn 2 argv) [])) as [v|] eqn:E; [|reflexivity].
  apply scan_values in E. destruct E as [E | [E | [w [E [W _]]]]].
  - discriminate.
  - now subst v.
  - subst v. now apply value_word_truthy.
Qed.

(** X8.  [parseArgs] records a key for exactly the words [--key] that
    occur from [argv[2]] on; the value of a key is [true] or one of these
    words, not empty and not beginning with [--]; no key is recorded for
    [--__proto__]. *)
Theorem parseArgs_records_options (argv : list string) :
  (forall k, k <> "__proto__" ->
     (lookup k (parseArgs argv) <> None <-> In (option_word k) (words_of argv))) /\
  (forall k v, lookup k (parseArgs argv) = Some v ->
     v = JBool true
     \/ exists w, v = JStr w /\ value_word w = true /\ In w (words_of argv)) /\
  lookup "__proto__" (parseArgs argv) = None.
Proof.
  unfold parseArgs, words_of. split; [|split].
  - intros k N.
    pose proof (@scan_keys k N (skipn 2 argv) []) as K.
    unfold has_own in K at 1. split.
    + intro H. apply existsb_eqb_words.
      destruct (lookup k (scan (skipn 2 argv) [])); [|contradiction].
      exact (eq_sym K).
    + intro H. apply existsb_eqb_words in H.
      change (has_own k [] || existsb (String.eqb (option_word k)) (skipn 2 argv))
        with (existsb (String.eqb (option_word k)) (skipn 2 argv)) in K.
      rewrite H in K.
      destruct (lookup k (scan (skipn 2 argv) [])); discriminate.
  - intros k v H. apply scan_values in H.
    destruct H as [H | H]; [discriminate | exact H].
  - now apply scan_proto.
Qed.

(** The options of a command line with a word, a flag and a value. *)
Lemma parseArgs_records_witness :
  lookup "drop" (parseArgs ["node"; "seed.js"; "x"; "--drop"; "--db"; "test"])
  <> None.
Proof.
  apply (proj1 (@parseArgs_records_options
                  ["node"; "seed.js"; "x"; "--drop"; "--db"; "test"])
           "drop").
  - discriminate.
  - vm_compute. right. left. reflexivity.
Defined.

(** X9.  An option with its value, added at the end of the command line,
    takes that value whatever was given before, and the other keys keep
    theirs. *)
Theorem parseArgs_last_wins (argv : list string) (k w : string) :
  (2 <= List.length argv)%nat ->
  k <> "__proto__" -> value_word w = true ->
  lookup k (parseArgs (argv ++ [option_word k; w])) = Some (JStr w) /\
  forall k', k' <> k -> k' <> "__proto__" ->
    lookup k' (parseArgs (argv ++ [option_word k; w]))
    = lookup k' (parseArgs argv).
Proof.
  intros L N W. unfold parseArgs.
  rewrite skipn_app.
  replace (2 - List.length argv)%nat with O by lia.
  change (skipn 0 [option_word k; w]) with [option_word k; w].
  rewrite (@scan_app [option_word k; w] (option_word_starts k)).
  change (scan [option_word k; w] (scan (skipn 2 argv) []))
    with (if Text.startsWith "--" (option_word k) then
            if Str.is_empty w || Text.startsWith "--" w
            then scan [w] (put (Text.drop_dashes (option_word k)) (JBool true)
                             (scan (skipn 2 argv) []))
            else put (Text.drop_dashes (option_word k)) (JStr w)
                   (scan (skipn 2 argv) [])
          else scan [w] (scan (skipn 2 argv) [])).
  rewrite option_word_starts.
  unfold value_word in W. apply andb_true_iff in W. destruct W as [W1 W2].
  apply negb_true_iff in W1, W2. rewrite W1, W2.
  change (Text.drop_dashes (option_word k)) with k. simpl.
  split.
  - rewrite (lookup_put _ _ _ N). now rewrite String.eqb_refl.
  - intros k' D N'. rewrite (lookup_put _ _ _ N').
    apply String.eqb_neq in D. now rewrite D.
Qed.

(** [--db a --db b]: the later value is kept. *)
Lemma parseArgs_last_wins_witness :
  lookup "db"
    (parseArgs (["node"; "seed.js"; "--db"; "a"] ++ [option_word "db"; "b"]))
  = Some (JStr "b").
Proof.
  assert (L : (2 <= List.length ["node"; "seed.js"; "--db"; "a"])%nat)
    by (simpl; lia).
  assert (N : "db" <> "__proto__") by discriminate.
  exact (proj1 (@parseArgs_last_wins ["node"; "seed.js"; "--db"; "a"]
                  "db" "b" L N (eq_refl _))).
Defined.

End Arguments.

(* ===================================================================== *)
(** * The seed script *)
(* ===================================================================== *)

Section SeedScript.

Import Seed.

(** The file the script reads: the value of [--file], or the default. *)
Lemma seed_file (w : world) (path : string) :
  or_else (lookup "file" (parseArgs (argv w))) (Some (JStr (default_file w)))
  = Some (JStr path) ->
  lookup "file" (parseArgs (argv w)) = Some (JStr path)
  \/ (~ In (option_word "file") (words_of (argv w))
      /\ path = default_file w).
Proof.
  unfold or_else.
  pose proof (@parseArgs_truthy (argv w) "file") as T.
  destruct (ToBoolean (lookup "file" (parseArgs (argv w)))) eqn:B.
  - intro H. now left.
  - intro H. right. split; [|congruence].
    intro I. apply existsb_eqb_words in I.
    rewrite I in T. discriminate T. discriminate.
Qed.

(** X10.  The seed script calls the driver only when [MONGODB_URI] is
    set and the seed file (the value of [--file], or else the default
    file) exists, can be read and parses to an array; what it inserts is
    that array. *)
Theorem seed_reaches_store (w : world) :
  calls (main w) <> [] ->
  (exists uri, MONGODB_URI w = Some uri /\ uri <> "") /\
  exists path raw docs,
    (lookup "file" (parseArgs (argv w)) = Some (JStr path)
     \/ (~ In (option_word "file") (words_of (argv w))
         /\ path = default_file w)) /\
    existsSync w path = true /\ readFileSync w path = Some raw /\
    JSON_parse w raw = Some (JArr docs) /\
    forall d, In (InsertMany d) (calls (main w)) -> d = docs.
Proof.
  pose proof (@seed_file w) as F. unfold default_file in F at 1. revert F.
  seed_cases w; intros F C; try contradiction;
    (split;
     [ destruct (MONGODB_URI w) as [[|c u]|]; try discriminate;
       eexists; split; [reflexivity | discriminate]
     | exists path, raw, docs;
       (split; [apply F; reflexivity|]);
       repeat (split; [assumption|]);
       intros d I; simpl in I;
       repeat (destruct I as [I|I]; [try discriminate; congruence|]);
       contradiction ]).
Qed.

(** The sample run reaches the store, so its URI is set. *)
Lemma seed_reaches_store_witness :
  exists uri, MONGODB_URI Sample.seeding = Some uri /\ uri <> "".
Proof.
  apply (@seed_reaches_store Sample.seeding).
  vm_compute. discriminate.
Defined.

(** X11.  A run of the seed script that calls the driver begins with
    [connect()] and ends with [close()], each called once, whatever
    fails in between. *)
Theorem seed_closes_client (w : world) :
  calls (main w) = [] \/
  exists mid,
    calls (main w) = Connect :: mid ++ [Close]
    /\ ~ In Close mid /\ ~ In Connect mid.
Proof.
  seed_cases w; try (left; reflexivity); right;
    match goal with
    | |- exists mid, Connect :: ?l = _ /\ _ =>
        exists (removelast l); cbn [removelast app]
    end;
    (split; [reflexivity|]);
    split; intro I; simpl in I;
    repeat (destruct I as [I|I]; [discriminate|]); contradiction.
Qed.

(** X12.  The seed script never leaves with [process.exit(0)], and it
    ends with exit code 0 exactly when [insertMany] was called and
    resolved and [close()] resolved. *)
Theorem seed_exit_code (w : world) :
  ending_ (main w) <> Exited 0 /\
  (ending_ (main w) = Finished 0 <->
   (exists docs, In (InsertMany docs) (calls (main w)))
   /\ inserts w = true /\ closes w = true).
Proof.
  seed_cases w; (split; [discriminate|]); split; intro H;
    first
      [ discriminate H
      | split; [eexists; simpl; eauto 8 | split; reflexivity]
      | reflexivity
      | destruct H as [[d I] [H1 H2]];
        first
          [ discriminate H1
          | discriminate H2
          | simpl in I;
            repeat (destruct I as [I|I]; [discriminate|]); contradiction ] ].
Qed.

(** X13.  The seed script drops the collection only when [--drop] is
    among the words of the command line; when it is, an insert is
    preceded by the drop, and a drop that fails with
    [NamespaceNotFound] leads to the same calls and the same ending as a
    drop that resolves. *)
Theorem seed_drops_on_request (w : world) :
  (In Drop (calls (main w)) -> In (option_word "drop") (words_of (argv w))) /\
  (In (option_word "drop") (words_of (argv w)) ->
   forall d, In (InsertMany d) (calls (main w)) ->
     drops w <> DropRejects /\
     exists dbName collectionName,
       calls (main w)
       = [Connect; Open dbName collectionName; Drop; InsertMany d; Close]) /\
  calls (main (with_drops NamespaceNotFound w))
  = calls (main (with_drops DropResolves w)) /\
  ending_ (main (with_drops NamespaceNotFound w))
  = ending_ (main (with_drops DropResolves w)).
Proof.
  assert (T : ToBoolean (lookup "drop" (parseArgs (argv w)))
              = List.existsb (String.eqb (option_word "drop"))
                  (words_of (argv w))).
  { apply parseArgs_truthy. discriminate. }
  split; [|split].
  - revert T. seed_cases w; intros T I; simpl in I;
      try contradiction;
      try (apply existsb_eqb_words; now rewrite <- T);
      repeat (destruct I as [I|I]; [discriminate|]); contradiction.
  - intros D d. apply existsb_eqb_words in D. rewrite D in T. revert T.
    seed_cases w; intros T I; try discriminate T; simpl in I;
      try contradiction;
      repeat (destruct I as [I|I]; [try discriminate|]); try contradiction;
      (split; [discriminate|]);
      injection I as <-; eexists; eexists; reflexivity.
  - unfold main, with_drops, stop, seed; cbv zeta;
      cbn [argv MONGODB_URI DB_NAME defaultLocal defaultRemote existsSync
           readFileSync JSON_parse constructs connects opens drops inserts
           closes].
    destruct (ToBoolean (lookup "drop" (parseArgs (argv w))));
      destruct (ToBoolean (option_map JStr (MONGODB_URI w)));
      cbn [negb]; try (split; reflexivity);
      match goal with
      | |- context [or_else (lookup "file" ?a) ?d] =>
          destruct (or_else (lookup "file" a) d) as [[| | | path | |]|]
      end; try (split; reflexivity);
      destruct (existsSync w path); try (split; reflexivity);
      destruct (readFileSync w path) as [raw|]; try (split; reflexivity);
      destruct (JSON_parse w raw) as [[| | | | docs |]|];
      try (split; reflexivity);
      destruct (constructs w); destruct (connects w); destruct (opens w);
      destruct (inserts w); destruct (closes w); split; reflexivity.
Qed.

(** The sample run is asked to drop a collection that does not exist:
    it drops, then inserts. *)
Lemma seed_drops_witness :
  drops Sample.seeding <> DropRejects /\
  exists dbName collectionName,
    calls (main Sample.seeding)
    = [Connect; Open dbName collectionName; Drop;
       InsertMany [JObj []]; Close].
Proof.
  apply (proj1 (proj2 (@seed_drops_on_request Sample.seeding))).
  - vm_compute. left. reflexivity.
  - vm_compute. right. right. right. left. reflexivity.
Defined.

End SeedScript.

(* ===================================================================== *)
(** * The connection to the database *)
(* ===================================================================== *)

Section Connecting.

Import Connection.

Variable uri : option string.
Variable accepted : bool.

Lemma step_cache (e : event) (p p' : process) :
  cache_of_client p -> step uri accepted e p = Some p' -> cache_of_client p'.
Proof.
  unfold cache_of_client, step, enter, resume.
  destruct p as [[c db] n]. cbn [vars waiting client database fresh].
  intros I H. destruct e as [|connected].
  - destruct db as [d0|].
    + injection H as <-. exact I.
    + destruct uri as [u|];
        [destruct (Str.is_empty u); [|destruct accepted]|];
        injection H as <-; cbn; discriminate.
  - destruct n as [|n]; [discriminate|].
    destruct connected; [destruct c as [c0|]|];
      injection H as <-; cbn; try exact I.
    intros d E. congruence.
Qed.

Lemma run_cache (es : list event) :
  forall p p', cache_of_client p -> run uri accepted es p = Some p' ->
               cache_of_client p'.
Proof.
  induction es as [|e es IH]; intros p p' I H.
  - injection H as <-. exact I.
  - simpl in H. destruct (step uri accepted e p) as [q|] eqn:S; [|discriminate].
    exact (IH _ _ (@step_cache e p q I S) H).
Qed.

Lemma step_cached (e : event) (p p' : process) (d : nat) :
  cache_of_client p -> database (vars p) = Some d ->
  step uri accepted e p = Some p' -> vars p' = vars p.
Proof.
  unfold cache_of_client, step, enter, resume.
  destruct p as [[c db] n]. cbn [vars waiting client database fresh].
  intros I D H. subst db. specialize (I d eq_refl). subst c.
  destruct e as [|connected].
  - injection H as <-. reflexivity.
  - destruct n as [|n]; [discriminate|].
    destruct connected; injection H as <-; reflexivity.
Qed.

Lemma run_cached (es : list event) (d : nat) :
  forall p p', cache_of_client p -> database (vars p) = Some d ->
               run uri accepted es p = Some p' -> vars p' = vars p.
Proof.
  induction es as [|e es IH]; intros p p' I D H.
  - injection H as <-. reflexivity.
  - simpl in H. destruct (step uri accepted e p) as [q|] eqn:S; [|discriminate].
    pose proof (@step_cached e p q d I D S) as V.
    rewrite <- V.
    apply IH; [exact (@step_cache e p q I S) | now rewrite V | exact H].
Qed.

Lemma start_cache : cache_of_client start.
Proof. intros d H. discriminate. Qed.

Lemma run_app (es1 es2 : list event) (p : process) :
  run uri accepted (es1 ++ es2) p
  = match run uri accepted es1 p with
    | Some q => run uri accepted es2 q
    | None => None
    end.
Proof.
  revert p. induction es1 as [|e es1 IH]; intro p; [reflexivity|].
  simpl. destruct (step uri accepted e p); [apply IH | reflexivity].
Qed.

Lemma step_unset (e : event) (p : process) :
  ToBoolean (option_map JStr uri) = false ->
  step uri accepted e start = Some p -> p = start /\ e = Call.
Proof.
  intros U H. destruct e as [|connected]; [|discriminate].
  unfold step, enter in H. cbn in H.
  destruct uri as [u|];
    [simpl in U; apply negb_false_iff in U; rewrite U in H|];
    injection H as <-; split; reflexivity.
Qed.

End Connecting.

Section Cache.

Import Connection.

Lemma overlapping_calls (u : string) (n : nat) :
  Str.is_empty u = false ->
  forall c w,
    run (Some u) true (List.repeat Call n)
      {| vars := {| client := c; database := None |}; waiting := w |}
    = Some {| vars := {| client := match n with
                                   | O => c
                                   | S m =>
                                       Some (m + fresh {| client := c;
                                                          database := None |})%nat
                                   end;
                         database := None |};
              waiting := (n + w)%nat |}.
Proof.
  intro U. induction n as [|n IH]; intros c w; [reflexivity|].
  cbn [List.repeat run step enter vars database client waiting].
  rewrite U. cbn [vars waiting]. rewrite IH.
  unfold fresh. cbn [client].
  replace (n + S w)%nat with (S n + w)%nat by lia.
  destruct n as [|m]; destruct c as [c0|]; cbn [Nat.add];
    rewrite ?Nat.add_succ_r, ?Nat.add_0_r; reflexivity.
Qed.

(** X14.  However the calls of [getDb] interleave at their [await], once
    a database handle is cached the variables [client] and [database]
    never change again: the handle is one of the client in [client], no
    later call makes a client, and every later call returns that
    handle. *)
Theorem getDb_caches_once (uri : option string) (accepted : bool)
    (es1 es2 : list event) (p1 p2 : process) (d : nat) :
  run uri accepted es1 start = Some p1 ->
  database (vars p1) = Some d ->
  run uri accepted es2 p1 = Some p2 ->
  client (vars p1) = Some d /\ vars p2 = vars p1
  /\ enter uri accepted (vars p2) = (Cached d, vars p2).
Proof.
  intros R1 D R2.
  pose proof (@run_cache uri accepted es1 start p1 start_cache R1) as I.
  pose proof (@run_cached uri accepted es2 d p1 p2 I D R2) as V.
  split; [exact (I d D)|]. split; [exact V|].
  unfold enter. rewrite V, D. reflexivity.
Qed.

(** Two calls overlap, the first connects; two more calls follow, and
    the second connect fails: the handle cached first stays. *)
Lemma getDb_caches_once_witness :
  enter (Some "mongodb://localhost") true
    {| client := Some 1%nat; database := Some 1%nat |}
  = (Cached 1, {| client := Some 1%nat; database := Some 1%nat |}).
Proof.
  exact (proj2 (proj2
           (@getDb_caches_once (Some "mongodb://localhost") true
              [Call; Call; Settle true] [Call; Call; Settle false]
              {| vars := {| client := Some 1%nat; database := Some 1%nat |};
                 waiting := 1 |}
              {| vars := {| client := Some 1%nat; database := Some 1%nat |};
                 waiting := 0 |}
              1%nat (eq_refl _) (eq_refl _) (eq_refl _)))).
Defined.

(** X15.  While no handle is cached, every call of [getDb] that begins
    before a [connect()] has settled makes a client of its own; and the
    first call to resume caches the handle of the client made last, not
    of the client it connected. *)
Theorem getDb_overlapping_calls (u : string) (n : nat) :
  Str.is_empty u = false ->
  run (Some u) true (List.repeat Call (S n)) start
  = Some {| vars := {| client := Some n; database := None |};
            waiting := S n |} /\
  run (Some u) true (List.repeat Call (S n) ++ [Settle true]) start
  = Some {| vars := {| client := Some n; database := Some n |};
            waiting := n |}.
Proof.
  intro U.
  assert (R : run (Some u) true (List.repeat Call (S n)) start
              = Some {| vars := {| client := Some n; database := None |};
                        waiting := S n |}).
  { unfold start, initial. rewrite (@overlapping_calls u (S n) U).
    unfold fresh. cbn [client]. repeat f_equal; lia. }
  split; [exact R|].
  rewrite run_app, R. reflexivity.
Qed.

Lemma getDb_overlapping_witness :
  run (Some "mongodb://localhost") true [Call; Call; Call] start
  = Some {| vars := {| client := Some 2%nat; database := None |};
            waiting := 3 |} /\
  run (Some "mongodb://localhost") true [Call; Call; Call; Settle true] start
  = Some {| vars := {| client := Some 2%nat; database := Some 2%nat |};
            waiting := 2 |}.
Proof.
  apply (@getDb_overlapping_calls "mongodb://localhost" 2). reflexivity.
Defined.

(** X16.  Without [MONGODB_URI] (unset or empty), no call of [getDb]
    makes a client or waits: every call raises at once, and the
    variables stay as they were at the start. *)
Theorem getDb_without_uri (uri : option string) (accepted : bool)
    (es : list event) (p : process) :
  ToBoolean (option_map JStr uri) = false ->
  run uri accepted es start = Some p ->
  p = start /\ Forall (fun e => e = Call) es
  /\ enter uri accepted (vars p) = (NotSet, vars p).
Proof.
  intros U. revert p. induction es as [|e es IH]; intros p H.
  - injection H as <-. repeat split; [constructor|].
    unfold enter. cbn. destruct uri as [u|]; [|reflexivity].
    simpl in U. apply negb_false_iff in U. now rewrite U.
  - simpl in H.
    destruct (step uri accepted e start) as [q|] eqn:S; [|discriminate].
    destruct (@step_unset uri accepted e q U S) as [-> ->].
    destruct (IH _ H) as [E [F N]].
    repeat split; [exact E | constructor; [reflexivity | exact F] | exact N].
Qed.

Lemma getDb_without_uri_witness :
  Forall (fun e => e = Call) [Call; Call].
Proof.
  exact (proj1 (proj2 (@getDb_without_uri (Some "") true [Call; Call] start
                         (eq_refl _) (eq_refl _)))).
Defined.

End Cache.

(* ===================================================================== *)
(** * The routes and the store *)
(* ===================================================================== *)

Section Store.

Import Part000 Routes.

Lemma oid_eqb_eq (a b : ObjectId) : oid_eqb a b = true <-> a = b.
Proof.
  destruct a as [x], b as [y]. simpl. rewrite String.eqb_eq.
  split; congruence.
Qed.

Lemma oid_eqb_neq (a b : ObjectId) : oid_eqb a b = false <-> a <> b.
Proof.
  rewrite <- oid_eqb_eq. destruct (oid_eqb a b); split; congruence.
Qed.

Lemma findOne_found (id : ObjectId) (docs : list lessonDoc) (d : lessonDoc) :
  findOne id docs = Some d -> _id d = id /\ In d docs.
Proof.
  unfold findOne. intro H. apply find_some in H. destruct H as [I E].
  apply oid_eqb_eq in E. now split.
Qed.

Lemma findOne_none (id : ObjectId) (docs : list lessonDoc) :
  findOne id docs = None -> Forall (fun d => _id d <> id) docs.
Proof.
  unfold findOne. intro H. rewrite Forall_forall. intros d I.
  apply oid_eqb_neq. exact (find_none _ _ H d I).
Qed.

Lemma is_hex_lower (c : ascii) : Str.is_hex (Str.lower_char c) = Str.is_hex c.
Proof. each_char c; reflexivity. Qed.

Lemma lower_lower (c : ascii) :
  Str.lower_char (Str.lower_char c) = Str.lower_char c.
Proof. each_char c; reflexivity. Qed.

Lemma toLowerCase_twice (s : string) :
  Str.toLowerCase (Str.toLowerCase s) = Str.toLowerCase s.
Proof.
  unfold Str.toLowerCase.
  induction s as [|c s IH]; simpl; [reflexivity|].
  now rewrite lower_lower, IH.
Qed.

Lemma valid_hex_lower (s : string) :
  valid_hex (Str.toLowerCase s) = valid_hex s.
Proof.
  unfold valid_hex, Str.toLowerCase. f_equal.
  - f_equal. induction s as [|c s IH]; simpl; [reflexivity | now rewrite IH].
  - induction s as [|c s IH]; simpl; [reflexivity|].
    now rewrite is_hex_lower, IH.
Qed.

Lemma new_ObjectId_valid (id : string) :
  valid_hex id = true -> new_ObjectId id = Ok (parsed id).
Proof. unfold new_ObjectId. now intros ->. Qed.

Lemma new_ObjectId_invalid (id : string) :
  valid_hex id = false -> new_ObjectId id = Throw BSONError.
Proof. unfold new_ObjectId. now intros ->. Qed.

Lemma new_ObjectId_lower (id : string) :
  new_ObjectId (Str.toLowerCase id) = new_ObjectId id.
Proof.
  unfold new_ObjectId. now rewrite valid_hex_lower, toLowerCase_twice.
Qed.

(** X17.  [GET /lessons/:id] answers 400 to an identifier that is not
    24 hexadecimal digits, whether or not the database can be reached;
    a lesson it answers is one of the store with the identifier asked
    for; it answers 404 only when the store has no such lesson; the
    case of the digits does not matter; and it sends nothing but reads
    to the store. *)
Theorem get_lesson_reads (reachable : bool) (id : string) (db : database) :
  (valid_hex id = false ->
   get_lesson reachable id db = (ReplyError 400 "Invalid id", [])) /\
  (forall status doc ops,
     get_lesson reachable id db = (ReplyLesson status doc, ops) ->
     status = 200 /\
     exists d, doc = Some d /\ In d (lesson db) /\ _id d = parsed id) /\
  (forall ops,
     get_lesson reachable id db = (ReplyError 404 "Lesson not found", ops) ->
     Forall (fun d => _id d <> parsed id) (lesson db)) /\
  get_lesson reachable (Str.toLowerCase id) db = get_lesson reachable id db /\
  Forall (fun op => exists oid, op = FindOne oid)
         (snd (get_lesson reachable id db)).
Proof.
  unfold get_lesson. rewrite new_ObjectId_lower.
  destruct (valid_hex id) eqn:V.
  - rewrite (@new_ObjectId_valid id V).
    split; [discriminate|].
    destruct reachable.
    + destruct (findOne (parsed id) (lesson db)) as [d|] eqn:F.
      * destruct (@findOne_found _ _ _ F) as [E I].
        split; [|split; [discriminate | split; [reflexivity|]]].
        -- intros status doc ops H. injection H as <- <- <-.
           split; [reflexivity|]. exists d. auto.
        -- repeat constructor. now exists (parsed id).
      * pose proof (@findOne_none _ _ F) as N.
        split; [discriminate|].
        split; [intros ops _; exact N|].
        split; [reflexivity|].
        repeat constructor. now exists (parsed id).
    + split; [discriminate|]. split; [discriminate|].
      split; [reflexivity | constructor].
  - rewrite (@new_ObjectId_invalid id V).
    split; [reflexivity|]. split; [discriminate|]. split; [discriminate|].
    split; [reflexivity | constructor].
Qed.



Lemma updateOne_ids (id : ObjectId) (set : list (string * json))
    (docs : list lessonDoc) :
  List.map _id (fst (updateOne id set docs)) = List.map _id docs.
Proof.
  induction docs as [|d docs IH]; [reflexivity|].
  simpl. destruct (oid_eqb (_id d) id); [reflexivity|].
  destruct (updateOne id set docs) as [rest n]. simpl in *. now rewrite IH.
Qed.

Lemma updateOne_other (id o : ObjectId) (set : list (string * json))
    (docs : list lessonDoc) :
  o <> id -> findOne o (fst (updateOne id set docs)) = findOne o docs.
Proof.
  intro N. unfold findOne.
  induction docs as [|d docs IH]; [reflexivity|].
  simpl. destruct (oid_eqb (_id d) id) eqn:E.
  - apply oid_eqb_eq in E. simpl. rewrite E.
    assert (F : oid_eqb id o = false) by (apply oid_eqb_neq; congruence).
    now rewrite F.
  - destruct (updateOne id set docs) as [rest n]. simpl in *. now rewrite IH.
Qed.

Lemma updateOne_unmatched (id : ObjectId) (set : list (string * json))
    (docs : list lessonDoc) :
  snd (updateOne id set docs) = 0%nat ->
  fst (updateOne id set docs) = docs /\ findOne id docs = None.
Proof.
  unfold findOne.
  induction docs as [|d docs IH]; [split; reflexivity|].
  simpl. destruct (oid_eqb (_id d) id) eqn:E; [discriminate|].
  destruct (updateOne id set docs) as [rest n]. simpl in *.
  intro H. destruct (IH H) as [-> F]. now split.
Qed.


Lemma database_eta (db : database) :
  {| lesson := lesson db; order := order db |} = db.
Proof. now destruct db. Qed.

(** X19.  [PUT /lessons/:id] never touches the orders, keeps the
    lessons of the store in place with their identifiers and leaves
    every lesson with another identifier as it was.  It changes nothing
    when it sends no call to the store, and nothing when it answers 400
    or 404.  The store is changed only when it answers 200, or when the
    update was applied and the [findOne] that reads the lesson back
    rejects, which is answered 500. *)
Theorem put_lesson_frame (reachable updates finds : bool) (id : string)
    (body : value) (db db' : database) (r : reply)
    (ops : list storage_op) :
  put_lesson reachable updates finds id body db = (r, db', ops) ->
  order db' = order db /\
  List.map _id (lesson db') = List.map _id (lesson db) /\
  (forall o, o <> parsed id ->
             findOne o (lesson db') = findOne o (lesson db)) /\
  (ops = [] -> db' = db) /\
  (forall status error,
     r = ReplyError status error -> status <> 500 -> db' = db) /\
  (db' <> db ->
   (exists doc, r = ReplyLesson 200 doc)
   \/ (r = ReplyError 500 "Failed to update lesson" /\ finds = false
       /\ exists set, ops = [UpdateOne (parsed id) set; FindOne (parsed id)])).
Proof.
  unfold put_lesson.
  destruct (valid_hex id) eqn:V.
  2:{ rewrite (@new_ObjectId_invalid id V). intro H. injection H as <- <- <-.
      repeat split; try reflexivity. intro N. now destruct N. }
  rewrite (@new_ObjectId_valid id V).
  destruct (checked_update body) as [[update|]|e].
  2,3: intro H; injection H as <- <- <-; repeat split; try reflexivity;
       intro N; now destruct N.
  destruct reachable.
  2:{ intro H. injection H as <- <- <-. repeat split; try reflexivity.
      intro N. now destruct N. }
  cbv zeta. destruct updates.
  2:{ intro H. injection H as <- <- <-. repeat split; try reflexivity.
      intro N. now destruct N. }
  pose proof (updateOne_ids (parsed id) (own update) (lesson db)) as I.
  pose proof (fun o => @updateOne_other (parsed id) o (own update) (lesson db))
    as O.
  pose proof (updateOne_unmatched (parsed id) (own update) (lesson db)) as U.
  destruct (updateOne (parsed id) (own update) (lesson db))
    as [docs matchedCount].
  cbn [fst snd] in I, O, U.
  destruct (Nat.eqb matchedCount 0) eqn:M.
  - apply Nat.eqb_eq in M. destruct (U M) as [-> _].
    intro H. injection H as <- <- <-. cbn [lesson order].
    rewrite database_eta.
    repeat split; try reflexivity. intro N. now destruct N.
  - destruct finds; intro H; injection H as <- <- <-; cbn [lesson order];
      (split; [reflexivity|]); (split; [exact I|]); (split; [exact O|]);
      (split; [discriminate|]); split.
    + discriminate.
    + intros _. left. eexists. reflexivity.
    + intros status error E. injection E as <- _. intro N. now destruct N.
    + intros _. right. repeat split. eexists. reflexivity.
Qed.

(** The space of the sample lesson is set to 3: the store still holds
    the one lesson, and no order. *)
Lemma put_lesson_frame_witness :
  order (snd (fst (put_lesson true true true Sample.hex24
                     (Some (JObj [("space", JNum (Num.of_Z 3))]))
                     Sample.one_lesson))) = [] /\
  List.map _id
    (lesson (snd (fst (put_lesson true true true Sample.hex24
                         (Some (JObj [("space", JNum (Num.of_Z 3))]))
                         Sample.one_lesson))))
  = [Sample.oid1].
Proof.
  pose proof (@put_lesson_frame true true true Sample.hex24
                (Some (JObj [("space", JNum (Num.of_Z 3))]))
                Sample.one_lesson _ _ _ (eq_refl _)) as H.
  split; [exact (proj1 H) | exact (proj1 (proj2 H))].
Defined.



(** X21.  [POST /orders] never changes a lesson; a payload that
    [buildOrderDoc] rejects, as one whose name or phone does not pass,
    is answered 400 with the error and no call is sent to the store,
    whether or not the database can be reached; the store changes only
    by the one order answered with 201; and a call is sent to the store
    only for a payload that [buildOrderDoc] accepts: it is the insert of
    its document, answered 201, or 500 with nothing stored when the
    insert rejects. *)
Theorem post_orders_store (reachable inserts : bool) (fresh : ObjectId)
    (now : Z) (body : value) (db db' : database) (r : reply)
    (ops : list storage_op) :
  post_orders reachable inserts fresh now body db = (r, db', ops) ->
  lesson db' = lesson db /\
  (forall e, buildOrderDoc now body = Ok (Error e) ->
             r = ReplyError 400 e /\ db' = db /\ ops = []) /\
  (nameOk (field body "name") && phoneOk (field body "phone") = false ->
   r = ReplyError 400 "Invalid name or phone" /\ db' = db /\ ops = []) /\
  (db' <> db ->
   exists doc,
     buildOrderDoc now body = Ok (Doc doc) /\
     r = ReplyOrder 201 fresh doc /\
     order db' = (order db ++ [(fresh, doc)])%list /\
     ops = [InsertOne doc]) /\
  (ops <> [] ->
   exists doc,
     buildOrderDoc now body = Ok (Doc doc) /\ ops = [InsertOne doc] /\
     (r = ReplyOrder 201 fresh doc
      \/ (inserts = false /\ r = ReplyError 500 "Failed to create order"
          /\ db' = db))).
Proof.
  intro P.
  assert (E : forall e, buildOrderDoc now body = Ok (Error e) ->
                        r = ReplyError 400 e /\ db' = db /\ ops = []).
  { intros e B. unfold post_orders in P. rewrite B in P.
    injection P as <- <- <-. repeat split. }
  split; [|split; [exact E | split; [|split]]].
  - unfold post_orders in P.
    destruct (buildOrderDoc now body) as [[doc|error]|e];
      [destruct reachable; [destruct inserts|]|..];
      injection P as <- <- <-; reflexivity.
  - intro V. apply E. now apply build_invalid.
  - unfold post_orders in P.
    destruct (buildOrderDoc now body) as [[doc|error]|e];
      [destruct reachable; [destruct inserts|]|..];
      injection P as <- <- <-; intro N; try (now destruct N).
    exists doc. repeat split.
  - unfold post_orders in P.
    destruct (buildOrderDoc now body) as [[doc|error]|e];
      [destruct reachable; [destruct inserts|]|..];
      injection P as <- <- <-; intro N; try (now destruct N).
    + exists doc. repeat split. now left.
    + exists doc. repeat split. right. repeat split.
Qed.

(** A payload without a phone is answered 400 while the database is
    down. *)
Lemma post_orders_store_witness :
  fst (fst (post_orders false false Sample.oid1 0
              (Some (JObj [("name", JStr "Jane")])) Sample.one_lesson))
  = ReplyError 400 "Invalid name or phone".
Proof.
  exact (proj1 (proj1 (proj2 (proj2
           (@post_orders_store false false Sample.oid1 0
              (Some (JObj [("name", JStr "Jane")]))
              Sample.one_lesson _ _ _ (eq_refl _))))
           (eq_refl _))).
Defined.

End Store.

(* ===================================================================== *)
(** * The documents of orders *)
(* ===================================================================== *)

Section Documents.

Lemma passes_positive (n : number) :
  not_positive n = false <-> finite_positive n.
Proof.
  unfold not_positive, finite_positive, Num.isFinite, Num.leb, Num.ltb,
    SFleb, SFltb.
  rewrite (compare_swap n zero).
  destruct n as [s|s| |s m e]; try (split; [discriminate | intros [H _]; discriminate H]).
  - destruct s; split; try discriminate; intros [_ H]; discriminate H.
  - destruct s; simpl; split; try discriminate; try (intros [_ H]; discriminate H);
      intros _; split; reflexivity.
Qed.

Lemma mapM_inv {A B} (f : A -> result B) (l : list A) :
  forall bs, mapM f l = Ok bs -> Forall2 (fun a b => f a = Ok b) l bs.
Proof.
  induction l as [|a l IH]; intros bs H.
  - injection H as <-. constructor.
  - simpl in H. destruct (f a) as [b|e] eqn:F; [|discriminate].
    simpl in H. destruct (mapM f l) as [bs'|e]; [|discriminate].
    injection H as <-. constructor; [exact F | now apply IH].
Qed.

Lemma normalize_item_space (it : json) (o : orderItem) :
  normalize_item it = Ok o -> item_space it = Ok (space o).
Proof.
  unfold normalize_item, item_space.
  destruct (item_id (Some it)) as [id|e]; [|discriminate]. cbn [bind].
  destruct (ref_of id) as [r|e]; [|discriminate]. cbn [bind].
  destruct (Get (Some it) "space") as [sp|e]; [|discriminate]. cbn [bind].
  destruct (ToNumber sp) as [n|e]; [|discriminate]. cbn [bind].
  intro H. injection H as <-. reflexivity.
Qed.

Lemma stored_spaces (its : list json) (items : list orderItem) :
  Forall space_passes its ->
  Forall2 (fun it o => normalize_item it = Ok o) its items ->
  Forall (fun o => finite_positive (space o)) items.
Proof.
  intros P F. induction F as [|it o its items N F IH]; [constructor|].
  inversion P as [|? ? [n [S Q]] P']; subst.
  constructor; [|exact (IH P')].
  apply normalize_item_space in N. rewrite N in S. injection S as ->.
  now apply passes_positive.
Qed.

(** X22.  In every document [buildOrderDoc] produces, the name and the
    phone are those of the payload and passed their checks, [createdAt]
    is the clock reading, every stored space is a finite number above
    zero, and there is one stored item, or one stored reference, for
    each element of the non-empty array of the payload. *)
Theorem order_documents (now : Z) (body : value) (d : orderDoc) :
  Part000.buildOrderDoc now body = Ok (Doc d) ->
  nameOk (field body "name") = true /\
  phoneOk (field body "phone") = true /\
  match d with
  | Itemized name phone items createdAt =>
      name = field body "name" /\ phone = field body "phone" /\
      createdAt = now /\
      (exists its, field body "items" = Some (JArr its) /\ its <> [] /\
                   List.length items = List.length its) /\
      Forall (fun o => finite_positive (space o)) items
  | Batch name phone lessonIDs s createdAt =>
      name = field body "name" /\ phone = field body "phone" /\
      createdAt = now /\
      nonempty_array (field body "items") = false /\
      (exists ids, field body "lessonIDs" = Some (JArr ids) /\ ids <> [] /\
                   List.length lessonIDs = List.length ids) /\
      ToNumber (field body "space") = Ok s /\ finite_positive s
  end.
Proof.
  unfold Part000.buildOrderDoc. rewrite !Get_fields_of. cbn [bind].
  destruct (nameOk (field body "name")); [|discriminate].
  destruct (phoneOk (field body "phone")); [|discriminate].
  cbn [negb orb].
  destruct (field body "items") as [[| | | | [|it its] |]|] eqn:I;
    cbn [as_array nonempty_array].
  6:{ destruct (Part000.item_space_rejected (it :: its)) as [[|]|e] eqn:R;
        cbn [bind]; try discriminate.
      destruct (mapM normalize_item (it :: its)) as [items|e] eqn:M;
        cbn [bind]; [|discriminate].
      intro H. injection H as <-.
      apply item_space_rejected_false in R. apply mapM_inv in M.
      repeat split.
      - exists (it :: its). repeat split; [discriminate|].
        symmetry. exact (Forall2_length M).
      - exact (stored_spaces R M). }
  all: destruct (field body "lessonIDs") as [[| | | | [|id ids] |]|] eqn:L;
    cbn [as_array]; try discriminate;
    destruct (field body "space") as [sp|] eqn:S; cbn [is_defined];
    try discriminate;
    (destruct (ToNumber (Some sp)) as [sv|e] eqn:N; cbn [bind];
     [|discriminate]);
    (destruct (not_positive sv) eqn:Q; [discriminate|]);
    (destruct (mapM (fun id => ref_of (Some id)) (id :: ids))
       as [refs|e] eqn:M; cbn [bind]; [|discriminate]);
    intro H; injection H as <-;
    apply mapM_inv in M; apply passes_positive in Q;
    repeat split; try (apply Q);
    exists (id :: ids); repeat split; try discriminate;
    symmetry; exact (Forall2_length M).
Qed.

(** The batch order of two places. *)
Lemma order_documents_witness :
  nameOk (field Sample.batch_two "name") = true /\
  phoneOk (field Sample.batch_two "phone") = true /\
  Some (JStr "Jane Doe") = field Sample.batch_two "name" /\
  Some (JStr "12345") = field Sample.batch_two "phone" /\
  7 = 7 /\
  nonempty_array (field Sample.batch_two "items") = false /\
  (exists ids, field Sample.batch_two "lessonIDs" = Some (JArr ids)
               /\ ids <> []
               /\ List.length [RefId Sample.oid1] = List.length ids) /\
  ToNumber (field Sample.batch_two "space") = Ok Sample.two /\
  finite_positive Sample.two.
Proof.
  apply (@order_documents 7 Sample.batch_two
           (Batch (Some (JStr "Jane Doe")) (Some (JStr "12345"))
              [RefId Sample.oid1] Sample.two 7)).
  reflexivity.
Defined.

(** X23.  [buildOrderDoc] answers "Provide items[] or lessonIDs[] with
    space" exactly when the name and the phone pass, [items] is not a
    non-empty array, and [lessonIDs] is not a non-empty array or [space]
    is undefined; a [space] of [null] counts as given. *)
Theorem missing_order_shape (now : Z) (body : value) :
  Part000.buildOrderDoc now body
  = Ok (Error "Provide items[] or lessonIDs[] with space")
  <-> nameOk (field body "name") = true /\
      phoneOk (field body "phone") = true /\
      nonempty_array (field body "items") = false /\
      (nonempty_array (field body "lessonIDs") = false
       \/ field body "space" = None).
Proof.
  unfold Part000.buildOrderDoc. rewrite !Get_fields_of. cbn [bind].
  destruct (nameOk (field body "name"));
    [|split; [discriminate | intros [H _]; discriminate H]].
  destruct (phoneOk (field body "phone"));
    [|split; [discriminate | intros [_ [H _]]; discriminate H]].
  cbn [negb orb].
  destruct (field body "items") as [[| | | | [|it its] |]|] eqn:I;
    cbn [as_array nonempty_array].
  6:{ split; [|intros [_ [_ [H _]]]; discriminate H].
      destruct (Part000.item_space_rejected (it :: its)) as [[|]|e];
        cbn [bind]; try discriminate.
      destruct (mapM normalize_item (it :: its)); discriminate. }
  all: destruct (field body "lessonIDs") as [[| | | | [|id ids] |]|] eqn:L;
    cbn [as_array nonempty_array];
    try (split; [intros _; repeat split; now left | reflexivity]);
    destruct (field body "space") as [sp|] eqn:S; cbn [is_defined];
    try (split; [intros _; repeat split; now right | reflexivity]);
    (split; [|intros [_ [_ [_ [H|H]]]]; discriminate H]);
    (destruct (ToNumber (Some sp)) as [sv|e]; cbn [bind]; [|discriminate]);
    (destruct (not_positive sv); [discriminate|]);
    destruct (mapM (fun id => ref_of (Some id)) (id :: ids)); discriminate.
Qed.

End Documents.

(* ===================================================================== *)
(** * Escaping, once more *)
(* ===================================================================== *)

Section EscapingText.

Import RegExp.

Lemma escape_text_injective (s : string) :
  forall t, escape_text s = escape_text t -> s = t.
Proof.
  assert (B : SyntaxCharacter "\" = true) by reflexivity.
  induction s as [|c s IH]; intros [|d t]; rewrite ?escape_text_cons.
  - reflexivity.
  - destruct (SyntaxCharacter d); discriminate.
  - destruct (SyntaxCharacter c); discriminate.
  - destruct (SyntaxCharacter c) eqn:C, (SyntaxCharacter d) eqn:D; intro H.
    + injection H as -> H. now rewrite (IH _ H).
    + injection H as <- _. congruence.
    + injection H as -> _. congruence.
    + injection H as -> H. now rewrite (IH _ H).
Qed.

Lemma escape_text_plain (s : string) :
  escape_text s = s <-> Str.existsb SyntaxCharacter s = false.
Proof.
  induction s as [|c s IH]; [split; reflexivity|].
  rewrite escape_text_cons. cbn [Str.existsb].
  destruct (SyntaxCharacter c) eqn:C; cbn [orb].
  - split; [|discriminate]. intro H. injection H as _ H.
    apply (f_equal String.length) in H. cbn [String.length] in H.
    pose proof (escape_text_length s). lia.
  - rewrite <- IH. split; intro H; [now injection H | now rewrite H].
Qed.

Lemma escape_text_bound (s : string) :
  (String.length (escape_text s) <= 2 * String.length s)%nat.
Proof.
  induction s as [|c s IH]; [simpl; lia|].
  rewrite escape_text_cons.
  destruct (SyntaxCharacter c); cbn [String.length]; lia.
Qed.

(** X24.  On strings, [escapeRegex] never raises, returns different
    texts for different terms, returns a term without any of the
    characters [. * + ? ^ $ { } ( ) | [ ] \] as it is and changes every
    other term, and at most doubles the length. *)
Theorem escapeRegex_texts :
  (forall s, exists e, escapeRegex (Some (JStr s)) = Ok e /\
     (String.length s <= String.length e <= 2 * String.length s)%nat) /\
  (forall s t, escapeRegex (Some (JStr s)) = escapeRegex (Some (JStr t)) ->
               s = t) /\
  (forall s, escapeRegex (Some (JStr s)) = Ok s
             <-> Str.existsb SyntaxCharacter s = false).
Proof.
  split; [|split].
  - intro s. exists (escape_text s). split; [reflexivity|].
    split; [apply escape_text_length | apply escape_text_bound].
  - intros s t H. rewrite !escapeRegex_string in H.
    injection H as H. now apply escape_text_injective.
  - intro s. rewrite escapeRegex_string. rewrite <- escape_text_plain.
    split; intro H; [now injection H | now rewrite H].
Qed.

End EscapingText.
